(** * Job portal backend: routes over a document store

    A shallow embedding of the Express/Mongoose backend of the job portal
    (routes [authRoute.js], [jobsRoute.js], [applicationsRoute.js],
    [adminRoute.js], the [auth.js] middleware and the three Mongoose models),
    followed by the properties of the request-authorization and
    application-lifecycle rules.

    Every [await Model.operation(...)] of the source is one primitive database
    operation ([DbOp]); a route handler is a program ([Prog]) issuing such
    operations, so that handlers can be run sequentially, run with the
    operations of other requests interleaved between their own, and observed
    through the sequence of operations they issue. *)

From stdpp Require Import gmap strings list fin_maps sorting.
From Stdlib Require Import ZArith NArith Ascii String Lia.

Local Open Scope string_scope.
Local Open Scope Z_scope.
Local Open Scope list_scope.

(** ** Identifiers

    A Mongo [ObjectId] is 12 bytes, written as 24 hexadecimal digits.  Route
    parameters and token payloads carry it as a string, documents carry it as
    an [ObjectId]; Mongoose casts the former to the latter and throws a
    [CastError] when the string is not 24 hexadecimal digits. *)

Notation ObjectId := N (only parsing).

Definition hex_digit (c : ascii) : option N :=
  let n := N_of_ascii c in
  if ((48 <=? n) && (n <=? 57))%N then Some (n - 48)%N
  else if ((97 <=? n) && (n <=? 102))%N then Some (n - 87)%N
  else if ((65 <=? n) && (n <=? 70))%N then Some (n - 55)%N
  else None.

Fixpoint hex_value (acc : N) (s : string) : option N :=
  match s with
  | EmptyString => Some acc
  | String c s' =>
      match hex_digit c with
      | Some d => hex_value (16 * acc + d)%N s'
      | None => None
      end
  end.

(** [jobId.match(/^[0-9a-fA-F]{24}$/)] of [applicationsRoute.js]. *)
Fixpoint all_hex (s : string) : bool :=
  match s with
  | EmptyString => true
  | String c s' => match hex_digit c with Some _ => all_hex s' | None => false end
  end.

Definition is_hex24 (s : string) : bool :=
  Nat.eqb (String.length s) 24 && all_hex s.

(** An identifier as a handler passes it to Mongoose: a raw string
    ([req.params.id], [decoded.id]) or an [ObjectId] ([req.user._id],
    [application.job], [new mongoose.Types.ObjectId(jobId)]). *)
Inductive IdArg :=
| IdStr (s : string)
| IdObj (o : ObjectId).

Definition castObjectId (i : IdArg) : option ObjectId :=
  match i with
  | IdStr s => if is_hex24 s then hex_value 0%N s else None
  | IdObj o => Some o
  end.

(** JavaScript truthiness of a possibly absent string: [undefined] and the
    empty string are falsy. *)
Definition truthy (v : option string) : bool :=
  match v with
  | Some s => negb (String.eqb s "")
  | None => false
  end.

(** ** Documents *)

Module User.
Record profile := mkProfile {
  phone : option string;
  address : option string;
  resume : option string;
  experience : option string;
  education : option string }.

(** [userSchema]; the [skills] array of the profile and the timestamps are
    left out, no route modelled here reads them. *)
Record t := mk {
  _id : ObjectId;
  name : string;
  email : string;
  password : string;
  role : string;
  prof : profile }.

Definition no_profile : profile := mkProfile None None None None None.
End User.

Module Job.
(** [jobSchema], with the fields the modelled routes read or write;
    [createdAt] is the timestamp Mongoose adds ([timestamps: true]), in
    milliseconds. *)
Record t := mk {
  _id : ObjectId;
  title : string;
  company : string;
  location : string;
  type : string;
  description : string;
  category : option string;
  postedBy : ObjectId;
  isActive : bool;
  applicationCount : Z;
  createdAt : Z }.
End Job.

Module Application.
(** [applicationSchema]; the timestamps are left out. *)
Record t := mk {
  _id : ObjectId;
  job : ObjectId;
  applicant : ObjectId;
  status : string;
  coverLetter : option string;
  resume : option string;
  portfolio : option string;
  linkedin : option string;
  github : option string;
  expectedSalary : option string;
  availability : option string;
  additionalInfo : option string }.

(** The fields a handler passes to [Application.create]. *)
Record fields := mkFields {
  f_job : IdArg;
  f_applicant : ObjectId;
  f_coverLetter : option string;
  f_resume : option string;
  f_portfolio : option string;
  f_linkedin : option string;
  f_github : option string;
  f_expectedSalary : option string;
  f_availability : option string;
  f_additionalInfo : option string }.
End Application.

(** ** The store: three collections keyed by [_id] *)

Record Store := mkStore {
  users : gmap N User.t;
  jobs : gmap N Job.t;
  applications : gmap N Application.t }.

Definition with_users (f : gmap N User.t -> gmap N User.t) (s : Store) : Store :=
  mkStore (f (users s)) (jobs s) (applications s).
Definition with_jobs (f : gmap N Job.t -> gmap N Job.t) (s : Store) : Store :=
  mkStore (users s) (f (jobs s)) (applications s).
Definition with_applications
    (f : gmap N Application.t -> gmap N Application.t) (s : Store) : Store :=
  mkStore (users s) (jobs s) (f (applications s)).

(** [Model.findOne(filter)]: some document satisfying the filter, if any. *)
Definition find_one {A} (P : A -> bool) (m : gmap N A) : option A :=
  snd <$> List.find (fun kv => P (snd kv)) (map_to_list m).


(** ** Regular expressions of the job search

    [GET /api/jobs] hands the [search], [location] and [category] query
    strings to the store as [{ $regex: ..., $options: "i" }].  The operator is
    the store's (PCRE); the fragment modelled here is: ordinary characters,
    [.] (any character but a line feed) and a backslash followed by a
    metacharacter (that character, literally).  [regex_compile] answers [None]
    on every other pattern; text is ASCII. *)

Inductive Atom :=
| Lit (c : ascii)
| AnyChar.

Definition is_meta (c : ascii) : bool :=
  existsb (Ascii.eqb c) (list_ascii_of_string "\^$.|?*+()[]{}").

Fixpoint regex_compile (p : string) : option (list Atom) :=
  match p with
  | EmptyString => Some []
  | String c p' =>
      if Ascii.eqb c "." then cons AnyChar <$> regex_compile p'
      else if Ascii.eqb c "\" then
        match p' with
        | String e p'' =>
            if is_meta e then cons (Lit e) <$> regex_compile p'' else None
        | EmptyString => None
        end
      else if is_meta c then None
      else cons (Lit c) <$> regex_compile p'
  end.

Definition to_lower (c : ascii) : ascii :=
  let n := N_of_ascii c in
  if ((65 <=? n) && (n <=? 90))%N then ascii_of_N (n + 32) else c.

Definition atom_match (a : Atom) (c : ascii) : bool :=
  match a with
  | Lit l => Ascii.eqb (to_lower l) (to_lower c)
  | AnyChar => negb (Ascii.eqb c "010")
  end.

Fixpoint match_here (r : list Atom) (s : string) : bool :=
  match r with
  | [] => true
  | a :: r' =>
      match s with
      | EmptyString => false
      | String c s' => atom_match a c && match_here r' s'
      end
  end.

(** An unanchored, case-insensitive match somewhere in [s]. *)
Fixpoint regex_test (r : list Atom) (s : string) : bool :=
  match_here r s ||
  match s with
  | EmptyString => false
  | String _ s' => regex_test r s'
  end.

(** The filter document [query] that [GET /api/jobs] builds. *)
Record JobQuery := mkQuery {
  q_or : option (list Atom);
  q_location : option (list Atom);
  q_type : option string;
  q_category : option (list Atom) }.

Definition cond {A} (c : option A) (P : A -> bool) : bool :=
  match c with
  | Some x => P x
  | None => true
  end.

(** [query] always carries [isActive: true]. *)
Definition job_matches (q : JobQuery) (j : Job.t) : bool :=
  Job.isActive j
  && cond (q_or q) (fun r =>
       regex_test r (Job.title j) || regex_test r (Job.company j)
       || regex_test r (Job.description j))
  && cond (q_location q) (fun r => regex_test r (Job.location j))
  && cond (q_type q) (fun t => String.eqb (Job.type j) t)
  && cond (q_category q) (fun r =>
       match Job.category j with
       | Some c => regex_test r c
       | None => false
       end).

Definition newer_first (a b : Job.t) : Prop := Job.createdAt b <= Job.createdAt a.

#[local] Instance newer_first_dec : RelDecision newer_first.
Proof. intros a b. unfold newer_first. apply Z.le_dec. Defined.

(** [Job.find(query).sort({ createdAt: -1 })]. *)
Definition find_jobs_sorted (q : JobQuery) (m : gmap N Job.t) : list Job.t :=
  merge_sort newer_first (List.filter (job_matches q) (snd <$> map_to_list m)).

(** ** Profile updates

    [PUT /api/auth/profile] passes the request body, less two keys, to
    [User.findByIdAndUpdate].  A body is a JSON object; the values modelled
    are strings and objects of strings. *)

Inductive UpdateValue :=
| UStr (s : string)
| UObj (o : gmap string string).

(** One assignment of the [$set] document Mongoose sends to the store. *)
Inductive UserSet :=
| SetName (s : string)
| SetEmail (s : string)
| SetPassword (s : string)
| SetRole (s : string)
| SetProfile (p : User.profile)
| SetPhone (s : string)
| SetAddress (s : string)
| SetResume (s : string)
| SetExperience (s : string)
| SetEducation (s : string).

(** ** Errors and primitive operations *)

Inductive Exn :=
| CastError
| DuplicateKey
| ValidationError
| JsonWebTokenError.

Inductive Except (A : Type) :=
| Ok (a : A)
| Raise (e : Exn).
Arguments Ok {A} a.
Arguments Raise {A} e.

Inductive AppFilter :=
| ByJob (i : IdArg)
| ByApplicant (i : IdArg).

(** One constructor per Mongoose call of the modelled routes; the index is the
    type of what the call resolves to. *)
Inductive DbOp : Type -> Type :=
| UserFindById (i : IdArg) : DbOp (Except (option User.t))
| UserFindOneByEmail (e : string) : DbOp (option User.t)
| UserCreate (name email password role : string) : DbOp (Except User.t)
| UserFindByIdAndUpdate (i : IdArg) (upd : list UserSet) : DbOp (Except (option User.t))
| UserFindByIdAndDelete (i : IdArg) : DbOp (Except (option User.t))
| JobFindById (i : IdArg) : DbOp (Except (option Job.t))
| JobFindByIdAndDelete (i : IdArg) : DbOp (Except (option Job.t))
| JobIncApplicationCount (i : IdArg) (d : Z) (new : bool) : DbOp (Except (option Job.t))
| JobFind (q : JobQuery) (limit skip : nat) : DbOp (list Job.t)
| JobCountDocuments (q : JobQuery) : DbOp nat
| AppFindById (i : IdArg) : DbOp (Except (option Application.t))
| AppFindOne (job : IdArg) (applicant : ObjectId) : DbOp (Except (option Application.t))
| AppCreate (f : Application.fields) : DbOp (Except Application.t)
| AppFindByIdAndDelete (i : IdArg) : DbOp (Except (option Application.t))
| AppFindByIdAndUpdateStatus (i : IdArg) (status : option string)
    : DbOp (Except (option Application.t))
| AppDeleteMany (f : AppFilter) : DbOp (Except unit).

(** The Mongoose method an operation stands for. *)
Definition method {X} (op : DbOp X) : string :=
  match op with
  | UserFindById _ => "User.findById"
  | UserFindOneByEmail _ => "User.findOne"
  | UserCreate _ _ _ _ => "User.create"
  | UserFindByIdAndUpdate _ _ => "User.findByIdAndUpdate"
  | UserFindByIdAndDelete _ => "User.findByIdAndDelete"
  | JobFindById _ => "Job.findById"
  | JobFindByIdAndDelete _ => "Job.findByIdAndDelete"
  | JobIncApplicationCount _ _ _ => "Job.findByIdAndUpdate"
  | JobFind _ _ _ => "Job.find"
  | JobCountDocuments _ => "Job.countDocuments"
  | AppFindById _ => "Application.findById"
  | AppFindOne _ _ => "Application.findOne"
  | AppCreate _ => "Application.create"
  | AppFindByIdAndDelete _ => "Application.findByIdAndDelete"
  | AppFindByIdAndUpdateStatus _ _ => "Application.findByIdAndUpdate"
  | AppDeleteMany _ => "Application.deleteMany"
  end.

(** ** External collaborators: token signing and password hashing

    [jwt_verify t] is [Some id] when [jwt.verify(t, JWT_SECRET)] returns a
    payload whose [id] is [id], and [None] when it throws (malformed, expired
    or wrongly signed token). *)
Class Crypto := {
  jwt_verify : string -> option string;
  jwt_sign : ObjectId -> string;
  bcrypt_hash : string -> string }.

Definition find_by_id {A} (i : IdArg) (m : gmap N A) : Except (option A) :=
  match castObjectId i with
  | Some o => Ok (m !! o)
  | None => Raise CastError
  end.

Definition same_pair (j u : ObjectId) (a : Application.t) : bool :=
  N.eqb (Application.job a) j && N.eqb (Application.applicant a) u.

Definition has_email (e : string) (u : User.t) : bool := String.eqb (User.email u) e.

(** The [enum] of [userSchema.role]. *)
Definition role_enum : list string := ["user"; "admin"].

Definition includes (l : list string) (x : string) : bool := existsb (String.eqb x) l.

(** Update validators ([runValidators: true]): [required] paths must not be
    set to the empty string, [role] must be in its [enum]. *)
Definition valid_set (u : UserSet) : bool :=
  match u with
  | SetName v | SetEmail v | SetPassword v => negb (String.eqb v "")
  | SetRole v => includes role_enum v
  | _ => true
  end.

Definition set_prof (f : User.profile -> User.profile) (u : User.t) : User.t :=
  User.mk (User._id u) (User.name u) (User.email u) (User.password u) (User.role u)
    (f (User.prof u)).

Definition apply_set (u : User.t) (x : UserSet) : User.t :=
  match x with
  | SetName v => User.mk (User._id u) v (User.email u) (User.password u) (User.role u) (User.prof u)
  | SetEmail v => User.mk (User._id u) (User.name u) v (User.password u) (User.role u) (User.prof u)
  | SetPassword v => User.mk (User._id u) (User.name u) (User.email u) v (User.role u) (User.prof u)
  | SetRole v => User.mk (User._id u) (User.name u) (User.email u) (User.password u) v (User.prof u)
  | SetProfile p => set_prof (fun _ => p) u
  | SetPhone v =>
      set_prof (fun p => User.mkProfile (Some v) (User.address p) (User.resume p)
                           (User.experience p) (User.education p)) u
  | SetAddress v =>
      set_prof (fun p => User.mkProfile (User.phone p) (Some v) (User.resume p)
                           (User.experience p) (User.education p)) u
  | SetResume v =>
      set_prof (fun p => User.mkProfile (User.phone p) (User.address p) (Some v)
                           (User.experience p) (User.education p)) u
  | SetExperience v =>
      set_prof (fun p => User.mkProfile (User.phone p) (User.address p) (User.resume p)
                           (Some v) (User.education p)) u
  | SetEducation v =>
      set_prof (fun p => User.mkProfile (User.phone p) (User.address p) (User.resume p)
                           (User.experience p) (Some v)) u
  end.

Definition inc_count (d : Z) (j : Job.t) : Job.t :=
  Job.mk (Job._id j) (Job.title j) (Job.company j) (Job.location j) (Job.type j)
    (Job.description j) (Job.category j) (Job.postedBy j) (Job.isActive j)
    (Job.applicationCount j + d) (Job.createdAt j).

Definition set_status (v : option string) (a : Application.t) : Application.t :=
  match v with
  | Some st =>
      Application.mk (Application._id a) (Application.job a) (Application.applicant a) st
        (Application.coverLetter a) (Application.resume a) (Application.portfolio a)
        (Application.linkedin a) (Application.github a) (Application.expectedSalary a)
        (Application.availability a) (Application.additionalInfo a)
  | None => a
  end.

(** A new application document: [status] takes its default, ["pending"]. *)
Definition new_application (id j : ObjectId) (f : Application.fields) : Application.t :=
  Application.mk id j (Application.f_applicant f) "pending"
    (Application.f_coverLetter f) (Application.f_resume f) (Application.f_portfolio f)
    (Application.f_linkedin f) (Application.f_github f) (Application.f_expectedSalary f)
    (Application.f_availability f) (Application.f_additionalInfo f).

Definition filter_ref (f : AppFilter) : IdArg :=
  match f with
  | ByJob i => i
  | ByApplicant i => i
  end.

Definition filter_field (f : AppFilter) (a : Application.t) : ObjectId :=
  match f with
  | ByJob _ => Application.job a
  | ByApplicant _ => Application.applicant a
  end.

Section Semantics.
Context `{Crypto}.

(** What one operation returns and how it changes the store.  The unique
    indexes are the store's: [email] on users, [(job, applicant)] on
    applications; an insert or update that would break one raises
    [DuplicateKey] (Mongo error 11000). *)
Definition exec_op {X} (op : DbOp X) (s : Store) : X * Store :=
  match op in DbOp X return X * Store with
  | UserFindById i => (find_by_id i (users s), s)
  | UserFindOneByEmail e => (find_one (has_email e) (users s), s)
  | UserCreate n e p r =>
      if String.eqb n "" || String.eqb e "" || String.eqb p ""
         || negb (includes role_enum r)
      then (Raise ValidationError, s)
      else if bool_decide (is_Some (find_one (has_email e) (users s)))
      then (Raise DuplicateKey, s)
      else
        let id := fresh (dom (users s)) in
        let u := User.mk id n e (bcrypt_hash p) r User.no_profile in
        (Ok u, with_users (insert id u) s)
  | UserFindByIdAndUpdate i upd =>
      match castObjectId i with
      | None => (Raise CastError, s)
      | Some o =>
          if negb (forallb valid_set upd) then (Raise ValidationError, s)
          else
            match users s !! o with
            | None => (Ok None, s)
            | Some u =>
                let u' := fold_left apply_set upd u in
                if bool_decide (is_Some
                     (find_one (has_email (User.email u')) (delete o (users s))))
                then (Raise DuplicateKey, s)
                else (Ok (Some u'), with_users (insert o u') s)
            end
      end
  | UserFindByIdAndDelete i =>
      match castObjectId i with
      | None => (Raise CastError, s)
      | Some o => (Ok (users s !! o), with_users (delete o) s)
      end
  | JobFindById i => (find_by_id i (jobs s), s)
  | JobFindByIdAndDelete i =>
      match castObjectId i with
      | None => (Raise CastError, s)
      | Some o => (Ok (jobs s !! o), with_jobs (delete o) s)
      end
  | JobIncApplicationCount i d new =>
      match castObjectId i with
      | None => (Raise CastError, s)
      | Some o =>
          match jobs s !! o with
          | None => (Ok None, s)
          | Some j =>
              (Ok (Some (if new then inc_count d j else j)),
               with_jobs (insert o (inc_count d j)) s)
          end
      end
  | JobFind q limit skip =>
      (take limit (drop skip (find_jobs_sorted q (jobs s))), s)
  | JobCountDocuments q =>
      (List.length (List.filter (job_matches q) (snd <$> map_to_list (jobs s))), s)
  | AppFindById i => (find_by_id i (applications s), s)
  | AppFindOne j u =>
      match castObjectId j with
      | None => (Raise CastError, s)
      | Some o => (Ok (find_one (same_pair o u) (applications s)), s)
      end
  | AppCreate f =>
      match castObjectId (Application.f_job f) with
      | None => (Raise CastError, s)
      | Some o =>
          if bool_decide (is_Some
               (find_one (same_pair o (Application.f_applicant f)) (applications s)))
          then (Raise DuplicateKey, s)
          else
            let id := fresh (dom (applications s)) in
            let a := new_application id o f in
            (Ok a, with_applications (insert id a) s)
      end
  | AppFindByIdAndDelete i =>
      match castObjectId i with
      | None => (Raise CastError, s)
      | Some o => (Ok (applications s !! o), with_applications (delete o) s)
      end
  | AppFindByIdAndUpdateStatus i st =>
      match castObjectId i with
      | None => (Raise CastError, s)
      | Some o =>
          match applications s !! o with
          | None => (Ok None, s)
          | Some a =>
              (Ok (Some (set_status st a)),
               with_applications (insert o (set_status st a)) s)
          end
      end
  | AppDeleteMany f =>
      match castObjectId (filter_ref f) with
      | None => (Raise CastError, s)
      | Some o =>
          (Ok tt,
           with_applications
             (filter (fun kv => filter_field f (snd kv) <> o)) s)
      end
  end.
End Semantics.

(** ** Handlers as programs over the store *)

Inductive Prog (A : Type) : Type :=
| Ret (a : A)
| Throw (e : Exn)
| Do {X : Type} (op : DbOp X) (k : X -> Prog A).
Arguments Ret {A} a.
Arguments Throw {A} e.
Arguments Do {A X} op k.

Fixpoint bind {A B} (p : Prog A) (f : A -> Prog B) : Prog B :=
  match p with
  | Ret a => f a
  | Throw e => Throw e
  | Do op k => Do op (fun x => bind (k x) f)
  end.

Notation "'let*' x ':=' c 'in' k" := (bind c (fun x => k))
  (at level 10, x pattern, c at level 100, k at level 200).

(** [await Model.op(...)], the rejection of the promise becoming a [throw]. *)
Definition call {X} (op : DbOp (Except X)) : Prog X :=
  Do op (fun r => match r with Ok x => Ret x | Raise e => Throw e end).

Definition query {X} (op : DbOp X) : Prog X := Do op Ret.

(** [try { p } catch (error) { h error }]. *)
Fixpoint try_catch {A} (p : Prog A) (h : Exn -> Prog A) : Prog A :=
  match p with
  | Ret a => Ret a
  | Throw e => h e
  | Do op k => Do op (fun x => try_catch (k x) h)
  end.

(** The operations of other requests, packed with their result type. *)
Definition AnyOp : Type := sigT DbOp.
Definition any {X} (op : DbOp X) : AnyOp := existT X op.

Section Running.
Context `{Crypto}.

(** One request handled alone. *)
Fixpoint run {A} (p : Prog A) (s : Store) : Except A * Store :=
  match p with
  | Ret a => (Ok a, s)
  | Throw e => (Raise e, s)
  | Do op k => let (x, s') := exec_op op s in run (k x) s'
  end.

(** The operations a handler issues, in order, when handled alone. *)
Fixpoint issued {A} (p : Prog A) (s : Store) : list string :=
match p with
| Do op k => let (x, s') := exec_op op s in method op :: issued (k x) s'
| _ => []
end.

Definition exec_any (o : AnyOp) (s : Store) : Store := snd (exec_op (projT2 o) s).

Definition exec_all (l : list AnyOp) (s : Store) : Store :=
  fold_left (fun s o => exec_any o s) l s.

(** A request handled while others are: before the handler's [n]-th
    operation, the operations of the [n]-th element of [others] reach the
    store (each operation is atomic, nothing else is ordered). *)
Fixpoint run_among {A} (others : list (list AnyOp)) (p : Prog A) (s : Store)
    : Except A * Store :=
  match p with
  | Ret a => (Ok a, s)
  | Throw e => (Raise e, s)
  | Do op k =>
      let (x, s') := exec_op op (exec_all (hd [] others) s) in
      run_among (tl others) (k x) s'
  end.
End Running.

(** ** Requests and responses *)

Module Req.
(** [authorization] is [req.header("Authorization")], [id] the route
    parameter ([req.params.id]), [file] the name under which the upload
    middleware stored the uploaded file ([req.file.filename]), [body] the
    parsed body or query. *)
Record t (B : Type) := mk {
  authorization : option string;
  id : string;
  file : option string;
  body : B }.
Arguments mk {B}.
Arguments authorization {B}.
Arguments id {B}.
Arguments file {B}.
Arguments body {B}.
End Req.

Inductive Json :=
| Message (m : string)
| MessageApplication (m : string) (a : Application.t)
| MessageUser (m : string) (u : option User.t)
| MessageUserToken (m token : string) (id : ObjectId) (name email role : string)
| JsonApplication (a : Application.t)
| JsonJobs (jobs : list Job.t) (totalPages : nat) (currentPage : positive) (total : nat).

(** [res.status(status).json(json)]. *)
Record Response := mkRes {
  status : nat;
  json : Json }.

Definition error_message (e : Exn) : string :=
  match e with
  | CastError => "Cast to ObjectId failed"
  | DuplicateKey => "E11000 duplicate key error"
  | ValidationError => "Validation failed"
  | JsonWebTokenError => "jwt malformed"
  end.

(** The [catch] clause most handlers share. *)
Definition internal_error (e : Exn) : Prog Response :=
  Ret (mkRes 500 (Message (error_message e))).

(** A handler whose promise rejects reaches the error middleware of
    [index.js]. *)
Definition respond `{Crypto} (p : Prog Response) (s : Store) : Response * Store :=
  match run p s with
  | (Ok r, s') => (r, s')
  | (Raise e, s') => (mkRes 500 (Message (error_message e)), s')
  end.

(** ** Middleware ([middleware/auth.js]) *)

(** [String.prototype.replace(pat, "")] with a string pattern: the first
    occurrence of [pat] is removed. *)
Fixpoint remove_first (pat s : string) : string :=
  if String.prefix pat s then String.substring (String.length pat) (String.length s) s
  else
    match s with
    | EmptyString => EmptyString
    | String c s' => String c (remove_first pat s')
    end.

Definition bearer_token (header : option string) : option string :=
  remove_first "Bearer " <$> header.

Section Middleware.
Context `{Crypto}.

Definition invalid_token : Response := mkRes 401 (Message "Token is not valid.").

(** The body of [authenticate]'s [try]: a response, or the user to attach
    to the request before [next()]. *)
Definition resolve_user (header : option string) : Prog (Response + User.t) :=
  let token := bearer_token header in
  if negb (truthy token) then
    Ret (inl (mkRes 401 (Message "Access denied. No token provided.")))
  else
    match jwt_verify (default "" token) with
    | None => Throw JsonWebTokenError
    | Some id =>
        let* user := call (UserFindById (IdStr id)) in
        match user with
        | None => Ret (inl invalid_token)
        | Some u => Ret (inr u)
        end
    end.

Definition authenticate {B} (req : Req.t B) (next : User.t -> Prog Response)
    : Prog Response :=
  let* r := try_catch (resolve_user (Req.authorization req))
              (fun _ => Ret (inl invalid_token)) in
  match r with
  | inl res => Ret res
  | inr user => next user
  end.

Definition authorize (roles : list string) (user : option User.t)
    (next : Prog Response) : Prog Response :=
  match user with
  | None => Ret (mkRes 401 (Message "Authentication required."))
  | Some u =>
      if negb (includes roles (User.role u))
      then Ret (mkRes 403 (Message "Access denied. Insufficient permissions."))
      else next
  end.
End Middleware.

(** ** Job routes ([routes/jobsRoute.js]) *)

Definition ok (j : Json) : Response := mkRes 200 j.

Module JobsRoute.
(** [req.query] of [GET /api/jobs]; page numbers and sizes are positive
    integers. *)
Record ListQuery := mkListQuery {
  page : option positive;
  limit : option positive;
  search : option string;
  location : option string;
  type : option string;
  category : option string }.

Record ApplyBody := mkApplyBody {
  coverLetter : option string }.

(** [if (v) query.path = { $regex: v, $options: "i" }]: no condition for a
    falsy [v]; [None] when the pattern is outside the modelled fragment. *)
Definition regex_if (v : option string) : option (option (list Atom)) :=
  if truthy v then Some <$> regex_compile (default "" v) else Some None.

Definition build_query (q : ListQuery) : option JobQuery :=
  match regex_if (search q), regex_if (location q), regex_if (category q) with
  | Some s, Some l, Some c =>
      Some (mkQuery s l (if truthy (type q) then type q else None) c)
  | _, _, _ => None
  end.

(** [Math.ceil(total / limit)]. *)
Definition ceil_div (a b : nat) : nat := Nat.div (a + b - 1) b.

Section Handlers.
Context `{Crypto}.

(** [GET /] *)
Definition get_jobs (req : Req.t ListQuery) : option (Prog Response) :=
  match build_query (Req.body req) with
  | None => None
  | Some q =>
      let page := default 1%positive (page (Req.body req)) in
      let limit := Pos.to_nat (default 10%positive (limit (Req.body req))) in
      Some (try_catch
        (let* jobs := query (JobFind q limit ((Pos.to_nat page - 1) * limit)) in
         let* total := query (JobCountDocuments q) in
         Ret (ok (JsonJobs jobs (ceil_div total limit) page total)))
        internal_error)
  end.

(** [DELETE /:id] *)
Definition delete_job (req : Req.t unit) : Prog Response :=
  authenticate req (fun user => authorize ["admin"] (Some user)
    (try_catch
       (let* job := call (JobFindByIdAndDelete (IdStr (Req.id req))) in
        match job with
        | None => Ret (mkRes 404 (Message "Job not found"))
        | Some _ =>
            let* _ := call (AppDeleteMany (ByJob (IdStr (Req.id req)))) in
            Ret (ok (Message "Job deleted successfully"))
        end)
       internal_error)).

(** The handler of [POST /:id/apply], after [authenticate] and the upload
    middleware. *)
Definition apply_handler (req : Req.t ApplyBody) (user : User.t) : Prog Response :=
  try_catch
    (let* job := call (JobFindById (IdStr (Req.id req))) in
     match job with
     | None => Ret (mkRes 404 (Message "Job not found"))
     | Some _ =>
         let* existingApplication :=
           call (AppFindOne (IdStr (Req.id req)) (User._id user)) in
         match existingApplication with
         | Some _ => Ret (mkRes 400 (Message "Already applied for this job"))
         | None =>
             let* application :=
               call (AppCreate
                 (Application.mkFields (IdStr (Req.id req)) (User._id user)
                    (coverLetter (Req.body req)) (Req.file req)
                    None None None None None None)) in
             let* _ := call (JobIncApplicationCount (IdStr (Req.id req)) 1 false) in
             Ret (mkRes 201
                    (MessageApplication "Application submitted successfully"
                       application))
         end
     end)
    internal_error.

(** [POST /:id/apply] *)
Definition post_apply (req : Req.t ApplyBody) : Prog Response :=
  authenticate req (apply_handler req).
End Handlers.
End JobsRoute.

(** ** Application routes ([routes/applicationsRoute.js]) *)

Module ApplicationsRoute.
Record StatusBody := mkStatusBody {
  status : option string }.

Record CreateBody := mkCreateBody {
  jobId : option string;
  coverLetter : option string;
  portfolio : option string;
  linkedin : option string;
  github : option string;
  expectedSalary : option string;
  availability : option string;
  additionalInfo : option string }.

Section Handlers.
Context `{Crypto}.

(** [PUT /:id/status] *)
Definition put_status (req : Req.t StatusBody) : Prog Response :=
  authenticate req (fun user => authorize ["admin"] (Some user)
    (try_catch
       (let* application :=
          call (AppFindByIdAndUpdateStatus (IdStr (Req.id req))
                  (status (Req.body req))) in
        match application with
        | None => Ret (mkRes 404 (Message "Application not found"))
        | Some a =>
            Ret (ok (MessageApplication "Application status updated successfully" a))
        end)
       internal_error)).

(** The [catch] clause of [POST /]. *)
Definition create_catch (error : Exn) : Prog Response :=
  match error with
  | DuplicateKey => Ret (mkRes 400 (Message "You have already applied for this job"))
  | ValidationError => Ret (mkRes 400 (Message "Validation error"))
  | _ => internal_error error
  end.

(** The handler of [POST /].  [req.user] is the user [authenticate]
    attached, so the handler's own [!req.user || !req.user._id] test is
    never taken. *)
Definition create_handler (req : Req.t CreateBody) (user : User.t) : Prog Response :=
  let b := Req.body req in
  try_catch
    (if negb (truthy (jobId b)) then
       Ret (mkRes 400 (Message "jobId is required"))
     else if negb (truthy (coverLetter b)) then
       Ret (mkRes 400 (Message "coverLetter is required"))
     else if negb (is_hex24 (default "" (jobId b))) then
       Ret (mkRes 400 (Message "Invalid jobId format"))
     else
       match hex_value 0%N (default "" (jobId b)) with
       | None => Throw CastError
       | Some jobObjectId =>
           let* job := call (JobFindById (IdObj jobObjectId)) in
           match job with
           | None => Ret (mkRes 404 (Message "Job not found"))
           | Some _ =>
               let* existingApplication :=
                 call (AppFindOne (IdObj jobObjectId) (User._id user)) in
               match existingApplication with
               | Some _ =>
                   Ret (mkRes 400 (Message "You have already applied for this job"))
               | None =>
                   let* application :=
                     call (AppCreate
                       (Application.mkFields (IdObj jobObjectId) (User._id user)
                          (coverLetter b) (Req.file req) (portfolio b) (linkedin b)
                          (github b) (expectedSalary b) (availability b)
                          (additionalInfo b))) in
                   let* updatedJob :=
                     call (JobIncApplicationCount (IdObj jobObjectId) 1 true) in
                   match updatedJob with
                   | None =>
                       let* _ :=
                         call (AppFindByIdAndDelete
                                 (IdObj (Application._id application))) in
                       Ret (mkRes 404 (Message "Job not found during update"))
                   | Some _ =>
                       Ret (mkRes 201
                              (MessageApplication "Application submitted successfully"
                                 application))
                   end
               end
           end
       end)
    create_catch.

(** [POST /] *)
Definition post_application (req : Req.t CreateBody) : Prog Response :=
  authenticate req (create_handler req).

(** The handler of [DELETE /:id]. *)
Definition delete_handler (req : Req.t unit) (user : User.t) : Prog Response :=
  try_catch
    (let* application := call (AppFindById (IdStr (Req.id req))) in
     match application with
     | None => Ret (mkRes 404 (Message "Application not found"))
     | Some a =>
         if negb (N.eqb (Application.applicant a) (User._id user))
            && negb (String.eqb (User.role user) "admin")
         then Ret (mkRes 403 (Message "Access denied"))
         else
           let* _ := call (AppFindByIdAndDelete (IdStr (Req.id req))) in
           let* _ := call (JobIncApplicationCount (IdObj (Application.job a))
                             (-1) false) in
           Ret (ok (Message "Application deleted successfully"))
     end)
    internal_error.

(** [DELETE /:id] *)
Definition delete_application (req : Req.t unit) : Prog Response :=
  authenticate req (delete_handler req).
End Handlers.
End ApplicationsRoute.

(** ** Admin routes ([routes/adminRoute.js]) *)

Module AdminRoute.
Section Handlers.
Context `{Crypto}.

Definition admin_only {B} (req : Req.t B) (h : Prog Response) : Prog Response :=
  authenticate req (fun user => authorize ["admin"] (Some user) h).

(** [DELETE /users/:id] *)
Definition delete_user (req : Req.t unit) : Prog Response :=
  admin_only req
    (try_catch
       (let* user := call (UserFindById (IdStr (Req.id req))) in
        match user with
        | None => Ret (mkRes 404 (Message "User not found"))
        | Some u =>
            if String.eqb (User.role u) "admin"
            then Ret (mkRes 400 (Message "Cannot delete admin user"))
            else
              let* _ := call (UserFindByIdAndDelete (IdStr (Req.id req))) in
              let* _ := call (AppDeleteMany (ByApplicant (IdStr (Req.id req)))) in
              Ret (ok (Message "User deleted successfully"))
        end)
       internal_error).

(** [GET /applications/:id] *)
Definition get_application (req : Req.t unit) : Prog Response :=
  admin_only req
    (try_catch
       (let* application := call (AppFindById (IdStr (Req.id req))) in
        match application with
        | None => Ret (mkRes 404 (Message "Application not found"))
        | Some a => Ret (ok (JsonApplication a))
        end)
       internal_error).

(** [PUT /applications/:id/status] *)
Definition put_status (req : Req.t ApplicationsRoute.StatusBody) : Prog Response :=
  admin_only req
    (try_catch
       (let status := ApplicationsRoute.status (Req.body req) in
        if negb (match status with
                 | Some v => includes ["pending"; "accepted"; "rejected"] v
                 | None => false
                 end)
        then Ret (mkRes 400 (Message "Invalid status"))
        else
          let* application :=
            call (AppFindByIdAndUpdateStatus (IdStr (Req.id req)) status) in
          match application with
          | None => Ret (mkRes 404 (Message "Application not found"))
          | Some a =>
              Ret (ok (MessageApplication "Application status updated successfully" a))
          end)
       internal_error).

(** [DELETE /applications/:id] *)
Definition delete_application (req : Req.t unit) : Prog Response :=
  admin_only req
    (try_catch
       (let* application := call (AppFindById (IdStr (Req.id req))) in
        match application with
        | None => Ret (mkRes 404 (Message "Application not found"))
        | Some _ =>
            let* _ := call (AppFindByIdAndDelete (IdStr (Req.id req))) in
            Ret (ok (Message "Application deleted successfully"))
        end)
       internal_error).

(** [DELETE /jobs/:id] *)
Definition delete_job (req : Req.t unit) : Prog Response :=
  admin_only req
    (try_catch
       (let* job := call (JobFindById (IdStr (Req.id req))) in
        match job with
        | None => Ret (mkRes 404 (Message "Job not found"))
        | Some _ =>
            let* _ := call (AppDeleteMany (ByJob (IdStr (Req.id req)))) in
            let* _ := call (JobFindByIdAndDelete (IdStr (Req.id req))) in
            Ret (ok (Message "Job and all associated applications deleted successfully"))
        end)
       internal_error).
End Handlers.
End AdminRoute.

(** ** Authentication routes ([routes/authRoute.js]) *)

Module AuthRoute.
(** The body of [POST /register]; [role] may be left out. *)
Record RegisterBody := mkRegisterBody {
  name : string;
  email : string;
  password : string;
  role : option string }.

(** [role || "user"]. *)
Definition role_or_user (role : option string) : string :=
  if truthy role then default "" role else "user".

(** How Mongoose casts one [path: value] of an update of a user, under the
    schema's strict mode: a path of the schema becomes an assignment, a key
    that is no path of the schema is dropped.  [None] marks what the model
    leaves out: the paths [_id], [profile], [profile.skills] and the
    timestamps, operators, and other dotted keys. *)
Definition cast_path (k v : string) : option (list UserSet) :=
  if String.eqb k "name" then Some [SetName v]
  else if String.eqb k "email" then Some [SetEmail v]
  else if String.eqb k "password" then Some [SetPassword v]
  else if String.eqb k "role" then Some [SetRole v]
  else if String.eqb k "profile.phone" then Some [SetPhone v]
  else if String.eqb k "profile.address" then Some [SetAddress v]
  else if String.eqb k "profile.resume" then Some [SetResume v]
  else if String.eqb k "profile.experience" then Some [SetExperience v]
  else if String.eqb k "profile.education" then Some [SetEducation v]
  else if includes ["_id"; "profile"; "createdAt"; "updatedAt"; "__v"] k then None
  else if String.prefix "$" k then None
  else if existsb (Ascii.eqb ".") (list_ascii_of_string k) then None
  else Some [].

Fixpoint cast_paths (l : list (string * string)) : option (list UserSet) :=
  match l with
  | [] => Some []
  | (k, v) :: l' =>
      match cast_path k v, cast_paths l' with
      | Some a, Some b => Some (a ++ b)
      | _, _ => None
      end
  end.

(** Top-level keys: the values modelled there are strings. *)
Fixpoint cast_sugar (l : list (string * UpdateValue)) : option (list UserSet) :=
  match l with
  | [] => Some []
  | (k, UStr v) :: l' =>
      match cast_path k v, cast_sugar l' with
      | Some a, Some b => Some (a ++ b)
      | _, _ => None
      end
  | (_, UObj _) :: _ => None
  end.

(** The update document of [findByIdAndUpdate]: the assignments of a
    top-level [$set] object, then the top-level keys that are no operators,
    which Mongoose moves under [$set] (overriding it). *)
Definition cast_update (updates : gmap string UpdateValue) : option (list UserSet) :=
  let dollar_set :=
    match updates !! "$set" with
    | None => Some []
    | Some (UObj o) => cast_paths (map_to_list o)
    | Some (UStr _) => None
    end in
  let sugar := cast_sugar (map_to_list (delete "$set" updates)) in
  match dollar_set, sugar with
  | Some a, Some b => Some (a ++ b)
  | _, _ => None
  end.

(** [.select("-password")] *)
Definition select_minus_password (u : User.t) : User.t :=
  User.mk (User._id u) (User.name u) (User.email u) "" (User.role u) (User.prof u).

Section Handlers.
Context `{Crypto}.

(** [POST /register] *)
Definition register (req : Req.t RegisterBody) : Prog Response :=
  let b := Req.body req in
  try_catch
    (let* existingUser := query (UserFindOneByEmail (email b)) in
     match existingUser with
     | Some _ => Ret (mkRes 400 (Message "User already exists"))
     | None =>
         let* user :=
           call (UserCreate (name b) (email b) (password b) (role_or_user (role b))) in
         let token := jwt_sign (User._id user) in
         Ret (mkRes 201
                (MessageUserToken "User registered successfully" token
                   (User._id user) (User.name user) (User.email user)
                   (User.role user)))
     end)
    internal_error.

(** [PUT /profile]; [None] when the body is outside the modelled
    updates. *)
Definition put_profile (req : Req.t (gmap string UpdateValue))
    : option (Prog Response) :=
  let updates := delete "role" (delete "password" (Req.body req)) in
  match cast_update updates with
  | None => None
  | Some upd =>
      Some (authenticate req (fun user =>
        try_catch
          (let* user' := call (UserFindByIdAndUpdate (IdObj (User._id user)) upd) in
           Ret (ok (MessageUser "Profile updated successfully"
                      (select_minus_password <$> user'))))
          internal_error))
  end.
End Handlers.
End AuthRoute.

(** ** A small world to run the routes in *)

Module Sample.
Definition hex_char (d : N) : ascii :=
  ascii_of_N (if (d <? 10)%N then d + 48 else d + 87).

Fixpoint to_hex (digits : nat) (n : N) (acc : string) : string :=
  match digits with
  | O => acc
  | S k => to_hex k (n / 16)%N (String (hex_char (n mod 16)%N) acc)
  end.

Definition hex24 (n : N) : string := to_hex 24 n "".

(** Tokens are ["jwt."] followed by the subject; hashing prefixes the cost
    marker. *)
#[export] Instance crypto : Crypto := {|
  jwt_verify t :=
    if String.prefix "jwt." t then Some (String.substring 4 (String.length t) t)
    else None;
  jwt_sign id := String.append "jwt." (hex24 id);
  bcrypt_hash p := String.append "$2a$12$" p |}.

Definition bea : User.t := User.mk 1 "Bea" "bea@example.org" "$2a$12$b" "admin" User.no_profile.
Definition ann : User.t := User.mk 2 "Ann" "ann@example.org" "$2a$12$a" "user" User.no_profile.

Definition job16 : Job.t :=
  Job.mk 16 "React developer" "Acme" "Remote" "full-time" "Build the front end"
    (Some "Frontend") 1 true 1 1000.

Definition app32 : Application.t :=
  Application.mk 32 16 2 "pending" (Some "Dear Acme") None None None None None None None.

Definition store : Store :=
  mkStore (<[1%N := bea]> (<[2%N := ann]> ∅)) (<[16%N := job16]> ∅) (<[32%N := app32]> ∅).

Definition bearer (u : User.t) : option string :=
  Some (String.append "Bearer " (jwt_sign (User._id u))).

Definition id16 : string := hex24 16.
Definition id32 : string := hex24 32.
End Sample.

(** ** Predicates the properties are stated with *)

(** The request carries a bearer token that verifies and whose subject is the
    user [u] of the store. *)
Inductive Authenticated `{Crypto} {B} (req : Req.t B) (s : Store) (u : User.t) : Prop :=
| authenticated (h id : string) (o : ObjectId) :
    Req.authorization req = Some h ->
    remove_first "Bearer " h <> "" ->
    jwt_verify (remove_first "Bearer " h) = Some id ->
    castObjectId (IdStr id) = Some o ->
    users s !! o = Some u ->
    Authenticated req s u.

(** The ways a request fails to authenticate: no [Authorization] header, an
    empty token, a token [jwt.verify] rejects, a subject that is no
    [ObjectId], a subject that is no user of the store. *)
Inductive Unauthenticated `{Crypto} {B} (req : Req.t B) (s : Store) : Prop :=
| no_header :
    Req.authorization req = None -> Unauthenticated req s
| empty_token (h : string) :
    Req.authorization req = Some h ->
    remove_first "Bearer " h = "" ->
    Unauthenticated req s
| rejected_token (h : string) :
    Req.authorization req = Some h ->
    jwt_verify (remove_first "Bearer " h) = None ->
    Unauthenticated req s
| malformed_subject (h id : string) :
    Req.authorization req = Some h ->
    jwt_verify (remove_first "Bearer " h) = Some id ->
    castObjectId (IdStr id) = None ->
    Unauthenticated req s
| unknown_subject (h id : string) (o : ObjectId) :
    Req.authorization req = Some h ->
    jwt_verify (remove_first "Bearer " h) = Some id ->
    castObjectId (IdStr id) = Some o ->
    users s !! o = None ->
    Unauthenticated req s.

(** Some application of the store is [u]'s application to job [j]. *)
Definition applied (s : Store) (j u : ObjectId) : Prop :=
  exists i a, applications s !! i = Some a
              /\ Application.job a = j /\ Application.applicant a = u.

(** No two application records share their (job, applicant) pair. *)
Definition unique_pairs (s : Store) : Prop :=
  forall i1 i2 a1 a2,
    applications s !! i1 = Some a1 ->
    applications s !! i2 = Some a2 ->
    Application.job a1 = Application.job a2 ->
    Application.applicant a1 = Application.applicant a2 ->
    i1 = i2.

(** The four values of [applicationSchema.status]. *)
Definition status_values : list string := ["pending"; "reviewed"; "accepted"; "rejected"].

(** A status-update route accepts the values [values]: whatever the current
    status of an existing application, an administrator's request carrying
    one of them is answered 200 and the application is stored with exactly
    that status, nothing else changing. *)
Definition accepts_statuses `{Crypto} (values : list string)
    (route : Req.t ApplicationsRoute.StatusBody -> Prog Response) : Prop :=
  forall (req : Req.t ApplicationsRoute.StatusBody) (s : Store) (admin : User.t)
         (o : ObjectId) (a : Application.t) (v : string),
    Authenticated req s admin ->
    User.role admin = "admin" ->
    castObjectId (IdStr (Req.id req)) = Some o ->
    applications s !! o = Some a ->
    ApplicationsRoute.status (Req.body req) = Some v ->
    In v values ->
    exists r,
      status r = 200%nat /\
      respond (route req) s
      = (r, with_applications (insert o (set_status (Some v) a)) s).

(** A route only administrators get through. *)
Definition admins_only `{Crypto} {B} (route : Req.t B -> Prog Response) : Prop :=
  forall (req : Req.t B) (s : Store) (u : User.t),
    Authenticated req s u ->
    User.role u <> "admin" ->
    exists r, status r = 403%nat /\ respond (route req) s = (r, s).

(** A request to set the status of the sample application. *)
Definition review_request (u : User.t) (v : string) : Req.t ApplicationsRoute.StatusBody :=
  Req.mk (Sample.bearer u) Sample.id32 None (ApplicationsRoute.mkStatusBody (Some v)).

(** In the sequence [ops], [a] is issued and [b] is issued after it. *)
Fixpoint occurs_before (a b : string) (ops : list string) : bool :=
  match ops with
  | [] => false
  | x :: rest => if String.eqb x a then existsb (String.eqb b) rest else occurs_before a b rest
  end.

(** From [s] to [s']: job [j] is gone, and so is every application that
    referenced it; nothing else changed. *)
Definition job_deleted_with_applications (j : ObjectId) (s s' : Store) : Prop :=
  users s' = users s /\
  jobs s' = delete j (jobs s) /\
  forall i a,
    applications s' !! i = Some a <->
    applications s !! i = Some a /\ Application.job a <> j.

(** The number of application records referencing job [j]. *)
Definition live_count (j : ObjectId) (s : Store) : nat :=
  size (filter (fun kv : N * Application.t => Application.job (snd kv) = j)
          (applications s)).

(** Every job's [applicationCount] is the number of applications that
    reference it. *)
Definition count_consistent (s : Store) : Prop :=
  forall j job,
    jobs s !! j = Some job ->
    Job.applicationCount job = Z.of_nat (live_count j s).

(** Requests on the sample store. *)
Definition delete_request (u : User.t) (i : string) : Req.t unit :=
  Req.mk (Sample.bearer u) i None tt.

(** The operations of [DELETE /api/jobs/:id] for job 16, requested by the
    sample administrator. *)
Definition delete_job16 : list AnyOp :=
  [any (UserFindById (IdStr (Sample.hex24 1)));
   any (JobFindByIdAndDelete (IdStr Sample.id16));
   any (AppDeleteMany (ByJob (IdStr Sample.id16)))].

(** The deletion reaches the store after the third operation of the apply
    route (the duplicate check) and before its fourth (the insertion). *)
Definition deletion_after_check : list (list AnyOp) := [[]; []; []; delete_job16].

Definition bea_applies : Req.t JobsRoute.ApplyBody :=
  Req.mk (Sample.bearer Sample.bea) Sample.id16 None (JobsRoute.mkApplyBody (Some "Hello")).

Definition bea_creates : Req.t ApplicationsRoute.CreateBody :=
  Req.mk (Sample.bearer Sample.bea) "" None
    (ApplicationsRoute.mkCreateBody (Some Sample.id16) (Some "Hello")
       None None None None None None).



(** Ann's profile update carrying a [$set] object. *)
Definition ann_sets (k v : string) : Req.t (gmap string UpdateValue) :=
  Req.mk (Sample.bearer Sample.ann) "" None (<["$set" := UObj (<[k := v]> ∅)]> ∅).

(** * The other routes and scripts

    The routes of the four route files that the sections above leave out, as
    far as the documents modelled carry what they read: logging in, reading
    one job, changing a user's role, the administrators' job list, the two
    statistics routes, and the [createAdmin] script.  Those that need more of
    Mongoose than [DbOp] holds are programs ([Script]) over [MoreOp], which
    adds the further calls to [DbOp]. *)

(** [bcrypt.compare(candidate, hash)], which [userSchema.methods.comparePassword]
    calls. *)
Class PasswordCompare := {
  bcrypt_compare : string -> string -> bool }.

(** The sample hashing prefixes a marker; comparing recomputes it. *)
Definition sample_compare : PasswordCompare :=
  {| bcrypt_compare candidate hash := String.eqb hash (String.append "$2a$12$" candidate) |}.

(** ** Logging in ([routes/authRoute.js]) *)

Module Login.
Record Body := mkBody {
  email : string;
  password : string }.

Section Handlers.
Context `{Crypto} `{PasswordCompare}.

(** [POST /login] *)
Definition login (req : Req.t Body) : Prog Response :=
  let b := Req.body req in
  try_catch
    (let* user := query (UserFindOneByEmail (email b)) in
     match user with
     | None => Ret (mkRes 400 (Message "Invalid credentials"))
     | Some u =>
         let isMatch := bcrypt_compare (password b) (User.password u) in
         if negb isMatch then Ret (mkRes 400 (Message "Invalid credentials"))
         else
           let token := jwt_sign (User._id u) in
           Ret (ok (MessageUserToken "Login successful" token
                      (User._id u) (User.name u) (User.email u) (User.role u)))
     end)
    internal_error.
End Handlers.
End Login.

(** ** Replies that carry more than [Json] *)

Inductive Payload :=
| Plain (j : Json)
| OneJob (j : Job.t)
| JobStats (totalJobs totalCompanies totalApplications : nat)
| AdminStats (totalUsers totalJobs totalApplications pendingApplications : nat).

Record Reply := mkReply {
  code : nat;
  payload : Payload }.

Definition reply_of (r : Response) : Reply := mkReply (status r) (Plain (json r)).

Definition internal_reply (e : Exn) : Reply :=
  mkReply 500 (Plain (Message (error_message e))).


(** ** Reading one job ([routes/jobsRoute.js]) *)

Module JobDetails.
Section Handlers.
Context `{Crypto}.

End Handlers.
End JobDetails.

(** ** Further operations *)

Inductive CountFilter :=
| AllApplications
| WithStatus (st : string)
| OfJob (o : ObjectId).

Inductive MoreOp : Type -> Type :=
| Base {X : Type} (op : DbOp X) : MoreOp X
| UserFindOneByRole (role : string) : MoreOp (option User.t)
| UserSetRole (i : IdArg) (role : string) : MoreOp (Except (option User.t))
| UserCountDocuments : MoreOp nat
| JobCountAll : MoreOp nat
| JobDistinctCompany (q : JobQuery) : MoreOp (list string)
| JobFindAny (r : option (list Atom)) (limit skip : nat) : MoreOp (list Job.t)
| JobCountAny (r : option (list Atom)) : MoreOp nat
| AppCountDocuments (f : CountFilter) : MoreOp nat.

Definition has_role (r : string) (u : User.t) : bool := String.eqb (User.role u) r.

(** The filter of [GET /api/admin/jobs]: every job, or those whose title or
    company matches. *)
Definition any_job_matches (r : option (list Atom)) (j : Job.t) : bool :=
  cond r (fun r => regex_test r (Job.title j) || regex_test r (Job.company j)).

Definition find_any_jobs_sorted (r : option (list Atom)) (m : gmap N Job.t) : list Job.t :=
  merge_sort newer_first (List.filter (any_job_matches r) (snd <$> map_to_list m)).

Definition count_applications (f : CountFilter) (m : gmap N Application.t) : nat :=
  match f with
  | AllApplications => size m
  | WithStatus st =>
      size (filter (fun kv : N * Application.t => Application.status (snd kv) = st) m)
  | OfJob o =>
      size (filter (fun kv : N * Application.t => Application.job (snd kv) = o) m)
  end.

Section MoreSemantics.
Context `{Crypto}.

Definition exec_more {X} (op : MoreOp X) (s : Store) : X * Store :=
  match op in MoreOp X return X * Store with
  | Base op => exec_op op s
  | UserFindOneByRole r => (find_one (has_role r) (users s), s)
  | UserSetRole i r =>
      match castObjectId i with
      | None => (Raise CastError, s)
      | Some o =>
          match users s !! o with
          | None => (Ok None, s)
          | Some u =>
              (Ok (Some (apply_set u (SetRole r))),
               with_users (insert o (apply_set u (SetRole r))) s)
          end
      end
  | UserCountDocuments => (size (users s), s)
  | JobCountAll => (size (jobs s), s)
  | JobDistinctCompany q =>
      (remove_dups
         (Job.company <$> List.filter (job_matches q) (snd <$> map_to_list (jobs s))), s)
  | JobFindAny r limit skip =>
      (take limit (drop skip (find_any_jobs_sorted r (jobs s))), s)
  | JobCountAny r =>
      (List.length (List.filter (any_job_matches r) (snd <$> map_to_list (jobs s))), s)
  | AppCountDocuments f => (count_applications f (applications s), s)
  end.
End MoreSemantics.

Inductive Script (A : Type) : Type :=
| Done (a : A)
| Fail (e : Exn)
| Step {X : Type} (op : MoreOp X) (k : X -> Script A).
Arguments Done {A} a.
Arguments Fail {A} e.
Arguments Step {A X} op k.

Fixpoint bind_s {A B} (p : Script A) (f : A -> Script B) : Script B :=
  match p with
  | Done a => f a
  | Fail e => Fail e
  | Step op k => Step op (fun x => bind_s (k x) f)
  end.

Notation "'let+' x ':=' c 'in' k" := (bind_s c (fun x => k))
  (at level 10, x pattern, c at level 100, k at level 200).

Definition call_s {X} (op : MoreOp (Except X)) : Script X :=
  Step op (fun r => match r with Ok x => Done x | Raise e => Fail e end).

Definition ask {X} (op : MoreOp X) : Script X := Step op Done.

Fixpoint try_s {A} (p : Script A) (h : Exn -> Script A) : Script A :=
  match p with
  | Done a => Done a
  | Fail e => h e
  | Step op k => Step op (fun x => try_s (k x) h)
  end.

(** A program over [DbOp] is a program over [MoreOp]. *)
Fixpoint lift {A} (p : Prog A) : Script A :=
  match p with
  | Ret a => Done a
  | Throw e => Fail e
  | Do op k => Step (Base op) (fun x => lift (k x))
  end.

(** [Promise.all(l.map(f))] where each [f x] awaits one operation: the
    operations are issued in the order of [l]. *)
Fixpoint for_each {A B} (f : A -> Script B) (l : list A) : Script (list B) :=
  match l with
  | [] => Done []
  | x :: l' =>
      let+ y := f x in
      let+ ys := for_each f l' in
      Done (y :: ys)
  end.

Section MoreRunning.
Context `{Crypto}.

Fixpoint run_s {A} (p : Script A) (s : Store) : Except A * Store :=
  match p with
  | Done a => (Ok a, s)
  | Fail e => (Raise e, s)
  | Step op k => let (x, s') := exec_more op s in run_s (k x) s'
  end.

Definition answer_s (p : Script Reply) (s : Store) : Reply * Store :=
  match run_s p s with
  | (Ok r, s') => (r, s')
  | (Raise e, s') => (internal_reply e, s')
  end.

(** [authenticate] and [authorize] of [middleware/auth.js], in front of a
    handler over [MoreOp]. *)
Definition authenticate_s {B} (req : Req.t B) (next : User.t -> Script Reply)
    : Script Reply :=
  let+ r := lift (try_catch (resolve_user (Req.authorization req))
                    (fun _ => Ret (inl invalid_token))) in
  match r with
  | inl res => Done (reply_of res)
  | inr user => next user
  end.

Definition authorize_s (roles : list string) (user : option User.t)
    (next : Script Reply) : Script Reply :=
  match user with
  | None => Done (mkReply 401 (Plain (Message "Authentication required.")))
  | Some u =>
      if negb (includes roles (User.role u))
      then Done (mkReply 403 (Plain (Message "Access denied. Insufficient permissions.")))
      else next
  end.

Definition admin_only_s {B} (req : Req.t B) (h : Script Reply) : Script Reply :=
  authenticate_s req (fun user => authorize_s ["admin"] (Some user) h).
End MoreRunning.

(** ** More admin routes ([routes/adminRoute.js]) *)

Module AdminMore.
Record RoleBody := mkRoleBody {
  role : option string }.

(** [req.query] of [GET /jobs]. *)
Record JobsQuery := mkJobsQuery {
  page : option positive;
  limit : option positive;
  search : option string }.

(** [{ ...job, applicationCount }] *)
Definition with_count (j : Job.t) (applicationCount : nat) : Job.t :=
  Job.mk (Job._id j) (Job.title j) (Job.company j) (Job.location j) (Job.type j)
    (Job.description j) (Job.category j) (Job.postedBy j) (Job.isActive j)
    (Z.of_nat applicationCount) (Job.createdAt j).

Section Handlers.
Context `{Crypto}.

(** [PUT /users/:id/role] *)
Definition put_role (req : Req.t RoleBody) : Script Reply :=
  admin_only_s req
    (try_s
       (let role := role (Req.body req) in
        if negb (match role with
                 | Some r => includes ["user"; "admin"] r
                 | None => false
                 end)
        then Done (mkReply 400 (Plain (Message "Invalid role")))
        else
          let+ user := call_s (UserSetRole (IdStr (Req.id req)) (default "" role)) in
          match user with
          | None => Done (mkReply 404 (Plain (Message "User not found")))
          | Some u =>
              Done (mkReply 200
                      (Plain (MessageUser "User role updated successfully"
                                (Some (AuthRoute.select_minus_password u)))))
          end)
       (fun e => Done (internal_reply e))).

(** [GET /jobs]; [None] when the search pattern is outside the modelled
    fragment. *)
Definition get_jobs (req : Req.t JobsQuery) : option (Script Reply) :=
  match JobsRoute.regex_if (search (Req.body req)) with
  | None => None
  | Some r =>
      let page := default 1%positive (page (Req.body req)) in
      let limit := Pos.to_nat (default 10%positive (limit (Req.body req))) in
      Some (admin_only_s req
        (try_s
           (let+ jobs := ask (JobFindAny r limit ((Pos.to_nat page - 1) * limit)) in
            let+ jobsWithCount :=
              for_each (fun job =>
                let+ applicationCount := ask (AppCountDocuments (OfJob (Job._id job))) in
                Done (with_count job applicationCount)) jobs in
            let+ total := ask (JobCountAny r) in
            Done (mkReply 200
                    (Plain (JsonJobs jobsWithCount (JobsRoute.ceil_div total limit)
                              page total))))
           (fun e => Done (internal_reply e))))
  end.

(** [GET /stats] *)
Definition get_stats (req : Req.t unit) : Script Reply :=
  admin_only_s req
    (try_s
       (let+ totalUsers := ask UserCountDocuments in
        let+ totalJobs := ask JobCountAll in
        let+ totalApplications := ask (AppCountDocuments AllApplications) in
        let+ pendingApplications := ask (AppCountDocuments (WithStatus "pending")) in
        Done (mkReply 200
                (AdminStats totalUsers totalJobs totalApplications pendingApplications)))
       (fun e => Done (internal_reply e))).
End Handlers.
End AdminMore.

(** ** Job statistics ([routes/jobsRoute.js]) *)

Module JobStatistics.
(** [{ isActive: true }] *)
Definition active_only : JobQuery := mkQuery None None None None.

Section Handlers.
Context `{Crypto}.

(** [GET /stats] *)
Definition get_stats : Script Reply :=
  try_s
    (let+ totalJobs := ask (Base (JobCountDocuments active_only)) in
     let+ companies := ask (JobDistinctCompany active_only) in
     let totalCompanies := List.length companies in
     let+ totalApplications := ask (AppCountDocuments AllApplications) in
     Done (mkReply 200 (JobStats totalJobs totalCompanies totalApplications)))
    (fun e => Done (internal_reply e)).
End Handlers.
End JobStatistics.

(** ** The [createAdmin] script *)

Module CreateAdmin.
Section Script.
Context `{Crypto}.

(** [createAdmin()]: its [catch] logs the error and goes on; connecting and
    disconnecting are left out. *)
Definition createAdmin : Script unit :=
  try_s
    (let+ existingAdmin := ask (UserFindOneByRole "admin") in
     match existingAdmin with
     | Some _ => Done tt
     | None =>
         let+ _ := call_s (Base (UserCreate "admin" "bhargav@admin" "bhargav1122" "admin")) in
         Done tt
     end)
    (fun _ => Done tt).
End Script.
End CreateAdmin.

(** ** Predicates for the properties of these routes *)

(** The registration [b] can be stored in [s]: the required fields are not
    empty, the role (or its default) is in the enum, the email is new. *)
Definition registrable (b : AuthRoute.RegisterBody) (s : Store) : Prop :=
  AuthRoute.name b <> "" /\
  AuthRoute.email b <> "" /\
  AuthRoute.password b <> "" /\
  includes role_enum (AuthRoute.role_or_user (AuthRoute.role b)) = true /\
  forall i u, users s !! i = Some u -> User.email u <> AuthRoute.email b.

(** The user document a registration creates. *)
Definition registered_user `{Crypto} (b : AuthRoute.RegisterBody) (s : Store) : User.t :=
  User.mk (fresh (dom (users s))) (AuthRoute.name b) (AuthRoute.email b)
    (bcrypt_hash (AuthRoute.password b)) (AuthRoute.role_or_user (AuthRoute.role b))
    User.no_profile.

(** [pat] occurs nowhere in [s]. *)
Definition absent (pat s : string) : Prop :=
  forall pre post, s <> String.append pre (String.append pat post).

(** Sample requests. *)
Definition eve_registers : Req.t AuthRoute.RegisterBody :=
  Req.mk None "" None (AuthRoute.mkRegisterBody "Eve" "eve@example.org" "pw" None).

Definition ann_registers_again : Req.t AuthRoute.RegisterBody :=
  Req.mk None "" None (AuthRoute.mkRegisterBody "Ann" "ann@example.org" "pw" None).

(** [pat] starts at some position of [s]. *)
Fixpoint occurs (pat s : string) : bool :=
  String.prefix pat s ||
  match s with
  | EmptyString => false
  | String _ s' => occurs pat s'
  end.

Definition ann_token : string := jwt_sign (Crypto := Sample.crypto) 2.

Definition eve_logs_in : Req.t Login.Body :=
  Req.mk None "" None (Login.mkBody "eve@example.org" "pw").

(** The document [POST /api/jobs/:id/apply] inserts for [req] and [u]. *)
Definition applied_document (req : Req.t JobsRoute.ApplyBody) (u : User.t) (j : ObjectId)
    (s : Store) : Application.t :=
  new_application (fresh (dom (applications s))) j
    (Application.mkFields (IdStr (Req.id req)) (User._id u)
       (JobsRoute.coverLetter (Req.body req)) (Req.file req)
       None None None None None None).

(** The document [POST /api/applications] inserts for [req] and [u]. *)
Definition created_document (req : Req.t ApplicationsRoute.CreateBody) (u : User.t)
    (j : ObjectId) (s : Store) : Application.t :=
  let b := Req.body req in
  new_application (fresh (dom (applications s))) j
    (Application.mkFields (IdObj j) (User._id u) (ApplicationsRoute.coverLetter b)
       (Req.file req) (ApplicationsRoute.portfolio b) (ApplicationsRoute.linkedin b)
       (ApplicationsRoute.github b) (ApplicationsRoute.expectedSalary b)
       (ApplicationsRoute.availability b) (ApplicationsRoute.additionalInfo b)).

(** The store after an accepted application [a] to job [j]. *)
Definition after_apply (j : ObjectId) (job : Job.t) (a : Application.t) (s : Store) : Store :=
  with_jobs (insert j (inc_count 1 job))
    (with_applications (insert (fresh (dom (applications s))) a) s).

Definition ann_deletes_32 : Req.t unit := Req.mk (Sample.bearer Sample.ann) Sample.id32 None tt.

(** A third user of the sample world, with no application. *)
Definition cy : User.t := User.mk 3 "Cy" "cy@example.org" "$2a$12$c" "user" User.no_profile.

Definition store_with_cy : Store := with_users (insert 3%N cy) Sample.store.

Definition cy_deletes_32 : Req.t unit := Req.mk (Sample.bearer cy) Sample.id32 None tt.

Definition cy_applies : Req.t JobsRoute.ApplyBody :=
  Req.mk (Sample.bearer cy) Sample.id16 (Some "cv.pdf") (JobsRoute.mkApplyBody (Some "Hello")).

Definition cy_creates (jobId coverLetter : option string)
    : Req.t ApplicationsRoute.CreateBody :=
  Req.mk (Sample.bearer cy) "" None
    (ApplicationsRoute.mkCreateBody jobId coverLetter (Some "https://cy.example") None None
       None None None).

Definition cy_applies_17 : Req.t JobsRoute.ApplyBody :=
  Req.mk (Sample.bearer cy) (Sample.hex24 17) None (JobsRoute.mkApplyBody (Some "Hello")).

(** A store with a second administrator, Dan. *)
Definition dan : User.t := User.mk 4 "Dan" "dan@example.org" "$2a$12$d" "admin" User.no_profile.

Definition store_with_dan : Store := with_users (insert 4%N dan) Sample.store.

Definition sets_role (u : User.t) (target : N) (r : option string)
    : Req.t AdminMore.RoleBody :=
  Req.mk (Sample.bearer u) (Sample.hex24 target) None (AdminMore.mkRoleBody r).

(** Some user of the store is an administrator. *)
Definition has_admin (s : Store) : Prop :=
  exists i u, users s !! i = Some u /\ User.role u = "admin".



(** The companies of the active jobs. *)
Definition active_company (s : Store) (c : string) : Prop :=
  exists i j, jobs s !! i = Some j /\ Job.isActive j = true /\ Job.company j = c.

(** The user [createAdmin] saves, under identifier [i]. *)
Definition default_admin `{Crypto} (i : ObjectId) : User.t :=
  User.mk i "admin" "bhargav@admin" (bcrypt_hash "bhargav1122") "admin" User.no_profile.

(** Some user of the store has email [e]. *)
Definition email_taken (s : Store) (e : string) : Prop :=
  exists i u, users s !! i = Some u /\ User.email u = e.

(** No two users share an email. *)
Definition unique_emails (s : Store) : Prop :=
  forall i1 i2 u1 u2,
    users s !! i1 = Some u1 ->
    users s !! i2 = Some u2 ->
    User.email u1 = User.email u2 ->
    i1 = i2.

(** A store without administrator in which the script's email is taken. *)
Definition store_without_admin : Store :=
  mkStore (<[2%N := Sample.ann]> ∅) ∅ ∅.

Definition store_with_squatter : Store :=
  mkStore (<[7%N := User.mk 7 "Sam" "bhargav@admin" "$2a$12$s" "user" User.no_profile]> ∅) ∅ ∅.







(** * Properties *)

(** ** Running programs *)

Section RunLemmas.
Context `{Crypto}.

Lemma run_bind {A B} (p : Prog A) (f : A -> Prog B) (s : Store) :
  run (bind p f) s =
  match run p s with
  | (Ok a, s') => run (f a) s'
  | (Raise e, s') => (Raise e, s')
  end.
Proof.
  revert s. induction p as [a | e | X op k IH]; intros s; simpl; try reflexivity.
  destruct (exec_op op s) as [x s']. apply IH.
Qed.

Lemma run_try_catch {A} (p : Prog A) (h : Exn -> Prog A) (s : Store) :
  run (try_catch p h) s =
  match run p s with
  | (Ok a, s') => (Ok a, s')
  | (Raise e, s') => run (h e) s'
  end.
Proof.
  revert s. induction p as [a | e | X op k IH]; intros s; simpl; try reflexivity.
  destruct (exec_op op s) as [x s']. apply IH.
Qed.

Lemma run_call {X} (op : DbOp (Except X)) (s : Store) :
  run (call op) s = exec_op op s.
Proof.
  unfold call. simpl. destruct (exec_op op s) as [[x | e] s']; reflexivity.
Qed.

Lemma run_query {X} (op : DbOp X) (s : Store) :
  run (query op) s = (Ok (fst (exec_op op s)), snd (exec_op op s)).
Proof.
  unfold query. simpl. destruct (exec_op op s) as [x s']; reflexivity.
Qed.

Lemma run_among_nil {A} (p : Prog A) (s : Store) : run_among [] p s = run p s.
Proof.
  revert s. induction p as [a | e | X op k IH]; intros s; simpl; try reflexivity.
  destruct (exec_op op s) as [x s']. apply IH.
Qed.

(** ** Authentication *)

Lemma truthy_Some (t : string) : truthy (Some t) = negb (String.eqb t "").
Proof. reflexivity. Qed.

Lemma run_resolve_user_ok {B} (req : Req.t B) (s : Store) (u : User.t) :
  Authenticated req s u ->
  run (resolve_user (Req.authorization req)) s = (Ok (inr u), s).
Proof.
  intros [h id o Hh Hne Hv Hc Hu]. unfold resolve_user, bearer_token.
  rewrite Hh. simpl fmap. rewrite truthy_Some.
  destruct (String.eqb_spec (remove_first "Bearer " h) "") as [E | _]; [contradiction |].
  simpl negb. cbv iota. simpl default. rewrite Hv.
  rewrite run_bind, run_call. simpl. unfold find_by_id. rewrite Hc, Hu. reflexivity.
Qed.

Lemma run_authenticate_ok {B} (req : Req.t B) (s : Store) (u : User.t)
    (next : User.t -> Prog Response) :
  Authenticated req s u ->
  run (authenticate req next) s = run (next u) s.
Proof.
  intros Ha. unfold authenticate.
  rewrite run_bind, run_try_catch, (run_resolve_user_ok req s u Ha). reflexivity.
Qed.

Lemma run_authenticate_fail {B} (req : Req.t B) (s : Store) :
  Unauthenticated req s ->
  exists r, status r = 401%nat /\
    forall next, run (authenticate req next) s = (Ok r, s).
Proof.
  intros Hu. unfold authenticate.
  assert (exists r, status r = 401%nat /\
            run (try_catch (resolve_user (Req.authorization req))
                   (fun _ => Ret (inl invalid_token))) s = (Ok (inl r), s)) as (r & Hr & Hrun).
  { rewrite run_try_catch. unfold resolve_user, bearer_token.
    destruct Hu as [Hh | h Hh He | h Hh Hv | h id Hh Hv Hc | h id o Hh Hv Hc Hn];
      rewrite Hh; simpl fmap.
    - simpl. eexists; split; [| reflexivity]; reflexivity.
    - rewrite truthy_Some, He. simpl. eexists; split; [| reflexivity]; reflexivity.
    - rewrite truthy_Some.
      destruct (String.eqb (remove_first "Bearer " h) ""); simpl negb; cbv iota.
      + simpl. eexists; split; [| reflexivity]; reflexivity.
      + simpl default. rewrite Hv. simpl. eexists; split; [| reflexivity]; reflexivity.
    - rewrite truthy_Some.
      destruct (String.eqb (remove_first "Bearer " h) ""); simpl negb; cbv iota.
      + simpl. eexists; split; [| reflexivity]; reflexivity.
      + simpl default. rewrite Hv, run_bind, run_call. simpl. unfold find_by_id.
        rewrite Hc. simpl. eexists; split; [| reflexivity]; reflexivity.
    - rewrite truthy_Some.
      destruct (String.eqb (remove_first "Bearer " h) ""); simpl negb; cbv iota.
      + simpl. eexists; split; [| reflexivity]; reflexivity.
      + simpl default. rewrite Hv, run_bind, run_call. simpl. unfold find_by_id.
        rewrite Hc, Hn. simpl. eexists; split; [| reflexivity]; reflexivity. }
  exists r. split; [exact Hr |]. intros next. rewrite run_bind, Hrun. reflexivity.
Qed.
End RunLemmas.

(** ** Access control *)

(** C7.  A request to an authenticated route that carries no bearer token, or
    a token that is empty, rejected by the verifier, or whose subject is no
    user of the store, is answered 401 whatever the handler behind the
    middleware is, and the store is left as it was; a request whose token
    resolves to a user whose role is not among the roles the route allows is
    answered 403, again whatever the handler is. *)
Theorem unauthenticated_401_wrong_role_403 `{Crypto} {B} (req : Req.t B) (s : Store) :
  (Unauthenticated req s ->
   exists r, status r = 401%nat /\
     forall next, respond (authenticate req next) s = (r, s)) /\
  (forall (u : User.t) (roles : list string),
     Authenticated req s u ->
     includes roles (User.role u) = false ->
     exists r, status r = 403%nat /\
       forall h,
         respond (authenticate req (fun user => authorize roles (Some user) h)) s = (r, s)).
Proof.
  split.
  - intros Hu. destruct (run_authenticate_fail req s Hu) as (r & Hr & Hrun).
    exists r. split; [exact Hr |]. intros next. unfold respond. rewrite Hrun. reflexivity.
  - intros u roles Ha Hrole.
    exists (mkRes 403 (Message "Access denied. Insufficient permissions.")).
    split; [reflexivity |]. intros h. unfold respond.
    rewrite (run_authenticate_ok req s u _ Ha). unfold authorize. rewrite Hrole.
    reflexivity.
Qed.

Section SampleRequests.
#[local] Existing Instance Sample.crypto.

Lemma sample_authenticated {B} (s : Store) (u : User.t) (i : string) (f : option string)
    (b : B) :
  users s !! User._id u = Some u ->
  castObjectId (IdStr (Sample.hex24 (User._id u))) = Some (User._id u) ->
  Authenticated (Req.mk (Sample.bearer u) i f b) s u.
Proof.
  intros Hu Hc.
  apply (authenticated _ _ _ (String.append "Bearer " (jwt_sign (User._id u)))
           (Sample.hex24 (User._id u)) (User._id u)); try assumption; try reflexivity.
  discriminate.
Defined.

Lemma unauthenticated_401_wrong_role_403_witness :
(exists r, status r = 401%nat /\
   forall next,
     respond (authenticate (Req.mk None "" None tt) next) Sample.store
     = (r, Sample.store)) /\
(exists r, status r = 403%nat /\
   forall h,
     respond (authenticate (Req.mk (Sample.bearer Sample.ann) "" None tt)
                (fun user => authorize ["admin"] (Some user) h)) Sample.store
     = (r, Sample.store)).
Proof.
split.
- apply (proj1 (unauthenticated_401_wrong_role_403 (Req.mk None "" None tt) Sample.store)).
  apply no_header. reflexivity.
- apply (proj2 (unauthenticated_401_wrong_role_403
                  (Req.mk (Sample.bearer Sample.ann) "" None tt) Sample.store)
           Sample.ann ["admin"]).
  + apply sample_authenticated; reflexivity.
  + reflexivity.
Defined.

End SampleRequests.

(** ** Collections *)

Lemma find_one_Some {A} (P : A -> bool) (m : gmap N A) (a : A) :
  find_one P m = Some a -> exists i, m !! i = Some a /\ P a = true.
Proof.
  unfold find_one. intros Hf.
  destruct (List.find _ _) as [[i x] |] eqn:E; [| discriminate].
  simpl in Hf. injection Hf as ->.
  apply List.find_some in E as [Hin HP].
  exists i. split; [| exact HP].
  apply elem_of_map_to_list, list_elem_of_In, Hin.
Qed.

Lemma find_one_None {A} (P : A -> bool) (m : gmap N A) :
  find_one P m = None <-> forall i a, m !! i = Some a -> P a = false.
Proof.
  unfold find_one. split.
  - intros Hf i a Hm.
    destruct (List.find _ _) as [[i' x] |] eqn:E; [discriminate |].
    apply (List.find_none _ _ E (i, a)).
    apply list_elem_of_In, elem_of_map_to_list, Hm.
  - intros Hall.
    destruct (List.find _ _) as [[i x] |] eqn:E; [| reflexivity].
    apply List.find_some in E as [Hin HP]. simpl in HP.
    apply list_elem_of_In, elem_of_map_to_list in Hin.
    rewrite (Hall i x Hin) in HP. discriminate.
Qed.

Lemma same_pair_true (j u : ObjectId) (a : Application.t) :
  same_pair j u a = true <-> Application.job a = j /\ Application.applicant a = u.
Proof.
  unfold same_pair. rewrite andb_true_iff, !N.eqb_eq. reflexivity.
Qed.

Lemma find_one_applied (s : Store) (j u : ObjectId) :
  applied s j u -> is_Some (find_one (same_pair j u) (applications s)).
Proof.
  intros (i & a & Ha & Hj & Hu).
  destruct (find_one _ _) eqn:E; [eauto |].
  rewrite find_one_None in E. specialize (E i a Ha).
  assert (same_pair j u a = true) by (apply same_pair_true; auto). congruence.
Qed.

Lemma find_one_not_applied (s : Store) (j u : ObjectId) :
  find_one (same_pair j u) (applications s) = None -> ~ applied s j u.
Proof.
  intros E (i & a & Ha & Hj & Hu). rewrite find_one_None in E.
  specialize (E i a Ha).
  assert (same_pair j u a = true) by (apply same_pair_true; auto). congruence.
Qed.

Lemma fresh_not_in {A} (m : gmap N A) : m !! fresh (dom m) = None.
Proof. apply not_elem_of_dom, is_fresh. Qed.

(** ** One application per (job, applicant) *)

Section UniquePairs.
Context `{Crypto}.

Lemma unique_pairs_ext (s s' : Store) :
  applications s' = applications s -> unique_pairs s -> unique_pairs s'.
Proof. unfold unique_pairs. intros ->. auto. Qed.

Lemma unique_pairs_subset (s s' : Store) :
  applications s' ⊆ applications s -> unique_pairs s -> unique_pairs s'.
Proof.
  intros Hsub Hu i1 i2 a1 a2 H1 H2.
  apply (Hu i1 i2 a1 a2); eapply lookup_weaken; eauto.
Qed.

Lemma set_status_pair (v : option string) (a : Application.t) :
  Application.job (set_status v a) = Application.job a
  /\ Application.applicant (set_status v a) = Application.applicant a.
Proof. destruct v; split; reflexivity. Qed.

Lemma exec_op_unique {X} (op : DbOp X) (s : Store) :
  unique_pairs s -> unique_pairs (snd (exec_op op s)).
Proof.
  intros Hu.
  destruct op; simpl;
    try (repeat case_match; simpl;
         first [exact Hu | eapply unique_pairs_ext; [reflexivity | exact Hu]]; fail).
  - (* Application.create *)
    destruct (castObjectId (Application.f_job f)) as [j |]; [| exact Hu].
    destruct (bool_decide _) eqn:Hnone; [exact Hu |].
    apply bool_decide_eq_false in Hnone.
    assert (find_one (same_pair j (Application.f_applicant f)) (applications s) = None)
      as Hfree.
    { destruct (find_one _ _); [exfalso; apply Hnone; eauto | reflexivity]. }
    rewrite find_one_None in Hfree.
    assert (forall i a, applications s !! i = Some a ->
              Application.job a = j ->
              Application.applicant a = Application.f_applicant f -> False) as Hno.
    { intros i a Hi Hj Ha. specialize (Hfree i a Hi).
      assert (same_pair j (Application.f_applicant f) a = true)
        by (apply same_pair_true; auto). congruence. }
    intros i1 i2 a1 a2. simpl.
    rewrite !lookup_insert. repeat case_decide; subst; intros E1 E2 Hj Ha;
      try reflexivity.
    + injection E1 as <-. simpl in Hj, Ha. exfalso. eapply Hno; eauto.
    + injection E2 as <-. simpl in Hj, Ha. exfalso. eapply Hno; eauto.
    + eapply Hu; eauto.
  - (* Application.findByIdAndDelete *)
    destruct (castObjectId i) as [o |]; [| exact Hu].
    eapply unique_pairs_subset; [| exact Hu]. simpl. apply delete_subseteq.
  - (* Application.findByIdAndUpdate *)
    destruct (castObjectId i) as [o |]; [| exact Hu].
    destruct (applications s !! o) as [a |] eqn:Ea; [| exact Hu].
    destruct (set_status_pair status0 a) as [Ej Eu].
    intros i1 i2 a1 a2. simpl.
    rewrite !lookup_insert. repeat case_decide; subst; intros E1 E2 Hj Ha;
      try reflexivity.
    + injection E1 as <-. rewrite Ej in Hj. rewrite Eu in Ha. eapply Hu; eauto.
    + injection E2 as <-. rewrite Ej in Hj. rewrite Eu in Ha. eapply Hu; eauto.
    + eapply Hu; eauto.
  - (* Application.deleteMany *)
    destruct (castObjectId (filter_ref f)) as [o |]; [| exact Hu].
    eapply unique_pairs_subset; [| exact Hu]. simpl. apply map_filter_subseteq.
Qed.

Lemma exec_all_unique (l : list AnyOp) (s : Store) :
  unique_pairs s -> unique_pairs (exec_all l s).
Proof.
  revert s. induction l as [| [X op] l IH]; intros s Hu; simpl; [exact Hu |].
  apply IH. unfold exec_any. simpl. apply exec_op_unique, Hu.
Qed.

Lemma run_among_unique {A} (p : Prog A) (others : list (list AnyOp)) (s : Store) :
  unique_pairs s -> unique_pairs (snd (run_among others p s)).
Proof.
  revert others s. induction p as [a | e | X op k IH]; intros others s Hu; simpl;
    try exact Hu.
  pose proof (exec_op_unique op _ (exec_all_unique (hd [] others) s Hu)) as Hs.
  destruct (exec_op op (exec_all (hd [] others) s)) as [x s']. apply IH, Hs.
Qed.
End UniquePairs.

Section SecondApply.
Context `{Crypto}.

Lemma is_hex24_truthy (jid : string) : is_hex24 jid = true -> truthy (Some jid) = true.
Proof.
  unfold is_hex24. intros Hh. apply andb_true_iff in Hh as [Hlen _].
  destruct jid; [discriminate | reflexivity].
Qed.

Lemma castObjectId_str (jid : string) (j : ObjectId) :
  castObjectId (IdStr jid) = Some j -> is_hex24 jid = true /\ hex_value 0%N jid = Some j.
Proof.
  simpl. destruct (is_hex24 jid); [auto | discriminate].
Qed.

Lemma second_apply_jobs (req : Req.t JobsRoute.ApplyBody) (s : Store) (u : User.t)
    (j : ObjectId) :
  Authenticated req s u ->
  castObjectId (IdStr (Req.id req)) = Some j ->
  is_Some (jobs s !! j) ->
  applied s j (User._id u) ->
  respond (JobsRoute.post_apply req) s
  = (mkRes 400 (Message "Already applied for this job"), s).
Proof.
  intros Ha Hc [job Hj] Happ. unfold respond, JobsRoute.post_apply.
  rewrite (run_authenticate_ok _ _ _ _ Ha). unfold JobsRoute.apply_handler.
  rewrite run_try_catch, run_bind, run_call. cbn [exec_op]. unfold find_by_id.
  rewrite Hc, Hj. rewrite run_bind, run_call. cbn [exec_op]. rewrite Hc.
  destruct (find_one_applied _ _ _ Happ) as [a ->]. reflexivity.
Qed.

Lemma second_apply_applications (req : Req.t ApplicationsRoute.CreateBody) (s : Store)
    (u : User.t) (jid : string) (j : ObjectId) :
  Authenticated req s u ->
  ApplicationsRoute.jobId (Req.body req) = Some jid ->
  castObjectId (IdStr jid) = Some j ->
  is_Some (jobs s !! j) ->
  applied s j (User._id u) ->
  exists r, status r = 400%nat /\
    respond (ApplicationsRoute.post_application req) s = (r, s).
Proof.
  intros Ha Hid Hc [job Hj] Happ. unfold respond, ApplicationsRoute.post_application.
  rewrite (run_authenticate_ok _ _ _ _ Ha). unfold ApplicationsRoute.create_handler.
  apply castObjectId_str in Hc as [Hhex Hval].
  rewrite run_try_catch, Hid, (is_hex24_truthy _ Hhex). cbn [negb from_option id].
  destruct (truthy (ApplicationsRoute.coverLetter (Req.body req))); cbn [negb].
  - rewrite Hhex, Hval. cbn [negb].
    rewrite run_bind, run_call. cbn [exec_op]. unfold find_by_id. cbn [castObjectId].
    rewrite Hj. rewrite run_bind, run_call. cbn [exec_op castObjectId].
    destruct (find_one_applied _ _ _ Happ) as [a ->].
    eexists. split; [| reflexivity]. reflexivity.
  - eexists. split; [| reflexivity]. reflexivity.
Qed.
End SecondApply.

(** C1.  The store never holds two applications for one (job, applicant)
    pair: whatever handler runs, alone or with the operations of other
    requests between its own, a store without such a pair of records stays
    without one.  And when a user who already has an application for an
    existing job applies again, [POST /api/jobs/:id/apply] and
    [POST /api/applications] both answer 400 and leave the store exactly as it
    was. *)
Theorem one_application_per_job_and_applicant `{Crypto} :
  (forall (A : Type) (p : Prog A) (others : list (list AnyOp)) (s : Store),
     unique_pairs s -> unique_pairs (snd (run_among others p s))) /\
  (forall (req : Req.t JobsRoute.ApplyBody) (s : Store) (u : User.t) (j : ObjectId),
     Authenticated req s u ->
     castObjectId (IdStr (Req.id req)) = Some j ->
     is_Some (jobs s !! j) ->
     applied s j (User._id u) ->
     exists r, status r = 400%nat /\ respond (JobsRoute.post_apply req) s = (r, s)) /\
  (forall (req : Req.t ApplicationsRoute.CreateBody) (s : Store) (u : User.t)
          (jid : string) (j : ObjectId),
     Authenticated req s u ->
     ApplicationsRoute.jobId (Req.body req) = Some jid ->
     castObjectId (IdStr jid) = Some j ->
     is_Some (jobs s !! j) ->
     applied s j (User._id u) ->
     exists r, status r = 400%nat /\
       respond (ApplicationsRoute.post_application req) s = (r, s)).
Proof.
  split; [| split].
  - intros A p others s. apply run_among_unique.
  - intros req s u j Ha Hc Hj Happ. eexists. split; [| eapply second_apply_jobs; eauto].
    reflexivity.
  - intros. eapply second_apply_applications; eauto.
Qed.

Lemma sample_unique_pairs : unique_pairs Sample.store.
Proof.
  intros i1 i2 a1 a2 H1 H2 _ _. simpl in H1, H2.
  apply lookup_insert_Some in H1 as [[<- _] | [_ H1]];
    [| rewrite lookup_empty in H1; discriminate].
  apply lookup_insert_Some in H2 as [[<- _] | [_ H2]];
    [| rewrite lookup_empty in H2; discriminate].
  reflexivity.
Defined.

Lemma sample_ann_applied : applied Sample.store 16 2.
Proof. exists 32%N, Sample.app32. repeat split; reflexivity. Defined.

Section SecondApplyExample.
#[local] Existing Instance Sample.crypto.

Lemma one_application_per_job_and_applicant_witness :
  unique_pairs
    (snd (run_among [[any (JobFindByIdAndDelete (IdObj 16))]]
            (JobsRoute.post_apply
               (Req.mk (Sample.bearer Sample.bea) Sample.id16 None
                  (JobsRoute.mkApplyBody (Some "Hello"))))
            Sample.store)) /\
  (exists r, status r = 400%nat /\
     respond (JobsRoute.post_apply
                (Req.mk (Sample.bearer Sample.ann) Sample.id16 None
                   (JobsRoute.mkApplyBody (Some "Hello again"))))
       Sample.store = (r, Sample.store)) /\
  (exists r, status r = 400%nat /\
     respond (ApplicationsRoute.post_application
                (Req.mk (Sample.bearer Sample.ann) "" None
                   (ApplicationsRoute.mkCreateBody (Some Sample.id16) (Some "Hello again")
                      None None None None None None)))
       Sample.store = (r, Sample.store)).
Proof.
  destruct one_application_per_job_and_applicant as (Hinv & Hjobs & Happs).
  split; [| split].
  - apply Hinv, sample_unique_pairs.
  - apply (Hjobs _ Sample.store Sample.ann 16%N).
    + apply sample_authenticated; reflexivity.
    + reflexivity.
    + eexists. reflexivity.
    + apply sample_ann_applied.
  - apply (Happs _ Sample.store Sample.ann Sample.id16 16%N).
    + apply sample_authenticated; reflexivity.
    + reflexivity.
    + reflexivity.
    + eexists. reflexivity.
    + apply sample_ann_applied.
Defined.
End SecondApplyExample.

(** ** Deleting a user *)

Lemma includes_admin (r : string) : includes ["admin"] r = String.eqb r "admin".
Proof. unfold includes. simpl. apply orb_false_r. Qed.

(** C6.  An administrator deletes the user named by the route parameter: when
    that user is an administrator the answer is 400 and the store is left as
    it was; otherwise the answer is 200, the user is removed, and the
    applications that remain are exactly those of the other applicants. *)
Theorem delete_user_spares_admins_and_cascades `{Crypto}
    (req : Req.t unit) (s : Store) (admin target : User.t) (t : ObjectId) :
  Authenticated req s admin ->
  User.role admin = "admin" ->
  castObjectId (IdStr (Req.id req)) = Some t ->
  users s !! t = Some target ->
  (User.role target = "admin" ->
   exists r, status r = 400%nat /\ respond (AdminRoute.delete_user req) s = (r, s)) /\
  (User.role target <> "admin" ->
   exists r s',
     respond (AdminRoute.delete_user req) s = (r, s') /\
     status r = 200%nat /\
     users s' = delete t (users s) /\
     jobs s' = jobs s /\
     forall i a,
       applications s' !! i = Some a <->
       applications s !! i = Some a /\ Application.applicant a <> t).
Proof.
  intros Ha Hadmin Hc Ht.
  assert (run (AdminRoute.delete_user req) s
          = run (try_catch
                   (let* user := call (UserFindById (IdStr (Req.id req))) in
                    match user with
                    | None => Ret (mkRes 404 (Message "User not found"))
                    | Some u =>
                        if String.eqb (User.role u) "admin"
                        then Ret (mkRes 400 (Message "Cannot delete admin user"))
                        else
                          let* _ := call (UserFindByIdAndDelete (IdStr (Req.id req))) in
                          let* _ := call (AppDeleteMany (ByApplicant (IdStr (Req.id req)))) in
                          Ret (ok (Message "User deleted successfully"))
                    end)
                   internal_error) s) as Hrun.
  { unfold AdminRoute.delete_user, AdminRoute.admin_only.
    rewrite (run_authenticate_ok _ _ _ _ Ha). unfold authorize.
    rewrite includes_admin, Hadmin. reflexivity. }
  unfold respond. rewrite Hrun. clear Hrun.
  rewrite run_try_catch, run_bind, run_call. cbn [exec_op]. unfold find_by_id.
  rewrite Hc, Ht. split.
  - intros Hrole. rewrite Hrole. cbn. eexists. split; [| reflexivity]. reflexivity.
  - intros Hrole. destruct (String.eqb_spec (User.role target) "admin") as [E | _];
      [contradiction |].
    rewrite run_bind, run_call. cbn [exec_op]. rewrite Hc.
    rewrite run_bind, run_call. cbn [exec_op filter_ref]. rewrite Hc. cbn.
    eexists _, _. split; [reflexivity |].
    split; [reflexivity |]. split; [reflexivity |]. split; [reflexivity |].
    intros i a. cbn [applications with_applications with_users].
    rewrite map_lookup_filter_Some. reflexivity.
Qed.

Section DeleteUserExample.
#[local] Existing Instance Sample.crypto.

Lemma delete_user_spares_admins_and_cascades_witness :
  (exists r, status r = 400%nat /\
     respond (AdminRoute.delete_user
                (Req.mk (Sample.bearer Sample.bea) (Sample.hex24 1) None tt))
       Sample.store = (r, Sample.store)) /\
  (exists r s',
     respond (AdminRoute.delete_user
                (Req.mk (Sample.bearer Sample.bea) (Sample.hex24 2) None tt))
       Sample.store = (r, s') /\
     status r = 200%nat /\
     users s' = delete 2%N (users Sample.store) /\
     jobs s' = jobs Sample.store /\
     forall i a,
       applications s' !! i = Some a <->
       applications Sample.store !! i = Some a /\ Application.applicant a <> 2%N).
Proof.
  split.
  - apply (proj1 (delete_user_spares_admins_and_cascades
                    (Req.mk (Sample.bearer Sample.bea) (Sample.hex24 1) None tt)
                    Sample.store Sample.bea Sample.bea 1%N
                    ltac:(apply sample_authenticated; reflexivity)
                    eq_refl eq_refl eq_refl)).
    reflexivity.
  - apply (proj2 (delete_user_spares_admins_and_cascades
                    (Req.mk (Sample.bearer Sample.bea) (Sample.hex24 2) None tt)
                    Sample.store Sample.bea Sample.ann 2%N
                    ltac:(apply sample_authenticated; reflexivity)
                    eq_refl eq_refl eq_refl)).
    discriminate.
Defined.
End DeleteUserExample.

(** ** Status updates *)

Section StatusUpdates.
Context `{Crypto}.

Lemma run_admin_only {B} (req : Req.t B) (s : Store) (admin : User.t) (h : Prog Response) :
  Authenticated req s admin ->
  User.role admin = "admin" ->
  run (AdminRoute.admin_only req h) s = run h s.
Proof.
  intros Ha Hadmin. unfold AdminRoute.admin_only.
  rewrite (run_authenticate_ok _ _ _ _ Ha). unfold authorize.
  rewrite includes_admin, Hadmin. reflexivity.
Qed.

Lemma admin_only_forbids {B} (req : Req.t B) (s : Store) (u : User.t) (h : Prog Response) :
  Authenticated req s u ->
  User.role u <> "admin" ->
  respond (AdminRoute.admin_only req h) s
  = (mkRes 403 (Message "Access denied. Insufficient permissions."), s).
Proof.
  intros Ha Hrole. unfold respond, AdminRoute.admin_only.
  rewrite (run_authenticate_ok _ _ _ _ Ha). unfold authorize.
  rewrite includes_admin.
  destruct (String.eqb_spec (User.role u) "admin") as [E | _]; [contradiction |].
  reflexivity.
Qed.

Lemma applications_put_status_accepts (values : list string) :
  accepts_statuses values ApplicationsRoute.put_status.
Proof.
  intros req s admin o a v Ha Hadmin Hc Hl Hv _.
  eexists. split; [| unfold respond].
  2: { change (ApplicationsRoute.put_status req)
         with (AdminRoute.admin_only req
                 (try_catch
                    (let* application :=
                       call (AppFindByIdAndUpdateStatus (IdStr (Req.id req))
                               (ApplicationsRoute.status (Req.body req))) in
                     match application with
                     | None => Ret (mkRes 404 (Message "Application not found"))
                     | Some a =>
                         Ret (ok (MessageApplication
                                    "Application status updated successfully" a))
                     end)
                    internal_error)).
       rewrite (run_admin_only _ _ _ _ Ha Hadmin).
       rewrite run_try_catch, run_bind, run_call. cbn [exec_op].
       rewrite Hc, Hl, Hv. cbn. reflexivity. }
  reflexivity.
Qed.

Lemma admin_put_status_accepts :
  accepts_statuses ["pending"; "accepted"; "rejected"] AdminRoute.put_status.
Proof.
  intros req s admin o a v Ha Hadmin Hc Hl Hv Hin.
  assert (includes ["pending"; "accepted"; "rejected"] v = true) as Hinc.
  { simpl in Hin. destruct Hin as [<- | [<- | [<- | []]]]; reflexivity. }
  eexists. split; [| unfold respond, AdminRoute.put_status].
  2: { rewrite (run_admin_only _ _ _ _ Ha Hadmin).
       rewrite run_try_catch, Hv, Hinc. cbn [negb].
       rewrite run_bind, run_call. cbn [exec_op].
       rewrite Hc, Hl. cbn. reflexivity. }
  reflexivity.
Qed.

Lemma admin_put_status_rejects_reviewed (req : Req.t ApplicationsRoute.StatusBody)
    (s : Store) (admin : User.t) :
  Authenticated req s admin ->
  User.role admin = "admin" ->
  ApplicationsRoute.status (Req.body req) = Some "reviewed" ->
  respond (AdminRoute.put_status req) s = (mkRes 400 (Message "Invalid status"), s).
Proof.
  intros Ha Hadmin Hv. unfold respond, AdminRoute.put_status.
  rewrite (run_admin_only _ _ _ _ Ha Hadmin).
  rewrite run_try_catch, Hv. reflexivity.
Qed.
End StatusUpdates.

(** C4, as amended.  Status updates are for administrators only and no
    update depends on the current status.  [PUT /api/applications/:id/status]
    stores any of the four values; [PUT /api/admin/applications/:id/status]
    stores ["pending"], ["accepted"] and ["rejected"], and answers 400 to
    ["reviewed"], leaving the store as it was. *)
Theorem status_updates_by_route `{Crypto} :
  accepts_statuses status_values ApplicationsRoute.put_status /\
  accepts_statuses ["pending"; "accepted"; "rejected"] AdminRoute.put_status /\
  (forall (req : Req.t ApplicationsRoute.StatusBody) (s : Store) (admin : User.t),
     Authenticated req s admin ->
     User.role admin = "admin" ->
     ApplicationsRoute.status (Req.body req) = Some "reviewed" ->
     respond (AdminRoute.put_status req) s = (mkRes 400 (Message "Invalid status"), s)) /\
  admins_only ApplicationsRoute.put_status /\
  admins_only AdminRoute.put_status.
Proof.
  split; [apply applications_put_status_accepts |].
  split; [apply admin_put_status_accepts |].
  split; [apply admin_put_status_rejects_reviewed |].
  split; intros req s u Ha Hrole; eexists; (split; [| eapply admin_only_forbids; eauto]);
    reflexivity.
Qed.

Section StatusExamples.
#[local] Existing Instance Sample.crypto.

Lemma status_updates_by_route_witness :
  (exists r, status r = 200%nat /\
     respond (ApplicationsRoute.put_status (review_request Sample.bea "reviewed"))
       Sample.store
     = (r, with_applications
             (insert 32%N (set_status (Some "reviewed") Sample.app32)) Sample.store)) /\
  (exists r, status r = 200%nat /\
     respond (AdminRoute.put_status (review_request Sample.bea "accepted")) Sample.store
     = (r, with_applications
             (insert 32%N (set_status (Some "accepted") Sample.app32)) Sample.store)) /\
  respond (AdminRoute.put_status (review_request Sample.bea "reviewed")) Sample.store
  = (mkRes 400 (Message "Invalid status"), Sample.store) /\
  (exists r, status r = 403%nat /\
     respond (ApplicationsRoute.put_status (review_request Sample.ann "accepted"))
       Sample.store = (r, Sample.store)) /\
  (exists r, status r = 403%nat /\
     respond (AdminRoute.put_status (review_request Sample.ann "accepted"))
       Sample.store = (r, Sample.store)).
Proof.
  destruct status_updates_by_route as (Happ & Hadm & Hrev & Honly1 & Honly2).
  split; [| split; [| split; [| split]]].
  - apply (Happ (review_request Sample.bea "reviewed") Sample.store Sample.bea 32%N
             Sample.app32 "reviewed"); try reflexivity.
    + unfold review_request. apply (sample_authenticated Sample.store Sample.bea); reflexivity.
    + simpl. auto.
  - apply (Hadm (review_request Sample.bea "accepted") Sample.store Sample.bea 32%N
             Sample.app32 "accepted"); try reflexivity.
    + unfold review_request. apply (sample_authenticated Sample.store Sample.bea); reflexivity.
    + simpl. auto.
  - apply (Hrev (review_request Sample.bea "reviewed") Sample.store Sample.bea);
      try reflexivity.
    unfold review_request. apply (sample_authenticated Sample.store Sample.bea); reflexivity.
  - apply (Honly1 (review_request Sample.ann "accepted") Sample.store Sample.ann).
    + unfold review_request. apply (sample_authenticated Sample.store Sample.ann); reflexivity.
    + discriminate.
  - apply (Honly2 (review_request Sample.ann "accepted") Sample.store Sample.ann).
    + unfold review_request. apply (sample_authenticated Sample.store Sample.ann); reflexivity.
    + discriminate.
Defined.

(** C4, as stated, fails on the admin route: ["reviewed"] is one of the four
    values and [PUT /api/admin/applications/:id/status] does not store it. *)
Lemma admin_route_refuses_reviewed :
  ~ accepts_statuses status_values AdminRoute.put_status.
Proof.
  intros Hacc.
  destruct (Hacc (review_request Sample.bea "reviewed") Sample.store Sample.bea 32%N
              Sample.app32 "reviewed") as (r & Hr & Hrun); try reflexivity.
  - unfold review_request. apply (sample_authenticated Sample.store Sample.bea); reflexivity.
  - simpl. auto.
  - vm_compute in Hrun. injection Hrun as <-. discriminate.
Qed.
End StatusExamples.

(** ** Deleting a job *)

Section DeleteJob.
Context `{Crypto}.

Lemma issued_bind {A B} (p : Prog A) (f : A -> Prog B) (s : Store) :
  issued (bind p f) s =
  issued p s ++ match run p s with
                | (Ok a, s') => issued (f a) s'
                | (Raise _, _) => []
                end.
Proof.
  revert s. induction p as [a | e | X op k IH]; intros s; simpl; try reflexivity.
  destruct (exec_op op s) as [x s']. simpl. f_equal. apply IH.
Qed.

Lemma issued_try_catch {A} (p : Prog A) (h : Exn -> Prog A) (s : Store) :
  issued (try_catch p h) s =
  issued p s ++ match run p s with
                | (Ok _, _) => []
                | (Raise e, s') => issued (h e) s'
                end.
Proof.
  revert s. induction p as [a | e | X op k IH]; intros s; simpl; try reflexivity.
  destruct (exec_op op s) as [x s']. simpl. f_equal. apply IH.
Qed.

Lemma issued_call {X} (op : DbOp (Except X)) (s : Store) :
  issued (call op) s = [method op].
Proof.
  unfold call. simpl. destruct (exec_op op s) as [[x | e] s']; reflexivity.
Qed.

Lemma issued_authenticate_ok {B} (req : Req.t B) (s : Store) (u : User.t)
    (next : User.t -> Prog Response) :
  Authenticated req s u ->
  issued (authenticate req next) s = "User.findById" :: issued (next u) s.
Proof.
  intros Ha. unfold authenticate.
  rewrite issued_bind, issued_try_catch, run_try_catch.
  rewrite (run_resolve_user_ok req s u Ha).
  destruct Ha as [h sid o Hh Hne Hv Hc Hu]. unfold resolve_user, bearer_token.
  rewrite Hh. simpl fmap. rewrite truthy_Some.
  destruct (String.eqb_spec (remove_first "Bearer " h) "") as [E | _]; [contradiction |].
  cbn [negb from_option id]. rewrite Hv.
  rewrite issued_bind, issued_call, run_call. cbn [exec_op]. unfold find_by_id.
  rewrite Hc, Hu. reflexivity.
Qed.

Lemma issued_admin_only {B} (req : Req.t B) (s : Store) (admin : User.t)
    (h : Prog Response) :
  Authenticated req s admin ->
  User.role admin = "admin" ->
  issued (AdminRoute.admin_only req h) s = "User.findById" :: issued h s.
Proof.
  intros Ha Hadmin. unfold AdminRoute.admin_only.
  rewrite (issued_authenticate_ok _ _ _ _ Ha). unfold authorize.
  rewrite includes_admin, Hadmin. reflexivity.
Qed.

Lemma lookup_filter_job (m : gmap N Application.t) (j i : ObjectId) (a : Application.t) :
  filter (fun kv : N * Application.t => Application.job (snd kv) <> j) m !! i = Some a
  <-> m !! i = Some a /\ Application.job a <> j.
Proof. rewrite map_lookup_filter_Some. reflexivity. Qed.

Lemma jobs_delete_job (req : Req.t unit) (s : Store) (admin : User.t) (j : ObjectId) :
  Authenticated req s admin ->
  User.role admin = "admin" ->
  castObjectId (IdStr (Req.id req)) = Some j ->
  is_Some (jobs s !! j) ->
  exists r s',
    respond (JobsRoute.delete_job req) s = (r, s') /\
    status r = 200%nat /\
    job_deleted_with_applications j s s' /\
    issued (JobsRoute.delete_job req) s
    = ["User.findById"; "Job.findByIdAndDelete"; "Application.deleteMany"].
Proof.
  intros Ha Hadmin Hc [job Hj].
  change (JobsRoute.delete_job req)
    with (AdminRoute.admin_only req
            (try_catch
               (let* job := call (JobFindByIdAndDelete (IdStr (Req.id req))) in
                match job with
                | None => Ret (mkRes 404 (Message "Job not found"))
                | Some _ =>
                    let* _ := call (AppDeleteMany (ByJob (IdStr (Req.id req)))) in
                    Ret (ok (Message "Job deleted successfully"))
                end)
               internal_error)).
  unfold respond.
  rewrite (run_admin_only _ _ _ _ Ha Hadmin), (issued_admin_only _ _ _ _ Ha Hadmin).
  rewrite issued_try_catch, issued_bind, issued_call.
  rewrite run_try_catch, run_bind, run_call. cbn [exec_op]. rewrite Hc, Hj.
  rewrite issued_bind, issued_call, run_bind, run_call. cbn [exec_op filter_ref].
  rewrite Hc. cbn.
  eexists _, _. split; [reflexivity |]. split; [reflexivity |]. split; [| reflexivity].
  split; [reflexivity |]. split; [reflexivity |].
  intros i a. apply lookup_filter_job.
Qed.

Lemma admin_delete_job (req : Req.t unit) (s : Store) (admin : User.t) (j : ObjectId) :
  Authenticated req s admin ->
  User.role admin = "admin" ->
  castObjectId (IdStr (Req.id req)) = Some j ->
  is_Some (jobs s !! j) ->
  exists r s',
    respond (AdminRoute.delete_job req) s = (r, s') /\
    status r = 200%nat /\
    job_deleted_with_applications j s s' /\
    issued (AdminRoute.delete_job req) s
    = ["User.findById"; "Job.findById"; "Application.deleteMany"; "Job.findByIdAndDelete"].
Proof.
  intros Ha Hadmin Hc [job Hj]. unfold respond, AdminRoute.delete_job.
  rewrite (run_admin_only _ _ _ _ Ha Hadmin), (issued_admin_only _ _ _ _ Ha Hadmin).
  rewrite issued_try_catch, issued_bind, issued_call.
  rewrite run_try_catch, run_bind, run_call. cbn [exec_op]. unfold find_by_id.
  rewrite Hc, Hj.
  rewrite issued_bind, issued_call, run_bind, run_call. cbn [exec_op filter_ref].
  rewrite Hc.
  rewrite issued_bind, issued_call, run_bind, run_call. cbn [exec_op].
  rewrite Hc. cbn.
  eexists _, _. split; [reflexivity |]. split; [reflexivity |]. split; [| reflexivity].
  split; [reflexivity |]. split; [reflexivity |].
  intros i a. apply lookup_filter_job.
Qed.

Lemma lookup_after_job_deletion (j : ObjectId) (s s' : Store) (req : Req.t unit)
    (admin : User.t) (o : ObjectId) (a : Application.t) :
  job_deleted_with_applications j s s' ->
  Authenticated req s' admin ->
  User.role admin = "admin" ->
  castObjectId (IdStr (Req.id req)) = Some o ->
  applications s !! o = Some a ->
  Application.job a = j ->
  respond (AdminRoute.get_application req) s'
  = (mkRes 404 (Message "Application not found"), s').
Proof.
  intros (_ & _ & Happs) Ha Hadmin Hc Hl Hjob.
  unfold respond, AdminRoute.get_application.
  rewrite (run_admin_only _ _ _ _ Ha Hadmin).
  rewrite run_try_catch, run_bind, run_call. cbn [exec_op]. unfold find_by_id.
  rewrite Hc.
  destruct (applications s' !! o) as [a' |] eqn:E; [| reflexivity].
  apply Happs in E as [E Hne]. congruence.
Qed.
End DeleteJob.

(** C5, as amended.  An administrator deleting an existing job is answered
    200 and afterwards the job is gone, no application references it and
    nothing else has changed, so that looking up an application that
    referenced it is answered 404.  [DELETE /api/jobs/:id] removes the job
    first and its applications second; [DELETE /api/admin/jobs/:id] removes
    the applications first and the job second. *)
Theorem delete_job_cascades `{Crypto}
    (req : Req.t unit) (s : Store) (admin : User.t) (j : ObjectId) :
  Authenticated req s admin ->
  User.role admin = "admin" ->
  castObjectId (IdStr (Req.id req)) = Some j ->
  is_Some (jobs s !! j) ->
  (exists r s',
     respond (JobsRoute.delete_job req) s = (r, s') /\
     status r = 200%nat /\
     job_deleted_with_applications j s s' /\
     issued (JobsRoute.delete_job req) s
     = ["User.findById"; "Job.findByIdAndDelete"; "Application.deleteMany"]) /\
  (exists r s',
     respond (AdminRoute.delete_job req) s = (r, s') /\
     status r = 200%nat /\
     job_deleted_with_applications j s s' /\
     issued (AdminRoute.delete_job req) s
     = ["User.findById"; "Job.findById"; "Application.deleteMany";
        "Job.findByIdAndDelete"]) /\
  (forall (s' : Store) (lookup : Req.t unit) (o : ObjectId) (a : Application.t),
     job_deleted_with_applications j s s' ->
     Authenticated lookup s' admin ->
     castObjectId (IdStr (Req.id lookup)) = Some o ->
     applications s !! o = Some a ->
     Application.job a = j ->
     (forall i a', applications s' !! i = Some a' -> Application.job a' <> j) /\
     exists r, status r = 404%nat /\
       respond (AdminRoute.get_application lookup) s' = (r, s')).
Proof.
  intros Ha Hadmin Hc Hj.
  split; [eapply jobs_delete_job; eauto |].
  split; [eapply admin_delete_job; eauto |].
  intros s' lookup o a Hdel Hal Hcl Hl Hjob. split.
  - intros i a' Hi. apply Hdel in Hi. apply Hi.
  - eexists. split; [| eapply lookup_after_job_deletion; eauto]. reflexivity.
Qed.

Section DeleteJobExample.
#[local] Existing Instance Sample.crypto.

Lemma delete_job_cascades_witness :
  (exists r s',
     respond (JobsRoute.delete_job (delete_request Sample.bea Sample.id16)) Sample.store
     = (r, s') /\
     status r = 200%nat /\
     job_deleted_with_applications 16 Sample.store s' /\
     issued (JobsRoute.delete_job (delete_request Sample.bea Sample.id16)) Sample.store
     = ["User.findById"; "Job.findByIdAndDelete"; "Application.deleteMany"]) /\
  (exists r s',
     respond (AdminRoute.delete_job (delete_request Sample.bea Sample.id16)) Sample.store
     = (r, s') /\
     status r = 200%nat /\
     job_deleted_with_applications 16 Sample.store s' /\
     issued (AdminRoute.delete_job (delete_request Sample.bea Sample.id16)) Sample.store
     = ["User.findById"; "Job.findById"; "Application.deleteMany";
        "Job.findByIdAndDelete"]) /\
  (forall s',
     job_deleted_with_applications 16 Sample.store s' ->
     (forall i a', applications s' !! i = Some a' -> Application.job a' <> 16%N) /\
     exists r, status r = 404%nat /\
       respond (AdminRoute.get_application (delete_request Sample.bea Sample.id32)) s'
       = (r, s')).
Proof.
  destruct (delete_job_cascades (delete_request Sample.bea Sample.id16) Sample.store
              Sample.bea 16%N
              ltac:(unfold delete_request; apply (sample_authenticated Sample.store Sample.bea); reflexivity) eq_refl eq_refl
              ltac:(eexists; reflexivity)) as (Hjobs & Hadmin & Hlookup).
  split; [exact Hjobs |]. split; [exact Hadmin |].
  intros s' Hdel.
  apply (Hlookup s' (delete_request Sample.bea Sample.id32) 32%N Sample.app32 Hdel);
    try reflexivity.
  unfold delete_request. apply (sample_authenticated s' Sample.bea); [| reflexivity].
  destruct Hdel as (Husers & _). rewrite Husers. reflexivity.
Defined.

(** C5, as stated, fails on the admin route: there the job is not removed
    before its applications are. *)
Lemma admin_delete_job_cascades_first :
  occurs_before "Job.findByIdAndDelete" "Application.deleteMany"
    (issued (AdminRoute.delete_job (delete_request Sample.bea Sample.id16)) Sample.store)
  = false /\
  occurs_before "Application.deleteMany" "Job.findByIdAndDelete"
    (issued (AdminRoute.delete_job (delete_request Sample.bea Sample.id16)) Sample.store)
  = true.
Proof. split; vm_compute; reflexivity. Qed.
End DeleteJobExample.

(** ** The application counter *)

Section Counter.
Context `{Crypto}.

Notation refs j := (fun kv : N * Application.t => Application.job (snd kv) = j).

Lemma count_insert_same (m : gmap N Application.t) (i j : ObjectId) (a : Application.t) :
  m !! i = None -> Application.job a = j ->
  size (filter (refs j) (<[i := a]> m)) = S (size (filter (refs j) m)).
Proof.
  intros Hi Hj. rewrite map_filter_insert_True by exact Hj.
  apply map_size_insert_None. apply map_lookup_filter_None. left. exact Hi.
Qed.

Lemma count_insert_other (m : gmap N Application.t) (i j : ObjectId) (a : Application.t) :
  m !! i = None -> Application.job a <> j ->
  size (filter (refs j) (<[i := a]> m)) = size (filter (refs j) m).
Proof.
  intros Hi Hj. rewrite map_filter_insert_False by exact Hj.
  rewrite delete_id by exact Hi. reflexivity.
Qed.

Lemma count_delete_same (m : gmap N Application.t) (i j : ObjectId) (a : Application.t) :
  m !! i = Some a -> Application.job a = j ->
  S (size (filter (refs j) (delete i m))) = size (filter (refs j) m).
Proof.
  intros Hi Hj. rewrite map_filter_delete.
  assert (filter (refs j) m !! i = Some a) as Hf
    by (apply map_lookup_filter_Some; split; assumption).
  rewrite map_size_delete, Hf.
  assert (size (filter (refs j) m) <> 0%nat) as Hne.
  { intros E. apply map_size_empty_inv in E. rewrite E, lookup_empty in Hf. discriminate. }
  destruct (size (filter (refs j) m)); [contradiction | reflexivity].
Qed.

Lemma count_delete_other (m : gmap N Application.t) (i j : ObjectId) (a : Application.t) :
  m !! i = Some a -> Application.job a <> j ->
  size (filter (refs j) (delete i m)) = size (filter (refs j) m).
Proof.
  intros Hi Hj. rewrite map_filter_delete. apply map_size_delete_None.
  apply map_lookup_filter_None. right. intros a' Ha'.
  rewrite Hi in Ha'. injection Ha' as <-. exact Hj.
Qed.

(** The store an accepted application leaves: one more record, one more on
    the counter. *)
Lemma consistent_after_apply (s : Store) (j : ObjectId) (job : Job.t) (a : Application.t) :
  count_consistent s ->
  jobs s !! j = Some job ->
  Application.job a = j ->
  count_consistent
    (with_jobs (insert j (inc_count 1 job))
       (with_applications (insert (fresh (dom (applications s))) a) s)).
Proof.
  intros Hc Hj Ha j' job'. unfold live_count. cbn [jobs applications with_jobs with_applications].
  rewrite lookup_insert. case_decide as Hjj.
  - subst j'. intros [= <-]. cbn [inc_count Job.applicationCount].
    rewrite (count_insert_same _ _ _ _ (fresh_not_in _) Ha).
    rewrite (Hc _ _ Hj). unfold live_count. lia.
  - intros Hj'. rewrite count_insert_other; [apply Hc, Hj' | apply fresh_not_in | congruence].
Qed.

(** The store [DELETE /api/applications/:id] leaves. *)
Lemma consistent_after_delete (s : Store) (o : ObjectId) (a : Application.t) (job : Job.t) :
  count_consistent s ->
  applications s !! o = Some a ->
  jobs s !! Application.job a = Some job ->
  count_consistent
    (with_jobs (insert (Application.job a) (inc_count (-1) job))
       (with_applications (delete o) s)).
Proof.
  intros Hc Ho Hj j' job'. unfold live_count.
  cbn [jobs applications with_jobs with_applications].
  rewrite lookup_insert. case_decide as Hjj.
  - subst j'. intros [= <-]. cbn [inc_count Job.applicationCount].
    pose proof (count_delete_same _ _ _ _ Ho eq_refl) as Hs.
    rewrite (Hc _ _ Hj). unfold live_count. lia.
  - intros Hj'. rewrite (count_delete_other _ _ _ _ Ho); [apply Hc, Hj' | congruence].
Qed.

Lemma consistent_after_orphan_delete (s : Store) (o : ObjectId) (a : Application.t) :
  count_consistent s ->
  applications s !! o = Some a ->
  jobs s !! Application.job a = None ->
  count_consistent (with_applications (delete o) s).
Proof.
  intros Hc Ho Hj j' job'. unfold live_count.
  cbn [jobs applications with_applications]. intros Hj'.
  rewrite (count_delete_other _ _ _ _ Ho); [apply Hc, Hj' | congruence].
Qed.

Lemma authenticated_or_not {B} (req : Req.t B) (s : Store) :
  Unauthenticated req s \/ exists u, Authenticated req s u.
Proof.
  destruct (Req.authorization req) as [h |] eqn:Hh; [| left; apply no_header, Hh].
  destruct (String.eqb_spec (remove_first "Bearer " h) "") as [He | Hne];
    [left; eapply empty_token; eauto |].
  destruct (jwt_verify (remove_first "Bearer " h)) as [id |] eqn:Hv;
    [| left; eapply rejected_token; eauto].
  destruct (castObjectId (IdStr id)) as [o |] eqn:Hc;
    [| left; eapply malformed_subject; eauto].
  destruct (users s !! o) as [u |] eqn:Hu;
    [| left; eapply unknown_subject; eauto].
  right. exists u. eapply authenticated; eauto.
Qed.

Lemma authenticate_preserves {B} (P : Store -> Prop) (req : Req.t B)
    (next : User.t -> Prog Response) (s : Store) :
  P s ->
  (forall u, P (snd (run (next u) s))) ->
  P (snd (run (authenticate req next) s)).
Proof.
  intros HP Hnext. destruct (authenticated_or_not req s) as [Hu | [u Ha]].
  - destruct (run_authenticate_fail req s Hu) as (r & _ & Hrun). rewrite Hrun. exact HP.
  - rewrite (run_authenticate_ok _ _ _ _ Ha). apply Hnext.
Qed.

Lemma respond_store (p : Prog Response) (s : Store) : snd (respond p s) = snd (run p s).
Proof. unfold respond. destruct (run p s) as [[r | e] s']; reflexivity. Qed.

Lemma apply_handler_consistent (req : Req.t JobsRoute.ApplyBody) (u : User.t) (s : Store) :
  count_consistent s ->
  count_consistent (snd (run (JobsRoute.apply_handler req u) s)).
Proof.
  intros Hc. unfold JobsRoute.apply_handler.
  rewrite run_try_catch, run_bind, run_call. cbn [exec_op]. unfold find_by_id.
  destruct (castObjectId (IdStr (Req.id req))) as [j |] eqn:Hcast; [| exact Hc].
  destruct (jobs s !! j) as [job |] eqn:Hj; [| exact Hc].
  rewrite run_bind, run_call. cbn [exec_op]. rewrite Hcast.
  destruct (find_one (same_pair j (User._id u)) (applications s)) eqn:Hf; [exact Hc |].
  rewrite run_bind, run_call. cbn [exec_op Application.f_job Application.f_applicant].
  rewrite Hcast, Hf. cbn [bool_decide decide_rel is_Some_dec option_rect].
  rewrite run_bind, run_call. cbn [exec_op]. rewrite Hcast.
  cbn [jobs with_applications]. rewrite Hj. cbn [run snd].
  apply consistent_after_apply; [exact Hc | exact Hj | reflexivity].
Qed.

Lemma create_handler_consistent (req : Req.t ApplicationsRoute.CreateBody) (u : User.t)
    (s : Store) :
  count_consistent s ->
  count_consistent (snd (run (ApplicationsRoute.create_handler req u) s)).
Proof.
  intros Hc. unfold ApplicationsRoute.create_handler. rewrite run_try_catch.
  destruct (negb (truthy (ApplicationsRoute.jobId (Req.body req)))); [exact Hc |].
  destruct (negb (truthy (ApplicationsRoute.coverLetter (Req.body req)))); [exact Hc |].
  destruct (negb (is_hex24 _)); [exact Hc |].
  destruct (hex_value 0%N _) as [j |]; [| exact Hc].
  rewrite run_bind, run_call. cbn [exec_op]. unfold find_by_id. cbn [castObjectId].
  destruct (jobs s !! j) as [job |] eqn:Hj; [| exact Hc].
  rewrite run_bind, run_call. cbn [exec_op castObjectId].
  destruct (find_one (same_pair j (User._id u)) (applications s)) eqn:Hf; [exact Hc |].
  rewrite run_bind, run_call.
  cbn [exec_op castObjectId Application.f_job Application.f_applicant].
  rewrite Hf. cbn [bool_decide decide_rel is_Some_dec option_rect].
  rewrite run_bind, run_call. cbn [exec_op castObjectId].
  cbn [jobs with_applications]. rewrite Hj. cbn [run snd].
  apply consistent_after_apply; [exact Hc | exact Hj | reflexivity].
Qed.

Lemma delete_handler_consistent (req : Req.t unit) (u : User.t) (s : Store) :
  count_consistent s ->
  count_consistent (snd (run (ApplicationsRoute.delete_handler req u) s)).
Proof.
  intros Hc. unfold ApplicationsRoute.delete_handler.
  rewrite run_try_catch, run_bind, run_call. cbn [exec_op]. unfold find_by_id.
  destruct (castObjectId (IdStr (Req.id req))) as [o |] eqn:Hcast; [| exact Hc].
  destruct (applications s !! o) as [a |] eqn:Ho; [| exact Hc].
  destruct (negb (N.eqb (Application.applicant a) (User._id u))
            && negb (String.eqb (User.role u) "admin")); [exact Hc |].
  rewrite run_bind, run_call. cbn [exec_op]. rewrite Hcast.
  rewrite run_bind, run_call. cbn [exec_op castObjectId].
  cbn [jobs with_applications].
  destruct (jobs s !! Application.job a) as [job |] eqn:Hj; cbn [run snd].
  - apply consistent_after_delete; assumption.
  - eapply consistent_after_orphan_delete; eassumption.
Qed.

(** Handled alone, the two apply routes and [DELETE /api/applications/:id]
    keep every counter equal to the number of live applications. *)
Lemma counter_kept_by_apply_and_self_delete (s : Store) :
  count_consistent s ->
  (forall req, count_consistent (snd (respond (JobsRoute.post_apply req) s))) /\
  (forall req, count_consistent (snd (respond (ApplicationsRoute.post_application req) s))) /\
  (forall req, count_consistent (snd (respond (ApplicationsRoute.delete_application req) s))).
Proof.
  intros Hc. repeat split; intros req; rewrite respond_store;
    unfold JobsRoute.post_apply, ApplicationsRoute.post_application,
      ApplicationsRoute.delete_application;
    apply authenticate_preserves; try exact Hc; intros u.
  - apply apply_handler_consistent, Hc.
  - apply create_handler_consistent, Hc.
  - apply delete_handler_consistent, Hc.
Qed.
End Counter.

Section CounterBug.
Context `{Crypto}.

(** [DELETE /api/admin/applications/:id] removes the record and leaves the
    counter of its job one above the number of live applications. *)
Lemma admin_delete_application_skips_decrement (req : Req.t unit) (s : Store)
    (admin : User.t) (o : ObjectId) (a : Application.t) (job : Job.t) :
  Authenticated req s admin ->
  User.role admin = "admin" ->
  castObjectId (IdStr (Req.id req)) = Some o ->
  applications s !! o = Some a ->
  jobs s !! Application.job a = Some job ->
  count_consistent s ->
  exists s',
    respond (AdminRoute.delete_application req) s
    = (ok (Message "Application deleted successfully"), s') /\
    jobs s' = jobs s /\
    applications s' = delete o (applications s) /\
    Job.applicationCount job = Z.of_nat (S (live_count (Application.job a) s')).
Proof.
  intros Ha Hadmin Hc Ho Hj Hcons. unfold respond, AdminRoute.delete_application.
  rewrite (run_admin_only _ _ _ _ Ha Hadmin).
  rewrite run_try_catch, run_bind, run_call. cbn [exec_op]. unfold find_by_id.
  rewrite Hc, Ho. rewrite run_bind, run_call. cbn [exec_op]. rewrite Hc. cbn [run].
  eexists. split; [reflexivity |]. split; [reflexivity |]. split; [reflexivity |].
  unfold live_count. cbn [applications with_applications].
  rewrite (count_delete_same _ _ _ _ Ho eq_refl). apply Hcons, Hj.
Qed.
End CounterBug.

Lemma sample_count_consistent : count_consistent Sample.store.
Proof.
  intros j job Hj. simpl in Hj.
  apply lookup_insert_Some in Hj as [[<- <-] | [_ Hj]];
    [| rewrite lookup_empty in Hj; discriminate].
  vm_compute. reflexivity.
Qed.

Section CounterExample.
#[local] Existing Instance Sample.crypto.

(** C2 at the failing input.  On the sample store, where the counter of job
    16 equals its one live application, an administrator deletes that
    application through [DELETE /api/admin/applications/:id]: the answer is
    200, no application references job 16 any more, and its counter is
    still 1. *)
Theorem admin_delete_application_leaves_counter :
  count_consistent Sample.store /\
  exists s',
    respond (AdminRoute.delete_application (delete_request Sample.bea Sample.id32))
      Sample.store = (ok (Message "Application deleted successfully"), s') /\
    live_count 16 s' = 0%nat /\
    Job.applicationCount <$> jobs s' !! 16%N = Some 1 /\
    ~ count_consistent s'.
Proof.
  split; [exact sample_count_consistent |].
  eexists. split; [vm_compute; reflexivity |].
  split; [vm_compute; reflexivity |]. split; [vm_compute; reflexivity |].
  intros Hc. specialize (Hc 16%N Sample.job16 eq_refl). vm_compute in Hc. discriminate.
Qed.
End CounterExample.

(** ** Applying while the job is being deleted *)

Section Rollback.
Context `{Crypto}.

Lemma run_among_step {X A} (others : list (list AnyOp)) (op : DbOp (Except X))
    (f : X -> Prog A) (h : Exn -> Prog A) (s : Store) :
  run_among others (try_catch (bind (call op) f) h) s =
  match exec_op op (exec_all (hd [] others) s) with
  | (Ok v, s') => run_among (tl others) (try_catch (f v) h) s'
  | (Raise e, s') => run_among (tl others) (h e) s'
  end.
Proof.
  simpl. destruct (exec_op op (exec_all (hd [] others) s)) as [[v | e] s']; reflexivity.
Qed.

Lemma not_applied_find_one (s : Store) (j u : ObjectId) :
  ~ applied s j u -> find_one (same_pair j u) (applications s) = None.
Proof.
  intros Hn. apply find_one_None. intros i a Hi.
  destruct (same_pair j u a) eqn:E; [| reflexivity].
  apply same_pair_true in E as [Ej Eu]. exfalso. apply Hn. exists i, a. auto.
Qed.


(** [POST /api/jobs/:id/apply] in the same situation: the result of the
    increment is not looked at, the answer is 201 and the application stays. *)
Lemma apply_handler_does_not_roll_back (req : Req.t JobsRoute.ApplyBody) (u : User.t)
    (s : Store) (j : ObjectId) (job : Job.t) (env : list AnyOp) :
  let aid := fresh (dom (applications s)) in
  let a :=
    new_application aid j
      (Application.mkFields (IdStr (Req.id req)) (User._id u)
         (JobsRoute.coverLetter (Req.body req)) (Req.file req)
         None None None None None None) in
  let s1 := exec_all env (with_applications (insert aid a) s) in
  castObjectId (IdStr (Req.id req)) = Some j ->
  jobs s !! j = Some job ->
  ~ applied s j (User._id u) ->
  jobs s1 !! j = None ->
  run_among [[]; []; []; env] (JobsRoute.apply_handler req u) s
  = (Ok (mkRes 201 (MessageApplication "Application submitted successfully" a)), s1).
Proof.
  intros aid a s1 Hc Hj Hna Hgone.
  apply not_applied_find_one in Hna.
  unfold JobsRoute.apply_handler.
  rewrite run_among_step. cbn [hd tl exec_all fold_left exec_op]. unfold find_by_id.
  rewrite Hc, Hj.
  rewrite run_among_step. cbn [hd tl exec_all fold_left exec_op]. rewrite Hc, Hna.
  rewrite run_among_step.
  cbn [hd tl exec_all fold_left exec_op Application.f_job Application.f_applicant].
  rewrite Hc, Hna. cbn [bool_decide decide_rel is_Some_dec option_rect].
  rewrite run_among_step. cbn [hd tl exec_op].
  fold aid. fold a. fold s1. rewrite Hc, Hgone.
  reflexivity.
Qed.
End Rollback.

Section RollbackExample.
#[local] Existing Instance Sample.crypto.

(** C3 at the failing input.  The sample administrator applies to job 16
    while the job is being deleted, the deletion reaching the store between
    the duplicate check and the insertion.  [POST /api/jobs/:id/apply]
    answers 201 and leaves an application that references the deleted job;
    [POST /api/applications], in the same schedule, answers 404 and leaves no
    application. *)
Theorem apply_route_keeps_application_of_vanished_job :
  (exists a s',
     run_among deletion_after_check (JobsRoute.post_apply bea_applies) Sample.store
     = (Ok (mkRes 201 (MessageApplication "Application submitted successfully" a)), s') /\
     jobs s' !! 16%N = None /\
     applications s' !! Application._id a = Some a /\
     Application.job a = 16%N /\
     Application.applicant a = 1%N) /\
  (exists s',
     run_among deletion_after_check (ApplicationsRoute.post_application bea_creates)
       Sample.store
     = (Ok (mkRes 404 (Message "Job not found during update")), s') /\
     jobs s' !! 16%N = None /\
     applications s' = ∅).
Proof.
  split.
  - eexists _, _. split; [vm_compute; reflexivity |].
    repeat split; vm_compute; reflexivity.
  - eexists. split; [vm_compute; reflexivity |].
    split; vm_compute; reflexivity.
Qed.
End RollbackExample.

(** ** Profile updates *)

Section ProfileUpdate.
Context `{Crypto}.







End ProfileUpdate.

Section ProfileUpdateExample.
#[local] Existing Instance Sample.crypto.

(** C8 at the failing input.  Ann, whose role is ["user"], sends the profile
    update [{"$set": {"role": "admin"}}]: the two deletions remove nothing,
    the update is applied, the answer is 200 and her stored role is
    ["admin"].  The body [{"$set": {"password": "x"}}] replaces her stored
    password in the same way. *)
Theorem profile_update_changes_role_through_set :
  (exists p s' u',
     AuthRoute.put_profile (ann_sets "role" "admin") = Some p /\
     respond p Sample.store
     = (ok (MessageUser "Profile updated successfully"
              (Some (AuthRoute.select_minus_password u'))), s') /\
     users Sample.store !! 2%N = Some Sample.ann /\
     User.role Sample.ann = "user" /\
     users s' !! 2%N = Some u' /\
     User.role u' = "admin") /\
  (exists p s' u',
     AuthRoute.put_profile (ann_sets "password" "x") = Some p /\
     fst (respond p Sample.store)
     = ok (MessageUser "Profile updated successfully"
             (Some (AuthRoute.select_minus_password u'))) /\
     snd (respond p Sample.store) = s' /\
     users s' !! 2%N = Some u' /\
     User.password Sample.ann = "$2a$12$a" /\
     User.password u' = "x").
Proof.
  split.
  - eexists _, _,
      (User.mk 2 "Ann" "ann@example.org" "$2a$12$a" "admin" User.no_profile).
    split; [vm_compute; reflexivity |].
    split; [vm_compute; reflexivity |]. repeat split; vm_compute; reflexivity.
  - eexists _, _,
      (User.mk 2 "Ann" "ann@example.org" "x" "user" User.no_profile).
    split; [vm_compute; reflexivity |].
    split; [vm_compute; reflexivity |]. repeat split; vm_compute; reflexivity.
Qed.
End ProfileUpdateExample.

(** * Properties of the other routes *)

(** ** Logging in and registering *)

Section LoginLemmas.
Context `{Crypto} `{PasswordCompare}.

Lemma has_email_true (e : string) (u : User.t) : has_email e u = true <-> User.email u = e.
Proof. unfold has_email. apply String.eqb_eq. Qed.

Lemma fresh_email_find_one (s : Store) (e : string) :
  (forall i u, users s !! i = Some u -> User.email u <> e) ->
  find_one (has_email e) (users s) = None.
Proof.
  intros Hf. apply find_one_None. intros i u Hu.
  destruct (has_email e u) eqn:E; [| reflexivity].
  apply has_email_true in E. exfalso. exact (Hf i u Hu E).
Qed.

Lemma run_login (req : Req.t Login.Body) (s : Store) :
  respond (Login.login req) s =
  (match find_one (has_email (Login.email (Req.body req))) (users s) with
   | None => mkRes 400 (Message "Invalid credentials")
   | Some u =>
       if bcrypt_compare (Login.password (Req.body req)) (User.password u)
       then ok (MessageUserToken "Login successful" (jwt_sign (User._id u))
                  (User._id u) (User.name u) (User.email u) (User.role u))
       else mkRes 400 (Message "Invalid credentials")
   end, s).
Proof.
  unfold respond, Login.login. rewrite run_try_catch, run_bind, run_query.
  cbn [exec_op fst snd].
  destruct (find_one _ _) as [u |]; [| reflexivity].
  destruct (bcrypt_compare _ _); reflexivity.
Qed.
End LoginLemmas.


Lemma sample_users (i : N) (u : User.t) :
  users Sample.store !! i = Some u -> u = Sample.bea \/ u = Sample.ann.
Proof.
  simpl. intros Hu.
  apply lookup_insert_Some in Hu as [[_ <-] | [_ Hu]]; [left; reflexivity |].
  apply lookup_insert_Some in Hu as [[_ <-] | [_ Hu]]; [right; reflexivity |].
  rewrite lookup_empty in Hu. discriminate.
Defined.

Section LoginExample.
#[local] Existing Instance Sample.crypto.
#[local] Existing Instance sample_compare.

End LoginExample.

Section RegisterLemmas.
Context `{Crypto}.

Lemma run_register_created (req : Req.t AuthRoute.RegisterBody) (s : Store) :
  registrable (Req.body req) s ->
  respond (AuthRoute.register req) s
  = (mkRes 201
       (MessageUserToken "User registered successfully"
          (jwt_sign (fresh (dom (users s)))) (fresh (dom (users s)))
          (AuthRoute.name (Req.body req)) (AuthRoute.email (Req.body req))
          (AuthRoute.role_or_user (AuthRoute.role (Req.body req)))),
     with_users (insert (fresh (dom (users s))) (registered_user (Req.body req) s)) s).
Proof.
  intros (Hn & He & Hp & Hr & Hfresh).
  unfold respond, AuthRoute.register.
  rewrite run_try_catch, run_bind, run_query. cbn [exec_op fst snd].
  rewrite (fresh_email_find_one s _ Hfresh).
  rewrite run_bind, run_call. cbn [exec_op].
  apply String.eqb_neq in Hn, He, Hp. rewrite Hn, He, Hp, Hr.
  rewrite (fresh_email_find_one s _ Hfresh). reflexivity.
Qed.

Lemma run_register_refused (req : Req.t AuthRoute.RegisterBody) (s : Store) :
  ~ registrable (Req.body req) s ->
  snd (respond (AuthRoute.register req) s) = s
  /\ status (fst (respond (AuthRoute.register req) s)) <> 201%nat.
Proof.
  intros Hno. unfold respond, AuthRoute.register.
  rewrite run_try_catch, run_bind, run_query. cbn [exec_op fst snd].
  destruct (find_one _ _) as [u |] eqn:Ef; [split; [reflexivity | discriminate] |].
  rewrite run_bind, run_call. cbn [exec_op]. rewrite Ef.
  destruct (String.eqb_spec (AuthRoute.name (Req.body req)) "") as [| Hn];
    [split; [reflexivity | discriminate] |].
  destruct (String.eqb_spec (AuthRoute.email (Req.body req)) "") as [| He];
    [split; [reflexivity | discriminate] |].
  destruct (String.eqb_spec (AuthRoute.password (Req.body req)) "") as [| Hp];
    [split; [reflexivity | discriminate] |].
  destruct (includes role_enum _) eqn:Hr; [| split; [reflexivity | discriminate]].
  exfalso. apply Hno. repeat split; try assumption.
  intros i u Hu Hu'. rewrite find_one_None in Ef. specialize (Ef i u Hu).
  apply has_email_true in Hu'. congruence.
Qed.
End RegisterLemmas.

(** X2.  [POST /api/auth/register] stores a user exactly when the name, the
    email and the password are not empty, the role (["user"] when none is
    given) is ["user"] or ["admin"], and no user has the email: then the
    answer is 201 and the one new document holds the hash of the password,
    not the password; otherwise the store is left as it was and the answer
    is not 201. *)
Theorem register_creates_exactly_when_registrable
    `{Crypto} (req : Req.t AuthRoute.RegisterBody) (s : Store) :
  (registrable (Req.body req) s ->
   respond (AuthRoute.register req) s
   = (mkRes 201
        (MessageUserToken "User registered successfully"
           (jwt_sign (fresh (dom (users s)))) (fresh (dom (users s)))
           (AuthRoute.name (Req.body req)) (AuthRoute.email (Req.body req))
           (AuthRoute.role_or_user (AuthRoute.role (Req.body req)))),
      with_users (insert (fresh (dom (users s))) (registered_user (Req.body req) s)) s)
   /\ users s !! fresh (dom (users s)) = None
   /\ User.password (registered_user (Req.body req) s)
      = bcrypt_hash (AuthRoute.password (Req.body req))) /\
  (~ registrable (Req.body req) s ->
   snd (respond (AuthRoute.register req) s) = s
   /\ status (fst (respond (AuthRoute.register req) s)) <> 201%nat).
Proof.
  split.
  - intros Hr. split; [apply run_register_created, Hr |].
    split; [apply fresh_not_in | reflexivity].
  - apply run_register_refused.
Qed.

Lemma eve_registrable : registrable (Req.body eve_registers) Sample.store.
Proof.
  repeat split; try discriminate.
  intros i u Hu. destruct (sample_users i u Hu) as [-> | ->]; discriminate.
Defined.

Lemma ann_not_registrable : ~ registrable (Req.body ann_registers_again) Sample.store.
Proof.
  intros (_ & _ & _ & _ & Hf). exact (Hf 2%N Sample.ann eq_refl eq_refl).
Defined.

Section RegisterExample.
#[local] Existing Instance Sample.crypto.

Lemma register_creates_exactly_when_registrable_witness :
  (respond (AuthRoute.register eve_registers) Sample.store
   = (mkRes 201
        (MessageUserToken "User registered successfully"
           (jwt_sign (fresh (dom (users Sample.store)))) (fresh (dom (users Sample.store)))
           "Eve" "eve@example.org" "user"),
      with_users (insert (fresh (dom (users Sample.store)))
                    (registered_user (Req.body eve_registers) Sample.store))
        Sample.store)
   /\ users Sample.store !! fresh (dom (users Sample.store)) = None
   /\ User.password (registered_user (Req.body eve_registers) Sample.store)
      = bcrypt_hash "pw") /\
  (snd (respond (AuthRoute.register ann_registers_again) Sample.store) = Sample.store
   /\ status (fst (respond (AuthRoute.register ann_registers_again) Sample.store))
      <> 201%nat).
Proof.
  split.
  - apply (proj1 (register_creates_exactly_when_registrable eve_registers Sample.store)).
    exact eve_registrable.
  - apply (proj2 (register_creates_exactly_when_registrable ann_registers_again
                    Sample.store)).
    exact ann_not_registrable.
Defined.
End RegisterExample.

(** ** The bearer token *)

Lemma remove_first_unfold (pat s : string) :
  remove_first pat s =
  if String.prefix pat s then String.substring (String.length pat) (String.length s) s
  else match s with
       | EmptyString => EmptyString
       | String c s' => String c (remove_first pat s')
       end.
Proof. destruct s; reflexivity. Qed.

Lemma prefix_append (p t : string) : String.prefix p (String.append p t) = true.
Proof.
  induction p as [| c p IH]; simpl; [destruct t; reflexivity |].
  destruct (ascii_dec c c) as [_ | Hne]; [exact IH | contradiction].
Qed.

Lemma prefix_decompose (p s : string) :
  String.prefix p s = true -> exists t, s = String.append p t.
Proof.
  revert s. induction p as [| c p IH]; intros s; simpl.
  - intros _. exists s. reflexivity.
  - destruct s as [| d s]; [discriminate |]. simpl.
    destruct (ascii_dec c d) as [<- | _]; [| intros Hp; discriminate Hp].
    intros Hp. destruct (IH s Hp) as [t ->]. exists t. reflexivity.
Qed.

Lemma substring_all (t : string) (m : nat) :
  (String.length t <= m)%nat -> String.substring 0 m t = t.
Proof.
  revert m. induction t as [| c t IH]; intros m Hm; destruct m; simpl in *;
    try reflexivity; try lia.
  f_equal. apply IH. lia.
Qed.

Lemma substring_skip (p t : string) (m : nat) :
  (String.length t <= m)%nat ->
  String.substring (String.length p) m (String.append p t) = t.
Proof.
  induction p as [| c p IH]; intros Hm; simpl; [apply substring_all, Hm |].
  apply IH, Hm.
Qed.

Lemma length_append (p t : string) :
  String.length (String.append p t) = (String.length p + String.length t)%nat.
Proof. induction p as [| c p IH]; simpl; [reflexivity | rewrite IH; reflexivity]. Qed.

Lemma remove_first_prefix (pat t : string) :
  remove_first pat (String.append pat t) = t.
Proof.
  rewrite remove_first_unfold, prefix_append.
  apply substring_skip. rewrite length_append. lia.
Qed.

Lemma remove_first_absent (pat s : string) : absent pat s -> remove_first pat s = s.
Proof.
  induction s as [| c s IH]; intros Ha; rewrite remove_first_unfold.
  - destruct (String.prefix pat "") eqn:Hp; [| reflexivity].
    apply prefix_decompose in Hp as [t Ht]. exfalso. exact (Ha "" t Ht).
  - destruct (String.prefix pat (String c s)) eqn:Hp.
    + apply prefix_decompose in Hp as [t Ht]. exfalso. exact (Ha "" t Ht).
    + f_equal. apply IH. intros pre post E. apply (Ha (String c pre) post).
      simpl. rewrite E. reflexivity.
Qed.

(** X3.  The middleware takes its token from the [Authorization] header by
    removing the first ["Bearer "]: a header ["Bearer t"] gives [t], and a
    header in which ["Bearer "] does not occur is the token as it stands, so
    that a verifiable token sent without the scheme authenticates too. *)
Theorem bearer_scheme_is_optional `{Crypto} {B} (req : Req.t B) (s : Store)
    (t sid : string) (o : ObjectId) (u : User.t) (next : User.t -> Prog Response) :
  t <> "" ->
  jwt_verify t = Some sid ->
  castObjectId (IdStr sid) = Some o ->
  users s !! o = Some u ->
  bearer_token (Some (String.append "Bearer " t)) = Some t /\
  (Req.authorization req = Some (String.append "Bearer " t) ->
   run (authenticate req next) s = run (next u) s) /\
  (absent "Bearer " t ->
   Req.authorization req = Some t ->
   run (authenticate req next) s = run (next u) s).
Proof.
  intros Ht Hv Hc Hu.
  assert (remove_first "Bearer " (String.append "Bearer " t) = t) as Hrm
    by apply remove_first_prefix.
  split; [unfold bearer_token; cbn [fmap option_fmap option_map]; rewrite Hrm;
          reflexivity |].
  split.
  - intros Hh. apply run_authenticate_ok.
    apply (authenticated req s u (String.append "Bearer " t) sid o); try assumption;
      rewrite Hrm; assumption.
  - intros Ha Hh. apply run_authenticate_ok.
    apply (authenticated req s u t sid o); try assumption;
      rewrite (remove_first_absent _ _ Ha); assumption.
Qed.

Lemma occurs_unfold (pat s : string) :
  occurs pat s =
  String.prefix pat s || match s with
                         | EmptyString => false
                         | String _ s' => occurs pat s'
                         end.
Proof. destruct s; reflexivity. Qed.

Lemma occurs_append (pre pat post : string) :
  occurs pat (String.append pre (String.append pat post)) = true.
Proof.
  induction pre as [| c pre IH]; rewrite occurs_unfold.
  - change (String.append "" (String.append pat post)) with (String.append pat post).
    rewrite prefix_append. reflexivity.
  - change (String.append (String c pre) (String.append pat post))
      with (String c (String.append pre (String.append pat post))).
    cbv beta iota. rewrite IH. apply orb_true_r.
Qed.

Lemma not_occurs_absent (pat s : string) : occurs pat s = false -> absent pat s.
Proof.
  intros Ho pre post ->. rewrite occurs_append in Ho. discriminate.
Qed.

Section BearerExample.
#[local] Existing Instance Sample.crypto.

Lemma bearer_scheme_is_optional_witness :
  bearer_token (Some (String.append "Bearer " ann_token)) = Some ann_token /\
  (forall next,
     run (authenticate (Req.mk (Some (String.append "Bearer " ann_token)) "" None tt) next)
       Sample.store
     = run (next Sample.ann) Sample.store) /\
  (forall next,
     run (authenticate (Req.mk (Some ann_token) "" None tt) next) Sample.store
     = run (next Sample.ann) Sample.store).
Proof.
  split; [| split].
  - apply (proj1 (bearer_scheme_is_optional (Req.mk None "" None tt) Sample.store
                    ann_token (Sample.hex24 2) 2%N Sample.ann (fun _ => Throw CastError)
                    ltac:(discriminate) eq_refl eq_refl eq_refl)).
  - intros next.
    apply (proj1 (proj2 (bearer_scheme_is_optional
                           (Req.mk (Some (String.append "Bearer " ann_token)) "" None tt)
                           Sample.store ann_token (Sample.hex24 2) 2%N Sample.ann next
                           ltac:(discriminate) eq_refl eq_refl eq_refl))).
    reflexivity.
  - intros next.
    apply (proj2 (proj2 (bearer_scheme_is_optional
                           (Req.mk (Some ann_token) "" None tt)
                           Sample.store ann_token (Sample.hex24 2) 2%N Sample.ann next
                           ltac:(discriminate) eq_refl eq_refl eq_refl))).
    + apply not_occurs_absent. reflexivity.
    + reflexivity.
Defined.
End BearerExample.

(** X4.  Registering and then logging in with the same email and password
    succeeds, provided comparing a password with its own hash succeeds: the
    login answers 200 with the identifier, name, email and role the
    registration stored, and leaves the store as the registration left it.
    And the token both hand out, sent as a bearer token, authenticates as the
    new user whenever the verifier returns the identifier that was signed. *)
Theorem register_then_login `{Crypto} `{PasswordCompare}
    (req : Req.t AuthRoute.RegisterBody) (s : Store) :
  let b := Req.body req in
  let s1 := snd (respond (AuthRoute.register req) s) in
  let u := registered_user b s in
  registrable b s ->
  bcrypt_compare (AuthRoute.password b) (bcrypt_hash (AuthRoute.password b)) = true ->
  (forall auth i f,
     respond (Login.login
                (Req.mk auth i f (Login.mkBody (AuthRoute.email b) (AuthRoute.password b))))
       s1
     = (ok (MessageUserToken "Login successful" (jwt_sign (User._id u)) (User._id u)
              (AuthRoute.name b) (AuthRoute.email b)
              (AuthRoute.role_or_user (AuthRoute.role b))), s1)) /\
  (forall (sid : string) (B : Type) (r : Req.t B),
     jwt_sign (User._id u) <> "" ->
     jwt_verify (jwt_sign (User._id u)) = Some sid ->
     castObjectId (IdStr sid) = Some (User._id u) ->
     Req.authorization r = Some (String.append "Bearer " (jwt_sign (User._id u))) ->
     Authenticated r s1 u).
Proof.
  intros b s1 u Hreg Hlaw.
  assert (s1 = with_users (insert (User._id u) u) s) as Hs1.
  { unfold s1. rewrite (run_register_created req s Hreg). reflexivity. }
  destruct Hreg as (Hn & He & Hp & Hr & Hfresh).
  split.
  - intros auth i f. rewrite run_login. cbn [Req.body Login.email Login.password].
    rewrite Hs1. cbn [users with_users].
    destruct (find_one _ _) as [u' |] eqn:Ef.
    + apply find_one_Some in Ef as (k & Hk & Hem). apply has_email_true in Hem.
      apply lookup_insert_Some in Hk as [[_ <-] | [_ Hk]].
      * cbn [User.password u registered_user]. fold b. rewrite Hlaw. reflexivity.
      * exfalso. exact (Hfresh k u' Hk Hem).
    + rewrite find_one_None in Ef.
      specialize (Ef (User._id u) u (lookup_insert_eq _ _ _)).
      assert (has_email (AuthRoute.email b) u = true) by (apply has_email_true; reflexivity).
      congruence.
  - intros sid B r Hne Hv Hc Hh.
    apply (authenticated r s1 u _ sid (User._id u) Hh);
      rewrite ?remove_first_prefix; try assumption.
    rewrite Hs1. cbn [users with_users]. apply lookup_insert_eq.
Qed.

Section RegisterLoginExample.
#[local] Existing Instance Sample.crypto.
#[local] Existing Instance sample_compare.

Lemma register_then_login_witness :
  let s1 := snd (respond (AuthRoute.register eve_registers) Sample.store) in
  let u := registered_user (Req.body eve_registers) Sample.store in
  respond (Login.login eve_logs_in) s1
  = (ok (MessageUserToken "Login successful" (jwt_sign (User._id u)) (User._id u)
           "Eve" "eve@example.org" "user"), s1) /\
  Authenticated
    (Req.mk (Some (String.append "Bearer " (jwt_sign (User._id u)))) "" None tt) s1 u.
Proof.
  intros s1 u.
  destruct (@register_then_login Sample.crypto sample_compare eve_registers Sample.store
              eve_registrable ltac:(vm_compute; reflexivity))
    as [Hlogin Hauth].
  split.
  - exact (Hlogin None "" None).
  - apply (Hauth (Sample.hex24 (User._id u))); try reflexivity. discriminate.
Defined.
End RegisterLoginExample.

(** ** Reading one job *)

Section JobDetailsLemmas.
Context `{Crypto}.

End JobDetailsLemmas.


Section JobDetailsExample.
#[local] Existing Instance Sample.crypto.

End JobDetailsExample.

(** ** Deleting one's application *)

(** X6.  [DELETE /api/applications/:id] lets the applicant and
    administrators through and nobody else: a user who is neither is answered
    403 and nothing changes; for the applicant or an administrator the record
    is removed, the counter of its job (when the job exists) is lowered by
    one, and nothing else changes. *)
Theorem delete_application_by_applicant_or_admin_only `{Crypto}
    (req : Req.t unit) (s : Store) (u : User.t) (o : ObjectId) (a : Application.t) :
  Authenticated req s u ->
  castObjectId (IdStr (Req.id req)) = Some o ->
  applications s !! o = Some a ->
  (Application.applicant a <> User._id u ->
   User.role u <> "admin" ->
   respond (ApplicationsRoute.delete_application req) s
   = (mkRes 403 (Message "Access denied"), s)) /\
  (Application.applicant a = User._id u \/ User.role u = "admin" ->
   exists s',
     respond (ApplicationsRoute.delete_application req) s
     = (ok (Message "Application deleted successfully"), s') /\
     users s' = users s /\
     applications s' = delete o (applications s) /\
     jobs s' = match jobs s !! Application.job a with
               | Some job => <[Application.job a := inc_count (-1) job]> (jobs s)
               | None => jobs s
               end).
Proof.
  intros Ha Hc Ho.
  assert (run (ApplicationsRoute.delete_application req) s
          = run (ApplicationsRoute.delete_handler req u) s) as Hrun
    by (unfold ApplicationsRoute.delete_application; apply run_authenticate_ok, Ha).
  unfold respond. rewrite Hrun. clear Hrun. unfold ApplicationsRoute.delete_handler.
  rewrite run_try_catch, run_bind, run_call. cbn [exec_op]. unfold find_by_id.
  rewrite Hc, Ho. split.
  - intros Hne Hrole.
    apply N.eqb_neq in Hne. apply String.eqb_neq in Hrole. rewrite Hne, Hrole.
    reflexivity.
  - intros Hallowed.
    assert (negb (N.eqb (Application.applicant a) (User._id u))
            && negb (String.eqb (User.role u) "admin") = false) as ->.
    { destruct Hallowed as [E | E]; [apply N.eqb_eq in E | apply String.eqb_eq in E];
        rewrite E; [reflexivity | apply andb_false_r]. }
    rewrite run_bind, run_call. cbn [exec_op]. rewrite Hc.
    rewrite run_bind, run_call. cbn [exec_op castObjectId jobs with_applications].
    destruct (jobs s !! Application.job a) as [job |]; cbn [run];
      eexists; repeat split; reflexivity.
Qed.

Lemma authenticated_same_users `{Crypto} {B} (req : Req.t B) (s s' : Store) (u : User.t) :
  users s' = users s -> Authenticated req s u -> Authenticated req s' u.
Proof.
  intros Hu [h sid o Hh Hne Hv Hc Hl].
  apply (authenticated req s' u h sid o); try assumption. rewrite Hu. exact Hl.
Qed.

Lemma cy_authenticated {B} (i : string) (f : option string) (b : B) :
  Authenticated (H := Sample.crypto) (Req.mk (Sample.bearer cy) i f b) store_with_cy cy.
Proof. apply (sample_authenticated store_with_cy cy); reflexivity. Defined.

Section DeleteApplicationExample.
#[local] Existing Instance Sample.crypto.

Lemma delete_application_by_applicant_or_admin_only_witness :
  respond (ApplicationsRoute.delete_application cy_deletes_32) store_with_cy
  = (mkRes 403 (Message "Access denied"), store_with_cy) /\
  exists s',
    respond (ApplicationsRoute.delete_application ann_deletes_32) Sample.store
    = (ok (Message "Application deleted successfully"), s') /\
    users s' = users Sample.store /\
    applications s' = delete 32%N (applications Sample.store) /\
    jobs s' = match jobs Sample.store !! Application.job Sample.app32 with
              | Some job => <[Application.job Sample.app32 := inc_count (-1) job]>
                              (jobs Sample.store)
              | None => jobs Sample.store
              end.
Proof.
  split.
  - apply (proj1 (delete_application_by_applicant_or_admin_only cy_deletes_32
                    store_with_cy cy 32%N Sample.app32
                    (cy_authenticated _ _ _) eq_refl eq_refl));
      discriminate.
  - apply (proj2 (delete_application_by_applicant_or_admin_only ann_deletes_32
                    Sample.store Sample.ann 32%N Sample.app32
                    ltac:(unfold ann_deletes_32;
                          apply (sample_authenticated Sample.store Sample.ann);
                          reflexivity)
                    eq_refl eq_refl)).
    left. reflexivity.
Defined.
End DeleteApplicationExample.

(** ** Applying *)


Section ValidationExample.
#[local] Existing Instance Sample.crypto.

End ValidationExample.

Section ApplyLemmas.
Context `{Crypto}.

Lemma applied_after_apply (s : Store) (j u : ObjectId) (job : Job.t) (a : Application.t) :
  Application.job a = j ->
  Application.applicant a = u ->
  applied (after_apply j job a s) j u.
Proof.
  intros Hj Hu. exists (fresh (dom (applications s))), a.
  split; [| split; assumption].
  unfold after_apply. cbn [applications with_jobs with_applications].
  apply lookup_insert_eq.
Qed.

Lemma run_apply_created (req : Req.t JobsRoute.ApplyBody) (s : Store) (u : User.t)
    (j : ObjectId) (job : Job.t) :
  Authenticated req s u ->
  castObjectId (IdStr (Req.id req)) = Some j ->
  jobs s !! j = Some job ->
  ~ applied s j (User._id u) ->
  respond (JobsRoute.post_apply req) s
  = (mkRes 201 (MessageApplication "Application submitted successfully"
                  (applied_document req u j s)),
     after_apply j job (applied_document req u j s) s).
Proof.
  intros Ha Hc Hj Hna. apply not_applied_find_one in Hna.
  unfold respond, JobsRoute.post_apply.
  rewrite (run_authenticate_ok _ _ _ _ Ha). unfold JobsRoute.apply_handler.
  rewrite run_try_catch, run_bind, run_call. cbn [exec_op]. unfold find_by_id.
  rewrite Hc, Hj. rewrite run_bind, run_call. cbn [exec_op]. rewrite Hc, Hna.
  rewrite run_bind, run_call. cbn [exec_op Application.f_job Application.f_applicant].
  rewrite Hc, Hna. cbn [bool_decide decide_rel is_Some_dec option_rect].
  rewrite run_bind, run_call. cbn [exec_op]. rewrite Hc.
  cbn [jobs with_applications]. rewrite Hj. reflexivity.
Qed.

Lemma run_create_created (req : Req.t ApplicationsRoute.CreateBody) (s : Store) (u : User.t)
    (jid : string) (j : ObjectId) (job : Job.t) :
  Authenticated req s u ->
  ApplicationsRoute.jobId (Req.body req) = Some jid ->
  truthy (ApplicationsRoute.coverLetter (Req.body req)) = true ->
  castObjectId (IdStr jid) = Some j ->
  jobs s !! j = Some job ->
  ~ applied s j (User._id u) ->
  respond (ApplicationsRoute.post_application req) s
  = (mkRes 201 (MessageApplication "Application submitted successfully"
                  (created_document req u j s)),
     after_apply j job (created_document req u j s) s).
Proof.
  intros Ha Hid Hcl Hc Hj Hna. apply not_applied_find_one in Hna.
  apply castObjectId_str in Hc as [Hhex Hval].
  unfold respond, ApplicationsRoute.post_application.
  rewrite (run_authenticate_ok _ _ _ _ Ha). unfold ApplicationsRoute.create_handler.
  rewrite run_try_catch, Hid, (is_hex24_truthy _ Hhex), Hcl. cbn [negb from_option id].
  rewrite Hhex, Hval. cbn [negb].
  rewrite run_bind, run_call. cbn [exec_op]. unfold find_by_id. cbn [castObjectId].
  rewrite Hj. rewrite run_bind, run_call. cbn [exec_op castObjectId]. rewrite Hna.
  rewrite run_bind, run_call.
  cbn [exec_op castObjectId Application.f_job Application.f_applicant].
  rewrite Hna. cbn [bool_decide decide_rel is_Some_dec option_rect].
  rewrite run_bind, run_call. cbn [exec_op castObjectId].
  cbn [jobs with_applications]. rewrite Hj. reflexivity.
Qed.
End ApplyLemmas.

(** X8.  A first application through [POST /api/jobs/:id/apply]: when the
    job exists and the user has no application for it, the answer is 201, one
    record is added under an unused identifier, for this job and this user,
    with status ["pending"], the cover letter and the uploaded file's name,
    and the job's counter goes up by one; nothing else changes.  The same
    request sent again is then answered 400 and changes nothing.  When the
    job does not exist the answer is 404 and nothing changes. *)
Theorem first_apply_then_second `{Crypto}
    (req : Req.t JobsRoute.ApplyBody) (s : Store) (u : User.t) (j : ObjectId) :
  Authenticated req s u ->
  castObjectId (IdStr (Req.id req)) = Some j ->
  (forall job,
     jobs s !! j = Some job ->
     ~ applied s j (User._id u) ->
     let a := applied_document req u j s in
     let s' := after_apply j job a s in
     respond (JobsRoute.post_apply req) s
     = (mkRes 201 (MessageApplication "Application submitted successfully" a), s') /\
     applications s !! Application._id a = None /\
     Application.job a = j /\
     Application.applicant a = User._id u /\
     Application.status a = "pending" /\
     Application.coverLetter a = JobsRoute.coverLetter (Req.body req) /\
     Application.resume a = Req.file req /\
     respond (JobsRoute.post_apply req) s'
     = (mkRes 400 (Message "Already applied for this job"), s')) /\
  (jobs s !! j = None ->
   respond (JobsRoute.post_apply req) s = (mkRes 404 (Message "Job not found"), s)).
Proof.
  intros Ha Hc. split.
  - intros job Hj Hna a s'.
    split; [apply run_apply_created; assumption |].
    split; [apply fresh_not_in |]. repeat (split; [reflexivity |]).
    apply (second_apply_jobs req s' u j).
    + eapply authenticated_same_users; [| exact Ha]. reflexivity.
    + exact Hc.
    + exists (inc_count 1 job). unfold s', after_apply. cbn [jobs with_jobs].
      apply lookup_insert_eq.
    + apply applied_after_apply; reflexivity.
  - intros Hj. unfold respond, JobsRoute.post_apply.
    rewrite (run_authenticate_ok _ _ _ _ Ha). unfold JobsRoute.apply_handler.
    rewrite run_try_catch, run_bind, run_call. cbn [exec_op]. unfold find_by_id.
    rewrite Hc, Hj. reflexivity.
Qed.

Lemma cy_not_applied : ~ applied store_with_cy 16 3.
Proof.
  intros (i & a & Hi & _ & Ha). simpl in Hi.
  apply lookup_insert_Some in Hi as [[_ <-] | [_ Hi]]; [discriminate Ha |].
  rewrite lookup_empty in Hi. discriminate.
Defined.

Section FirstApplyExample.
#[local] Existing Instance Sample.crypto.

Lemma first_apply_then_second_witness :
  (let a := applied_document cy_applies cy 16 store_with_cy in
   let s' := after_apply 16 Sample.job16 a store_with_cy in
   respond (JobsRoute.post_apply cy_applies) store_with_cy
   = (mkRes 201 (MessageApplication "Application submitted successfully" a), s') /\
   applications store_with_cy !! Application._id a = None /\
   Application.job a = 16%N /\
   Application.applicant a = User._id cy /\
   Application.status a = "pending" /\
   Application.coverLetter a = JobsRoute.coverLetter (Req.body cy_applies) /\
   Application.resume a = Req.file cy_applies /\
   respond (JobsRoute.post_apply cy_applies) s'
   = (mkRes 400 (Message "Already applied for this job"), s')) /\
  respond (JobsRoute.post_apply cy_applies_17) store_with_cy
  = (mkRes 404 (Message "Job not found"), store_with_cy).
Proof.
  split.
  - apply (proj1 (first_apply_then_second cy_applies store_with_cy cy 16%N
                    (cy_authenticated _ _ _) eq_refl) Sample.job16 eq_refl cy_not_applied).
  - apply (proj2 (first_apply_then_second cy_applies_17 store_with_cy cy 17%N
                    (cy_authenticated _ _ _) eq_refl)).
    reflexivity.
Defined.
End FirstApplyExample.

(** X9.  A first application through [POST /api/applications]: with a
    24-digit [jobId] naming an existing job, a cover letter, and no earlier
    application of the user for that job, the answer is 201; the one record
    added carries the job, the user, status ["pending"] and the fields of
    the body, and the job's counter goes up by one.  The same request sent
    again is answered 400 and changes nothing.  When the job does not exist
    the answer is 404 and nothing changes. *)
Theorem first_application_then_second `{Crypto}
    (req : Req.t ApplicationsRoute.CreateBody) (s : Store) (u : User.t)
    (jid : string) (j : ObjectId) :
  Authenticated req s u ->
  ApplicationsRoute.jobId (Req.body req) = Some jid ->
  truthy (ApplicationsRoute.coverLetter (Req.body req)) = true ->
  castObjectId (IdStr jid) = Some j ->
  (forall job,
     jobs s !! j = Some job ->
     ~ applied s j (User._id u) ->
     let a := created_document req u j s in
     let s' := after_apply j job a s in
     respond (ApplicationsRoute.post_application req) s
     = (mkRes 201 (MessageApplication "Application submitted successfully" a), s') /\
     applications s !! Application._id a = None /\
     Application.job a = j /\
     Application.applicant a = User._id u /\
     Application.status a = "pending" /\
     Application.coverLetter a = ApplicationsRoute.coverLetter (Req.body req) /\
     Application.portfolio a = ApplicationsRoute.portfolio (Req.body req) /\
     jobs s' !! j = Some (inc_count 1 job) /\
     users s' = users s /\
     (exists r, status r = 400%nat /\
        respond (ApplicationsRoute.post_application req) s' = (r, s'))) /\
  (jobs s !! j = None ->
   respond (ApplicationsRoute.post_application req) s
   = (mkRes 404 (Message "Job not found"), s)).
Proof.
  intros Ha Hid Hcl Hc. split.
  - intros job Hj Hna a s'.
    split; [eapply run_create_created; eassumption |].
    split; [apply fresh_not_in |]. repeat (split; [reflexivity |]).
    split; [unfold s', after_apply; cbn [jobs with_jobs]; apply lookup_insert_eq |].
    split; [reflexivity |].
    apply (second_apply_applications req s' u jid j).
    + eapply authenticated_same_users; [| exact Ha]. reflexivity.
    + exact Hid.
    + exact Hc.
    + exists (inc_count 1 job). unfold s', after_apply. cbn [jobs with_jobs].
      apply lookup_insert_eq.
    + apply applied_after_apply; reflexivity.
  - intros Hj. apply castObjectId_str in Hc as [Hhex Hval].
    unfold respond, ApplicationsRoute.post_application.
    rewrite (run_authenticate_ok _ _ _ _ Ha). unfold ApplicationsRoute.create_handler.
    rewrite run_try_catch, Hid, (is_hex24_truthy _ Hhex), Hcl. cbn [negb from_option id].
    rewrite Hhex, Hval. cbn [negb].
    rewrite run_bind, run_call. cbn [exec_op]. unfold find_by_id. cbn [castObjectId].
    rewrite Hj. reflexivity.
Qed.

Section FirstApplicationExample.
#[local] Existing Instance Sample.crypto.

Lemma first_application_then_second_witness :
  (let req := cy_creates (Some Sample.id16) (Some "Hello") in
   let a := created_document req cy 16 store_with_cy in
   let s' := after_apply 16 Sample.job16 a store_with_cy in
   respond (ApplicationsRoute.post_application req) store_with_cy
   = (mkRes 201 (MessageApplication "Application submitted successfully" a), s') /\
   applications store_with_cy !! Application._id a = None /\
   Application.job a = 16%N /\
   Application.applicant a = User._id cy /\
   Application.status a = "pending" /\
   Application.coverLetter a = ApplicationsRoute.coverLetter (Req.body req) /\
   Application.portfolio a = ApplicationsRoute.portfolio (Req.body req) /\
   jobs s' !! 16%N = Some (inc_count 1 Sample.job16) /\
   users s' = users store_with_cy /\
   (exists r, status r = 400%nat /\
      respond (ApplicationsRoute.post_application req) s' = (r, s'))) /\
  respond (ApplicationsRoute.post_application
             (cy_creates (Some (Sample.hex24 17)) (Some "Hello"))) store_with_cy
  = (mkRes 404 (Message "Job not found"), store_with_cy).
Proof.
  split.
  - apply (proj1 (first_application_then_second
                    (cy_creates (Some Sample.id16) (Some "Hello")) store_with_cy cy
                    Sample.id16 16%N (cy_authenticated _ _ _) eq_refl eq_refl eq_refl)
             Sample.job16 eq_refl cy_not_applied).
  - apply (proj2 (first_application_then_second
                    (cy_creates (Some (Sample.hex24 17)) (Some "Hello")) store_with_cy cy
                    (Sample.hex24 17) 17%N (cy_authenticated _ _ _) eq_refl eq_refl
                    eq_refl)).
    reflexivity.
Defined.
End FirstApplicationExample.

(** ** Running programs over the further operations *)

Section ScriptLemmas.
Context `{Crypto}.

Lemma run_s_bind {A B} (p : Script A) (f : A -> Script B) (s : Store) :
  run_s (bind_s p f) s =
  match run_s p s with
  | (Ok a, s') => run_s (f a) s'
  | (Raise e, s') => (Raise e, s')
  end.
Proof.
  revert s. induction p as [a | e | X op k IH]; intros s; simpl; try reflexivity.
  destruct (exec_more op s) as [x s']. apply IH.
Qed.

Lemma run_s_try {A} (p : Script A) (h : Exn -> Script A) (s : Store) :
  run_s (try_s p h) s =
  match run_s p s with
  | (Ok a, s') => (Ok a, s')
  | (Raise e, s') => run_s (h e) s'
  end.
Proof.
  revert s. induction p as [a | e | X op k IH]; intros s; simpl; try reflexivity.
  destruct (exec_more op s) as [x s']. apply IH.
Qed.

Lemma run_s_call {X} (op : MoreOp (Except X)) (s : Store) :
  run_s (call_s op) s = exec_more op s.
Proof.
  unfold call_s. simpl. destruct (exec_more op s) as [[x | e] s']; reflexivity.
Qed.

Lemma run_s_ask {X} (op : MoreOp X) (s : Store) :
  run_s (ask op) s = (Ok (fst (exec_more op s)), snd (exec_more op s)).
Proof.
  unfold ask. simpl. destruct (exec_more op s) as [x s']; reflexivity.
Qed.

Lemma run_s_lift {A} (p : Prog A) (s : Store) : run_s (lift p) s = run p s.
Proof.
  revert s. induction p as [a | e | X op k IH]; intros s; simpl; try reflexivity.
  destruct (exec_op op s) as [x s']. apply IH.
Qed.

Lemma run_s_authenticate_ok {B} (req : Req.t B) (s : Store) (u : User.t)
    (next : User.t -> Script Reply) :
  Authenticated req s u ->
  run_s (authenticate_s req next) s = run_s (next u) s.
Proof.
  intros Ha. unfold authenticate_s.
  rewrite run_s_bind, run_s_lift, run_try_catch, (run_resolve_user_ok req s u Ha).
  reflexivity.
Qed.

Lemma run_s_admin_only {B} (req : Req.t B) (s : Store) (admin : User.t) (h : Script Reply) :
  Authenticated req s admin ->
  User.role admin = "admin" ->
  run_s (admin_only_s req h) s = run_s h s.
Proof.
  intros Ha Hadmin. unfold admin_only_s.
  rewrite (run_s_authenticate_ok _ _ _ _ Ha). unfold authorize_s.
  rewrite includes_admin, Hadmin. reflexivity.
Qed.

Lemma run_s_admin_only_forbidden {B} (req : Req.t B) (s : Store) (u : User.t)
    (h : Script Reply) :
  Authenticated req s u ->
  User.role u <> "admin" ->
  answer_s (admin_only_s req h) s
  = (mkReply 403 (Plain (Message "Access denied. Insufficient permissions.")), s).
Proof.
  intros Ha Hrole. unfold answer_s, admin_only_s.
  rewrite (run_s_authenticate_ok _ _ _ _ Ha). unfold authorize_s.
  rewrite includes_admin. apply String.eqb_neq in Hrole. rewrite Hrole. reflexivity.
Qed.

Lemma run_put_role (req : Req.t AdminMore.RoleBody) (s : Store) (admin : User.t) :
  Authenticated req s admin ->
  User.role admin = "admin" ->
  answer_s (AdminMore.put_role req) s =
  match AdminMore.role (Req.body req) with
  | None => (mkReply 400 (Plain (Message "Invalid role")), s)
  | Some r =>
      if includes ["user"; "admin"] r then
        match castObjectId (IdStr (Req.id req)) with
        | None => (internal_reply CastError, s)
        | Some o =>
            match users s !! o with
            | None => (mkReply 404 (Plain (Message "User not found")), s)
            | Some u =>
                (mkReply 200
                   (Plain (MessageUser "User role updated successfully"
                             (Some (AuthRoute.select_minus_password
                                      (apply_set u (SetRole r)))))),
                 with_users (insert o (apply_set u (SetRole r))) s)
            end
        end
      else (mkReply 400 (Plain (Message "Invalid role")), s)
  end.
Proof.
  intros Ha Hadmin. unfold answer_s, AdminMore.put_role.
  rewrite (run_s_admin_only _ _ _ _ Ha Hadmin), run_s_try.
  destruct (AdminMore.role (Req.body req)) as [r |]; [| reflexivity].
  destruct (includes ["user"; "admin"] r); cbn [negb]; [| reflexivity].
  rewrite run_s_bind, run_s_call. cbn [exec_more from_option].
  destruct (castObjectId (IdStr (Req.id req))) as [o |]; [| reflexivity].
  destruct (users s !! o); reflexivity.
Qed.
End ScriptLemmas.

(** ** Changing a user's role *)

(** X10.  [PUT /api/admin/users/:id/role], for an administrator: a role
    other than ["user"] and ["admin"] (or none) is answered 400 and nothing
    changes; an unknown user is answered 404 and nothing changes; otherwise
    the answer is 200 and the stored user has the new role, every other field
    and every other document being as before.  Callers who are not
    administrators are answered 403. *)
Theorem put_role_sets_only_the_role `{Crypto}
    (req : Req.t AdminMore.RoleBody) (s : Store) (caller : User.t) (t : ObjectId) :
  Authenticated req s caller ->
  castObjectId (IdStr (Req.id req)) = Some t ->
  (User.role caller <> "admin" ->
   exists r, code r = 403%nat /\ answer_s (AdminMore.put_role req) s = (r, s)) /\
  (User.role caller = "admin" ->
   (forall r,
      AdminMore.role (Req.body req) = r ->
      (forall v, r = Some v -> v <> "user" /\ v <> "admin") ->
      answer_s (AdminMore.put_role req) s
      = (mkReply 400 (Plain (Message "Invalid role")), s)) /\
   (forall v,
      AdminMore.role (Req.body req) = Some v ->
      v = "user" \/ v = "admin" ->
      (users s !! t = None ->
       answer_s (AdminMore.put_role req) s
       = (mkReply 404 (Plain (Message "User not found")), s)) /\
      (forall u,
         users s !! t = Some u ->
         exists r s' u',
           answer_s (AdminMore.put_role req) s = (r, s') /\
           code r = 200%nat /\
           users s' = <[t := u']> (users s) /\
           jobs s' = jobs s /\
           applications s' = applications s /\
           User.role u' = v /\
           User._id u' = User._id u /\ User.name u' = User.name u /\
           User.email u' = User.email u /\ User.password u' = User.password u /\
           User.prof u' = User.prof u))).
Proof.
  intros Ha Hc. split.
  - intros Hrole. eexists. unfold AdminMore.put_role.
    split; [| eapply run_s_admin_only_forbidden; eassumption]. reflexivity.
  - intros Hadmin. split.
    + intros r Hr Hbad. rewrite (run_put_role req s caller Ha Hadmin), Hr.
      destruct r as [v |]; [| reflexivity].
      destruct (Hbad v eq_refl) as [Hu Had].
      apply String.eqb_neq in Hu, Had. unfold includes. cbn [existsb].
      rewrite Hu, Had. reflexivity.
    + intros v Hv Hin.
      assert (includes ["user"; "admin"] v = true) as Hinc
        by (destruct Hin as [-> | ->]; reflexivity).
      split.
      * intros Hnone. rewrite (run_put_role req s caller Ha Hadmin), Hv, Hinc, Hc, Hnone.
        reflexivity.
      * intros u Hu. rewrite (run_put_role req s caller Ha Hadmin), Hv, Hinc, Hc, Hu.
        eexists _, _, _. split; [reflexivity |]. repeat split; reflexivity.
Qed.

Section PutRoleExample.
#[local] Existing Instance Sample.crypto.

Lemma put_role_sets_only_the_role_witness :
  (exists r, code r = 403%nat /\
     answer_s (AdminMore.put_role (sets_role Sample.ann 2 (Some "admin"))) Sample.store
     = (r, Sample.store)) /\
  answer_s (AdminMore.put_role (sets_role Sample.bea 2 (Some "owner"))) Sample.store
  = (mkReply 400 (Plain (Message "Invalid role")), Sample.store) /\
  answer_s (AdminMore.put_role (sets_role Sample.bea 9 (Some "admin"))) Sample.store
  = (mkReply 404 (Plain (Message "User not found")), Sample.store) /\
  (exists r s' u',
     answer_s (AdminMore.put_role (sets_role Sample.bea 2 (Some "admin"))) Sample.store
     = (r, s') /\
     code r = 200%nat /\
     users s' = <[2%N := u']> (users Sample.store) /\
     jobs s' = jobs Sample.store /\
     applications s' = applications Sample.store /\
     User.role u' = "admin" /\
     User._id u' = User._id Sample.ann /\ User.name u' = User.name Sample.ann /\
     User.email u' = User.email Sample.ann /\
     User.password u' = User.password Sample.ann /\
     User.prof u' = User.prof Sample.ann).
Proof.
  assert (forall (t : N) (r : option string),
            Authenticated (sets_role Sample.bea t r) Sample.store Sample.bea) as Hbea.
  { intros t r. unfold sets_role.
    apply (sample_authenticated Sample.store Sample.bea); reflexivity. }
  assert (forall (t : N) (r : option string),
            Authenticated (sets_role Sample.ann t r) Sample.store Sample.ann) as Hann.
  { intros t r. unfold sets_role.
    apply (sample_authenticated Sample.store Sample.ann); reflexivity. }
  split; [| split; [| split]].
  - apply (proj1 (put_role_sets_only_the_role (sets_role Sample.ann 2 (Some "admin"))
                    Sample.store Sample.ann 2%N (Hann _ _) eq_refl)).
    discriminate.
  - apply (proj1 (proj2 (put_role_sets_only_the_role
                           (sets_role Sample.bea 2 (Some "owner"))
                           Sample.store Sample.bea 2%N (Hbea _ _)
                           eq_refl) eq_refl) (Some "owner") eq_refl).
    intros v [= <-]. split; discriminate.
  - apply (proj1 (proj2 (proj2 (put_role_sets_only_the_role
                                  (sets_role Sample.bea 9 (Some "admin"))
                                  Sample.store Sample.bea 9%N
                                  (Hbea _ _) eq_refl) eq_refl)
                    "admin" eq_refl (or_intror eq_refl))).
    reflexivity.
  - apply (proj2 (proj2 (proj2 (put_role_sets_only_the_role
                                  (sets_role Sample.bea 2 (Some "admin"))
                                  Sample.store Sample.bea 2%N
                                  (Hbea _ _) eq_refl) eq_refl)
                    "admin" eq_refl (or_intror eq_refl)) Sample.ann).
    reflexivity.
Defined.
End PutRoleExample.

(** X11.  The guard of [DELETE /api/admin/users/:id] protects an
    administrator's account only while it is one: when an administrator sets
    the role of another administrator to ["user"] and then deletes that user,
    the second request is answered 200 and the account is gone. *)
Theorem demote_then_delete_removes_an_admin `{Crypto}
    (change : Req.t AdminMore.RoleBody) (del : Req.t unit) (s : Store)
    (caller target : User.t) (c t : ObjectId) :
  Authenticated change s caller ->
  Authenticated del s caller ->
  User.role caller = "admin" ->
  users s !! c = Some caller ->
  castObjectId (IdStr (Req.id change)) = Some t ->
  castObjectId (IdStr (Req.id del)) = Some t ->
  AdminMore.role (Req.body change) = Some "user" ->
  users s !! t = Some target ->
  User.role target = "admin" ->
  (forall o, users s !! o = Some caller -> o <> t) ->
  let s1 := snd (answer_s (AdminMore.put_role change) s) in
  exists s2,
    respond (AdminRoute.delete_user del) s1
    = (ok (Message "User deleted successfully"), s2) /\
    users s2 !! t = None /\
    users s2 !! c = Some caller.
Proof.
  intros Hac Had Hadmin Hcaller Hcc Hcd Hrole Ht Htadmin Hother s1.
  pose proof (Hother c Hcaller) as Hct.
  assert (s1 = with_users (insert t (apply_set target (SetRole "user"))) s) as Hs1.
  { unfold s1. rewrite (run_put_role change s caller Hac Hadmin), Hrole.
    cbn [includes existsb String.eqb Ascii.eqb Bool.eqb orb]. rewrite Hcc, Ht.
    reflexivity. }
  assert (Authenticated del s1 caller) as Had1.
  { destruct Had as [h sid o Hh Hne Hv Hco Hl].
    apply (authenticated del s1 caller h sid o); try assumption.
    rewrite Hs1. cbn [users with_users]. rewrite lookup_insert_ne; [exact Hl |].
    intros E. apply (Hother o Hl). symmetry. exact E. }
  unfold respond, AdminRoute.delete_user.
  rewrite (run_admin_only _ _ _ _ Had1 Hadmin).
  rewrite run_try_catch, run_bind, run_call. cbn [exec_op]. unfold find_by_id.
  rewrite Hcd, Hs1. cbn [users with_users]. rewrite lookup_insert_eq.
  cbn [apply_set User.role String.eqb Ascii.eqb Bool.eqb].
  rewrite run_bind, run_call. cbn [exec_op]. rewrite Hcd.
  rewrite run_bind, run_call. cbn [exec_op filter_ref]. rewrite Hcd. cbn [run].
  eexists. split; [reflexivity |].
  cbn [users with_users with_applications].
  split; [apply lookup_delete_eq |].
  rewrite lookup_delete_ne, lookup_insert_ne by (intros E; apply Hct; symmetry; exact E).
  exact Hcaller.
Qed.

Lemma dan_store_users (o : N) (u : User.t) :
  users store_with_dan !! o = Some u ->
  (o = 4%N /\ u = dan) \/ (o = 1%N /\ u = Sample.bea) \/ (o = 2%N /\ u = Sample.ann).
Proof.
  simpl. intros Hu.
  apply lookup_insert_Some in Hu as [[<- <-] | [_ Hu]]; [left; auto |].
  apply lookup_insert_Some in Hu as [[<- <-] | [_ Hu]]; [right; left; auto |].
  apply lookup_insert_Some in Hu as [[<- <-] | [_ Hu]]; [right; right; auto |].
  rewrite lookup_empty in Hu. discriminate.
Defined.

Section DemoteExample.
#[local] Existing Instance Sample.crypto.

Lemma demote_then_delete_removes_an_admin_witness :
  let s1 := snd (answer_s (AdminMore.put_role (sets_role Sample.bea 4 (Some "user")))
                   store_with_dan) in
  exists s2,
    respond (AdminRoute.delete_user (delete_request Sample.bea (Sample.hex24 4))) s1
    = (ok (Message "User deleted successfully"), s2) /\
    users s2 !! 4%N = None /\
    users s2 !! 1%N = Some Sample.bea.
Proof.
  apply (demote_then_delete_removes_an_admin
           (sets_role Sample.bea 4 (Some "user"))
           (delete_request Sample.bea (Sample.hex24 4))
           store_with_dan Sample.bea dan 1%N 4%N).
  - unfold sets_role. apply (sample_authenticated store_with_dan Sample.bea); reflexivity.
  - unfold delete_request.
    apply (sample_authenticated store_with_dan Sample.bea); reflexivity.
  - reflexivity.
  - reflexivity.
  - reflexivity.
  - reflexivity.
  - reflexivity.
  - reflexivity.
  - reflexivity.
  - intros o Ho E. subst o. discriminate Ho.
Defined.
End DemoteExample.

(** X12.  [PUT /api/admin/users/:id/role] has no guard of the kind the
    deletion has: when the only administrator of the store sets their own
    role to ["user"], the answer is 200 and no administrator is left. *)
Theorem last_admin_can_demote_themselves `{Crypto}
    (req : Req.t AdminMore.RoleBody) (s : Store) (caller : User.t) (c : ObjectId) :
  Authenticated req s caller ->
  User.role caller = "admin" ->
  castObjectId (IdStr (Req.id req)) = Some c ->
  users s !! c = Some caller ->
  AdminMore.role (Req.body req) = Some "user" ->
  (forall i u, users s !! i = Some u -> User.role u = "admin" -> i = c) ->
  has_admin s /\
  exists r s',
    answer_s (AdminMore.put_role req) s = (r, s') /\
    code r = 200%nat /\
    ~ has_admin s'.
Proof.
  intros Ha Hadmin Hc Hl Hrole Honly.
  split; [exists c, caller; auto |].
  rewrite (run_put_role req s caller Ha Hadmin), Hrole.
  cbn [includes existsb String.eqb Ascii.eqb Bool.eqb orb]. rewrite Hc, Hl.
  eexists _, _. split; [reflexivity |]. split; [reflexivity |].
  intros (i & u & Hu & Hr). cbn [users with_users] in Hu.
  apply lookup_insert_Some in Hu as [[_ <-] | [Hne Hu]].
  - discriminate Hr.
  - apply Hne. symmetry. exact (Honly i u Hu Hr).
Qed.

Section LastAdminExample.
#[local] Existing Instance Sample.crypto.

Lemma last_admin_can_demote_themselves_witness :
  has_admin Sample.store /\
  exists r s',
    answer_s (AdminMore.put_role (sets_role Sample.bea 1 (Some "user"))) Sample.store
    = (r, s') /\
    code r = 200%nat /\
    ~ has_admin s'.
Proof.
  apply (last_admin_can_demote_themselves (sets_role Sample.bea 1 (Some "user"))
           Sample.store Sample.bea 1%N).
  - unfold sets_role. apply (sample_authenticated Sample.store Sample.bea); reflexivity.
  - reflexivity.
  - reflexivity.
  - reflexivity.
  - reflexivity.
  - intros i u Hu Hr. simpl in Hu.
    apply lookup_insert_Some in Hu as [[<- _] | [_ Hu]]; [reflexivity |].
    apply lookup_insert_Some in Hu as [[_ <-] | [_ Hu]]; [discriminate Hr |].
    rewrite lookup_empty in Hu. discriminate.
Defined.
End LastAdminExample.

(** ** The administrators' job list and the statistics *)


Section ListLemmas.
Context `{Crypto}.


End ListLemmas.


Section AdminJobListExample.
#[local] Existing Instance Sample.crypto.

End AdminJobListExample.

Section StatsLemmas.
Context `{Crypto}.

Lemma length_remove_dups_le (l : list string) :
  (List.length (remove_dups l) <= List.length l)%nat.
Proof.
  induction l as [| x l IH]; simpl; [lia |].
  destruct (decide_rel elem_of x l); simpl; lia.
Qed.

Lemma active_only_matches (j : Job.t) :
  job_matches JobStatistics.active_only j = Job.isActive j.
Proof.
  unfold job_matches, JobStatistics.active_only. simpl.
  rewrite !andb_true_r. reflexivity.
Qed.

Lemma run_job_stats (s : Store) :
  answer_s JobStatistics.get_stats s =
  (mkReply 200
     (JobStats
        (List.length (List.filter (job_matches JobStatistics.active_only)
                        (snd <$> map_to_list (jobs s))))
        (List.length
           (remove_dups
              (Job.company <$> List.filter (job_matches JobStatistics.active_only)
                                 (snd <$> map_to_list (jobs s)))))
        (size (applications s))), s).
Proof.
  unfold answer_s, JobStatistics.get_stats. rewrite run_s_try.
  rewrite run_s_bind, run_s_ask. cbn [exec_more exec_op fst snd].
  rewrite run_s_bind, run_s_ask. cbn [exec_more fst snd].
  rewrite run_s_bind, run_s_ask. cbn [exec_more fst snd run_s count_applications].
  reflexivity.
Qed.
End StatsLemmas.

(** X14.  [GET /api/jobs/stats] leaves the store as it was and answers 200
    with: the number of active jobs; the number of companies, which is the
    length of a duplicate-free list of exactly the companies of the active
    jobs, hence at most the number of active jobs and zero only when there
    is none; and the number of applications. *)
Theorem job_stats_count_active_jobs_and_distinct_companies `{Crypto} (s : Store) :
  exists (totalJobs totalApplications : nat) (companies : list string),
    answer_s JobStatistics.get_stats s
    = (mkReply 200 (JobStats totalJobs (List.length companies) totalApplications), s) /\
    totalJobs
    = List.length (List.filter Job.isActive (snd <$> map_to_list (jobs s))) /\
    totalApplications = size (applications s) /\
    NoDup companies /\
    (forall c, c ∈ companies <-> active_company s c) /\
    (List.length companies <= totalJobs)%nat /\
    (List.length companies = 0%nat <-> totalJobs = 0%nat).
Proof.
  set (active := List.filter (job_matches JobStatistics.active_only)
                   (snd <$> map_to_list (jobs s))).
  assert (List.filter Job.isActive (snd <$> map_to_list (jobs s)) = active) as Hact.
  { unfold active. apply List.filter_ext. intros j. symmetry. apply active_only_matches. }
  exists (List.length active), (size (applications s)),
    (remove_dups (Job.company <$> active)).
  split; [apply run_job_stats |]. split; [rewrite Hact; reflexivity |].
  split; [reflexivity |]. split; [apply NoDup_remove_dups |].
  assert ((List.length (remove_dups (Job.company <$> active)) <= List.length active)%nat)
    as Hle.
  { etransitivity; [apply length_remove_dups_le |]. rewrite length_fmap. lia. }
  split; [| split; [exact Hle |]].
  - intros c. rewrite elem_of_remove_dups, list_elem_of_fmap. unfold active_company. split.
    + intros (j & -> & Hj). apply list_elem_of_In, filter_In in Hj as [Hin Hm].
      rewrite active_only_matches in Hm.
      apply list_elem_of_In, list_elem_of_fmap in Hin as ([i j'] & -> & Hin).
      apply elem_of_map_to_list in Hin. exists i, j'. auto.
    + intros (i & j & Hj & Ha & <-). exists j. split; [reflexivity |].
      apply list_elem_of_In, filter_In. split.
      * apply list_elem_of_In, list_elem_of_fmap. exists (i, j). split; [reflexivity |].
        apply elem_of_map_to_list, Hj.
      * rewrite active_only_matches. exact Ha.
  - split; [| lia].
    intros Hz. destruct active as [| j rest] eqn:Ea; [reflexivity |]. exfalso.
    assert (Job.company j ∈ remove_dups (Job.company <$> j :: rest)) as Hin
      by (apply elem_of_remove_dups; simpl; left).
    destruct (remove_dups (Job.company <$> j :: rest)); [| discriminate Hz].
    inversion Hin.
Qed.

(** X15.  [GET /api/admin/stats], for an administrator, leaves the store as
    it was and answers 200 with the numbers of users, jobs and applications
    and the number of applications whose status is ["pending"]; the last is
    at most the number of applications, and the number of users is at least
    one.  Other callers are answered 403. *)
Theorem admin_stats_count_documents `{Crypto}
    (req : Req.t unit) (s : Store) (caller : User.t) :
  Authenticated req s caller ->
  (User.role caller = "admin" ->
   exists pending,
     answer_s (AdminMore.get_stats req) s
     = (mkReply 200
          (AdminStats (size (users s)) (size (jobs s)) (size (applications s)) pending),
        s) /\
     pending
     = size (filter (fun kv : N * Application.t => Application.status (snd kv) = "pending")
               (applications s)) /\
     (pending <= size (applications s))%nat /\
     (1 <= size (users s))%nat) /\
  (User.role caller <> "admin" ->
   answer_s (AdminMore.get_stats req) s
   = (mkReply 403 (Plain (Message "Access denied. Insufficient permissions.")), s)).
Proof.
  intros Ha. split.
  - intros Hadmin. eexists. split; [| split; [reflexivity | split]].
    + unfold answer_s, AdminMore.get_stats.
      rewrite (run_s_admin_only _ _ _ _ Ha Hadmin), run_s_try.
      rewrite run_s_bind, run_s_ask. cbn [exec_more fst snd].
      rewrite run_s_bind, run_s_ask. cbn [exec_more fst snd].
      rewrite run_s_bind, run_s_ask. cbn [exec_more fst snd].
      rewrite run_s_bind, run_s_ask. cbn [exec_more fst snd run_s count_applications].
      reflexivity.
    + apply map_subseteq_size, map_filter_subseteq.
    + destruct Ha as [h sid o _ _ _ _ Hl].
      destruct (size (users s)) eqn:Es; [| lia].
      apply map_size_empty_inv in Es. rewrite Es, lookup_empty in Hl. discriminate.
  - intros Hrole. unfold AdminMore.get_stats.
    eapply run_s_admin_only_forbidden; eassumption.
Qed.

Section AdminStatsExample.
#[local] Existing Instance Sample.crypto.

Lemma admin_stats_count_documents_witness :
  (exists pending,
     answer_s (AdminMore.get_stats (delete_request Sample.bea "")) Sample.store
     = (mkReply 200
          (AdminStats (size (users Sample.store)) (size (jobs Sample.store))
             (size (applications Sample.store)) pending),
        Sample.store) /\
     pending
     = size (filter (fun kv : N * Application.t => Application.status (snd kv) = "pending")
               (applications Sample.store)) /\
     (pending <= size (applications Sample.store))%nat /\
     (1 <= size (users Sample.store))%nat) /\
  answer_s (AdminMore.get_stats (delete_request Sample.ann "")) Sample.store
  = (mkReply 403 (Plain (Message "Access denied. Insufficient permissions.")),
     Sample.store).
Proof.
  split.
  - apply (proj1 (admin_stats_count_documents (delete_request Sample.bea "") Sample.store
                    Sample.bea
                    ltac:(unfold delete_request;
                          apply (sample_authenticated Sample.store Sample.bea);
                          reflexivity))).
    reflexivity.
  - apply (proj2 (admin_stats_count_documents (delete_request Sample.ann "") Sample.store
                    Sample.ann
                    ltac:(unfold delete_request;
                          apply (sample_authenticated Sample.store Sample.ann);
                          reflexivity))).
    discriminate.
Defined.
End AdminStatsExample.

(** ** The [createAdmin] script *)

Section CreateAdminLemmas.
Context `{Crypto}.

Lemma has_role_true (r : string) (u : User.t) : has_role r u = true <-> User.role u = r.
Proof. unfold has_role. apply String.eqb_eq. Qed.

Lemma has_admin_find_one (s : Store) :
  has_admin s <-> is_Some (find_one (has_role "admin") (users s)).
Proof.
  split.
  - intros (i & u & Hu & Hr).
    destruct (find_one _ _) eqn:E; [eauto |].
    rewrite find_one_None in E. specialize (E i u Hu).
    apply has_role_true in Hr. congruence.
  - intros [u Hf]. apply find_one_Some in Hf as (i & Hu & Hr).
    apply has_role_true in Hr. exists i, u. auto.
Qed.

Lemma email_taken_find_one (s : Store) (e : string) :
  email_taken s e <-> is_Some (find_one (has_email e) (users s)).
Proof.
  split.
  - intros (i & u & Hu & He).
    destruct (find_one _ _) eqn:E; [eauto |].
    rewrite find_one_None in E. specialize (E i u Hu).
    apply has_email_true in He. congruence.
  - intros [u Hf]. apply find_one_Some in Hf as (i & Hu & He).
    apply has_email_true in He. exists i, u. auto.
Qed.

Lemma run_createAdmin (s : Store) :
  run_s CreateAdmin.createAdmin s =
  (Ok tt,
   match find_one (has_role "admin") (users s) with
   | Some _ => s
   | None =>
       match find_one (has_email "bhargav@admin") (users s) with
       | Some _ => s
       | None =>
           with_users (insert (fresh (dom (users s))) (default_admin (fresh (dom (users s)))))
             s
       end
   end).
Proof.
  unfold CreateAdmin.createAdmin. rewrite run_s_try, run_s_bind, run_s_ask.
  cbn [exec_more fst snd].
  destruct (find_one (has_role "admin") (users s)); [reflexivity |].
  rewrite run_s_bind, run_s_call. cbn [exec_more exec_op].
  cbn [String.eqb Ascii.eqb Bool.eqb orb includes role_enum existsb negb].
  destruct (find_one (has_email "bhargav@admin") (users s)); reflexivity.
Qed.
End CreateAdminLemmas.

(** X16.  The [createAdmin] script never fails and is idempotent.  When the
    store has an administrator, or has none but some user already holds the
    email ["bhargav@admin"], it changes nothing (in the second case the
    store is left without administrator).  Otherwise it adds one user, under
    an unused identifier, with role ["admin"] and the hash of the script's
    password, and nothing else changes. *)
Theorem createAdmin_is_idempotent `{Crypto} (s : Store) :
  let s' := snd (run_s CreateAdmin.createAdmin s) in
  fst (run_s CreateAdmin.createAdmin s) = Ok tt /\
  snd (run_s CreateAdmin.createAdmin s') = s' /\
  (has_admin s \/ email_taken s "bhargav@admin" -> s' = s) /\
  (~ has_admin s ->
   ~ email_taken s "bhargav@admin" ->
   users s !! fresh (dom (users s)) = None /\
   s' = with_users (insert (fresh (dom (users s))) (default_admin (fresh (dom (users s))))) s
   /\ has_admin s').
Proof.
  intros s'. unfold s'. rewrite !run_createAdmin. cbn [fst snd].
  split; [reflexivity |].
  destruct (find_one (has_role "admin") (users s)) as [a |] eqn:Ea.
  - rewrite Ea. split; [reflexivity |]. split; [reflexivity |].
    intros Hno. exfalso. apply Hno. apply has_admin_find_one. rewrite Ea. eauto.
  - destruct (find_one (has_email "bhargav@admin") (users s)) as [e |] eqn:Ee.
    + rewrite Ea, Ee. split; [reflexivity |]. split; [reflexivity |].
      intros _ Hno. exfalso. apply Hno. apply email_taken_find_one. rewrite Ee. eauto.
    + assert (has_admin
                (with_users (insert (fresh (dom (users s)))
                               (default_admin (fresh (dom (users s))))) s)) as Hadm.
      { exists (fresh (dom (users s))), (default_admin (fresh (dom (users s)))).
        split; [apply lookup_insert_eq | reflexivity]. }
      split; [| split].
      * apply has_admin_find_one in Hadm as [a Ha]. rewrite Ha. reflexivity.
      * intros [Hx | Hx]; exfalso.
        -- apply has_admin_find_one in Hx as [x Hx]. congruence.
        -- apply email_taken_find_one in Hx as [x Hx]. congruence.
      * intros _ _. split; [apply fresh_not_in |]. split; [reflexivity | exact Hadm].
Qed.

Lemma store_without_admin_users (i : N) (u : User.t) :
  users store_without_admin !! i = Some u -> u = Sample.ann.
Proof.
  simpl. intros Hu.
  apply lookup_insert_Some in Hu as [[_ <-] | [_ Hu]]; [reflexivity |].
  rewrite lookup_empty in Hu. discriminate.
Defined.

Section CreateAdminExample.
#[local] Existing Instance Sample.crypto.

Lemma createAdmin_is_idempotent_witness :
  snd (run_s CreateAdmin.createAdmin Sample.store) = Sample.store /\
  snd (run_s CreateAdmin.createAdmin store_with_squatter) = store_with_squatter /\
  (users store_without_admin !! fresh (dom (users store_without_admin)) = None /\
   snd (run_s CreateAdmin.createAdmin store_without_admin)
   = with_users (insert (fresh (dom (users store_without_admin)))
                   (default_admin (fresh (dom (users store_without_admin)))))
       store_without_admin /\
   has_admin (snd (run_s CreateAdmin.createAdmin store_without_admin))).
Proof.
  split; [| split].
  - apply (proj1 (proj2 (proj2 (createAdmin_is_idempotent Sample.store)))).
    left. exists 1%N, Sample.bea. split; reflexivity.
  - apply (proj1 (proj2 (proj2 (createAdmin_is_idempotent store_with_squatter)))).
    right. eexists 7%N, _. split; reflexivity.
  - apply (proj2 (proj2 (proj2 (createAdmin_is_idempotent store_without_admin)))).
    + intros (i & u & Hu & Hr). apply store_without_admin_users in Hu. subst u.
      discriminate Hr.
    + intros (i & u & Hu & He). apply store_without_admin_users in Hu. subst u.
      discriminate He.
Defined.
End CreateAdminExample.

(** ** Unique emails *)

Section UniqueEmails.
Context `{Crypto}.

Lemma unique_emails_ext (s s' : Store) :
  users s' = users s -> unique_emails s -> unique_emails s'.
Proof. unfold unique_emails. intros ->. auto. Qed.

Lemma unique_emails_subset (s s' : Store) :
  users s' ⊆ users s -> unique_emails s -> unique_emails s'.
Proof.
  intros Hsub Hu i1 i2 u1 u2 H1 H2.
  apply (Hu i1 i2 u1 u2); eapply lookup_weaken; eauto.
Qed.

Lemma unique_emails_insert (s : Store) (o : N) (u : User.t) :
  unique_emails s ->
  (forall i v, users s !! i = Some v -> i <> o -> User.email v <> User.email u) ->
  unique_emails (with_users (insert o u) s).
Proof.
  intros Hu Hnew i1 i2 u1 u2. cbn [users with_users].
  rewrite !lookup_insert. repeat case_decide; subst; intros E1 E2 He; try reflexivity.
  - injection E1 as <-. exfalso. eapply (Hnew i2 u2); eauto.
  - injection E2 as <-. exfalso. eapply (Hnew i1 u1); eauto.
  - eapply Hu; eauto.
Qed.

Lemma exec_op_unique_emails {X} (op : DbOp X) (s : Store) :
  unique_emails s -> unique_emails (snd (exec_op op s)).
Proof.
  intros Hu.
  destruct op; cbn [exec_op];
    try (repeat case_match; cbn [snd];
         first [exact Hu | eapply unique_emails_ext; [reflexivity | exact Hu]]; fail).
  - (* User.create *)
    destruct (_ || _); [exact Hu |].
    destruct (bool_decide _) eqn:Hd; [exact Hu |].
    apply bool_decide_eq_false in Hd. cbn [snd].
    apply unique_emails_insert; [exact Hu |].
    intros i v Hv _ He. apply Hd.
    destruct (find_one (has_email email) (users s)) eqn:Ef; [eauto |].
    rewrite find_one_None in Ef. specialize (Ef i v Hv).
    cbn [User.email] in He. apply has_email_true in He. congruence.
  - (* User.findByIdAndUpdate *)
    destruct (castObjectId i) as [o |]; [| exact Hu].
    destruct (negb _); [exact Hu |].
    destruct (users s !! o) as [u |] eqn:Eo; [| exact Hu].
    destruct (bool_decide _) eqn:Hd; [exact Hu |].
    apply bool_decide_eq_false in Hd. cbn [snd].
    apply unique_emails_insert; [exact Hu |].
    intros k v Hv Hne He. apply Hd.
    destruct (find_one _ (delete o (users s))) eqn:Ef; [eauto |].
    rewrite find_one_None in Ef.
    assert (delete o (users s) !! k = Some v) as Hk
      by (rewrite lookup_delete_ne by congruence; exact Hv).
    specialize (Ef k v Hk). apply has_email_true in He. congruence.
  - (* User.findByIdAndDelete *)
    destruct (castObjectId i) as [o |]; [| exact Hu]. cbn [snd].
    eapply unique_emails_subset; [| exact Hu]. cbn [users with_users].
    apply delete_subseteq.
Qed.

Lemma exec_more_unique_emails {X} (op : MoreOp X) (s : Store) :
  unique_emails s -> unique_emails (snd (exec_more op s)).
Proof.
  intros Hu.
  destruct op; cbn [exec_more]; try exact Hu.
  - apply exec_op_unique_emails, Hu.
  - (* role change *)
    destruct (castObjectId i) as [o |]; [| exact Hu].
    destruct (users s !! o) as [u |] eqn:Eo; [| exact Hu]. cbn [snd].
    apply unique_emails_insert; [exact Hu |].
    intros k v Hv Hne He. apply Hne. exact (Hu k o v u Hv Eo He).
Qed.

Lemma exec_all_unique_emails (l : list AnyOp) (s : Store) :
  unique_emails s -> unique_emails (exec_all l s).
Proof.
  revert s. induction l as [| [X op] l IH]; intros s Hu; simpl; [exact Hu |].
  apply IH. unfold exec_any. simpl. apply exec_op_unique_emails, Hu.
Qed.
End UniqueEmails.

(** X17.  No handler ever makes two users share an email: a store in which
    emails are unique stays so under every program over the operations of
    the routes, handled alone or with the operations of other requests
    between its own, and under every program over the further operations
    (role changes and the [createAdmin] script among them). *)
Theorem emails_stay_unique `{Crypto} (s : Store) :
  unique_emails s ->
  (forall (A : Type) (p : Prog A) (others : list (list AnyOp)),
     unique_emails (snd (run_among others p s))) /\
  (forall (A : Type) (p : Script A), unique_emails (snd (run_s p s))).
Proof.
  intros Hu. split.
  - intros A p. revert s Hu.
    induction p as [a | e | X op k IH]; intros s Hu others; simpl; try exact Hu.
    pose proof (exec_op_unique_emails op _ (exec_all_unique_emails (hd [] others) s Hu))
      as Hs.
    destruct (exec_op op (exec_all (hd [] others) s)) as [x s1]. apply IH, Hs.
  - intros A p. revert s Hu.
    induction p as [a | e | X op k IH]; intros s Hu; simpl; try exact Hu.
    pose proof (exec_more_unique_emails op s Hu) as Hs.
    destruct (exec_more op s) as [x s1]. apply IH, Hs.
Qed.

Lemma sample_unique_emails : unique_emails Sample.store.
Proof.
  intros i1 i2 u1 u2 H1 H2 He. simpl in H1, H2.
  apply lookup_insert_Some in H1 as [[<- <-] | [_ H1]];
    [| apply lookup_insert_Some in H1 as [[<- <-] | [_ H1]];
       [| rewrite lookup_empty in H1; discriminate]];
    (apply lookup_insert_Some in H2 as [[<- <-] | [_ H2]];
     [| apply lookup_insert_Some in H2 as [[<- <-] | [_ H2]];
        [| rewrite lookup_empty in H2; discriminate]]);
    first [reflexivity | discriminate He].
Defined.

Section UniqueEmailsExample.
#[local] Existing Instance Sample.crypto.

Lemma emails_stay_unique_witness :
  (forall (A : Type) (p : Prog A) (others : list (list AnyOp)),
     unique_emails (snd (run_among others p Sample.store))) /\
  (forall (A : Type) (p : Script A), unique_emails (snd (run_s p Sample.store))).
Proof. apply (emails_stay_unique Sample.store), sample_unique_emails. Defined.
End UniqueEmailsExample.

(** ** Identifiers *)








(** ** Paging through the job list *)





Section PagingLemmas.
Context `{Crypto}.

End PagingLemmas.


Section PagingExample.
#[local] Existing Instance Sample.crypto.

End PagingExample.

(** ** The counter, the rollback and flat profile updates at sample inputs *)


Section SampleRuns.
#[local] Existing Instance Sample.crypto.

Lemma counter_kept_by_apply_and_self_delete_witness :
  count_consistent Sample.store /\
  (forall req,
     count_consistent (snd (respond (JobsRoute.post_apply req) Sample.store))) /\
  (forall req,
     count_consistent
       (snd (respond (ApplicationsRoute.post_application req) Sample.store))) /\
  (forall req,
     count_consistent
       (snd (respond (ApplicationsRoute.delete_application req) Sample.store))).
Proof.
  split; [exact sample_count_consistent |].
  exact (counter_kept_by_apply_and_self_delete Sample.store sample_count_consistent).
Defined.


End SampleRuns.
